(** * The interleaver test harness of libbladeRF_test

    A shallow embedding of
    [host/libraries/libbladeRF_test/test_interleaver/src/main.c]:
    the pattern generator [create_buf], the pattern verifier [check_buf],
    the hex dump [print_buf], the per-case driver [test] and [main].

    Conventions of the embedding.
    - [size_t] is a 64-bit unsigned integer: a [Z] whose arithmetic is
      reduced modulo [2^64] where the source computes in [size_t].
    - [uint16_t] and [uint32_t] are [Z] reduced modulo [2^16] and [2^32].
    - The address space is flat and byte addressed; a pointer is the [Z]
      address of its first byte and [NULL] is address [0].  Arithmetic on
      [void *] counts bytes (the GNU extension the source relies on).
      Multi-byte objects are little-endian, as on the hosts the harness runs
      on (the verifier reads two consecutive 16-bit counts as one 32-bit
      word with the first count in the low half).  A load outside the
      allocated block is undefined in ISO C; here it yields whatever the
      address space holds.
    - A computation that divides by zero, stores outside a block it
      allocated or never leaves a loop has no result: the embedding returns
      [None]. *)

From Stdlib Require Import ZArith List Bool Lia Ascii.
Import ListNotations.
Local Open Scope Z_scope.

(** ** Machine integers *)

Definition SIZE_MOD : Z := 2 ^ 64.

(** Reduction of a [size_t] expression. *)
Definition wrap (x : Z) : Z := x mod SIZE_MOD.

(** The largest size an object can have. *)
Definition PTRDIFF_MAX : Z := 2 ^ 63 - 1.

Definition NULL : Z := 0.

(** ** Memory *)

Definition mem : Type := Z -> Z.

Definition load8 (m : mem) (a : Z) : Z := m a mod 256.

Definition store8 (m : mem) (a v : Z) : mem :=
  fun x => if x =? a then v mod 256 else m x.

Definition load16 (m : mem) (a : Z) : Z :=
  load8 m a + 256 * load8 m (a + 1).

Definition store16 (m : mem) (a v : Z) : mem :=
  store8 (store8 m a v) (a + 1) (v / 256).

Definition load32 (m : mem) (a : Z) : Z :=
  load16 m a + 65536 * load16 m (a + 2).

(** ** Globals and constants of main.c *)

Definition CELL_WIDTH : Z := 4.
Definition NUM_COLUMNS : Z := 8.

(** ** create_buf (main.c, lines 25-42) *)

(** The body of [for (size_t i = 0; i < buflen / 2; ++i)]: [k] iterations
    are left, the next one stores [i % 65536] through
    [(uint16_t * )retbuf + i]. *)
Fixpoint create_loop (k : nat) (retbuf i : Z) (m : mem) : mem :=
  match k with
  | O => m
  | S k' => create_loop k' retbuf (i + 1) (store16 m (retbuf + 2 * i) (i mod 65536))
  end.

(** [create_buf_fill retbuf buflen m] is the memory after the fill loop of
    [create_buf], for a block [retbuf] that [malloc] did return. *)
Definition create_buf_fill (retbuf buflen : Z) (m : mem) : mem :=
  create_loop (Z.to_nat (buflen / 2)) retbuf 0 m.

(** ** check_buf (main.c, lines 46-78) *)

(** What one loop iteration looked at: the sample index [i], the address
    [(uint32_t * )buf + i], the expected word and the word found there. *)
Record probe : Type := mkProbe {
  p_index : Z;
  p_ptr : Z;
  p_expect : Z;
  p_actual : Z
}.

(** The lines [check_buf] prints. *)
Inductive line : Type :=
| NullBufLine
| ErrLine (ptr actual expect : Z)
| OkLine (ptr actual : Z).

Definition probe_ok (p : probe) : bool := p_expect p =? p_actual p.

(** Lines 69-74: what one comparison prints. *)
Definition probe_lines (verbose : bool) (p : probe) : list line :=
  if negb (probe_ok p)
  then [ErrLine (p_ptr p) (p_actual p) (p_expect p)]
  else if verbose then [OkLine (p_ptr p) (p_actual p)] else [].

(** Lines 64-67: the expected word and the count after it, from the count
    before the iteration.  [count++ << 16] shifts an [int]; from count 32768
    on the value does not fit one, and it is taken as GCC and Clang define
    it: the same bits, which [+=] converts to [uint32_t]. *)
Definition expect_step (count : Z) : Z * Z :=
  let count := count mod 65536 in
  let expect := count in
  let count := (count + 1) mod 65536 in
  let count := count mod 65536 in
  let expect := (expect + Z.shiftl count 16) mod 2 ^ 32 in
  let count := (count + 1) mod 65536 in
  (expect, count).

(** The loop of lines 61-75, with [n = buflen / samplesize].  The result is
    [retval], the probes in the order they were made and the lines printed. *)
Fixpoint check_loop (fuel : nat) (verbose : bool) (m : mem) (buf n stride : Z)
    (i count : Z) (retval : bool) : option (bool * list probe * list line) :=
  match fuel with
  | O => None
  | S fuel' =>
      if i <? n then
        let ptr := buf + 4 * i in
        let '(expect, count') := expect_step count in
        let p := mkProbe i ptr expect (load32 m ptr) in
        let retval' := if negb (probe_ok p) then false else retval in
        match check_loop fuel' verbose m buf n stride (wrap (i + stride)) count' retval' with
        | Some (r, ps, out) => Some (r, p :: ps, probe_lines verbose p ++ out)
        | None => None
        end
      else Some (retval, [], [])
  end.

(** [check_buf].  The loop index takes pairwise distinct values until it
    either reaches [n] or returns to [0], so testing the loop condition
    [n + 1] times decides whether the loop is ever left (this is
    [check_buf_no_result] below). *)
Definition check_buf (verbose : bool) (m : mem)
    (buf buflen samplesize stride count : Z)
    : option (bool * list probe * list line) :=
  if buf =? NULL then Some (false, [], [NullBufLine])
  else if samplesize =? 0 then None
  else
    let n := buflen / samplesize in
    check_loop (S (Z.to_nat n)) verbose m buf n stride 0 count true.

(** ** The interleaver library, as the harness uses it *)

(** The enumerators of [libbladeRF.h] that [main] names. *)
Inductive bladerf_channel_layout : Type :=
| BLADERF_RX_X1
| BLADERF_TX_X1
| BLADERF_RX_X2
| BLADERF_TX_X2.

Inductive bladerf_format : Type :=
| BLADERF_FORMAT_SC16_Q11
| BLADERF_FORMAT_SC16_Q11_META.

(** [helpers/interleave.h]: the three size queries and the two transforms.
    Their bodies are not part of the harness.  A transform gets the buffer
    address and the memory, and gives back its [int] status and the memory
    it leaves. *)
Class Interleaver : Type := {
  _interleave_calc_bytes_per_sample : bladerf_format -> Z;
  _interleave_calc_metadata_bytes : bladerf_format -> Z;
  _interleave_calc_num_channels : bladerf_channel_layout -> Z;
  _interleave_interleave_buf :
    bladerf_channel_layout -> bladerf_format -> Z -> Z -> mem -> Z * mem;
  _interleave_deinterleave_buf :
    bladerf_channel_layout -> bladerf_format -> Z -> Z -> mem -> Z * mem
}.

(** ** The state the harness runs in *)

(** [w_alloc] lists the answers of the allocator to the [malloc] calls of
    [create_buf] still to come ([NULL] once it is exhausted); [verbose] and
    [quiet] are the two globals of main.c. *)
Record world : Type := mkWorld {
  w_mem : mem;
  w_alloc : list Z;
  verbose : bool;
  quiet : bool
}.

(** What a run does to the buffer and to the library, in order. *)
Inductive event : Type :=
| EvMalloc (size ret : Z)
| EvFree (p : Z)
| EvInterleave (layout : bladerf_channel_layout) (format : bladerf_format)
    (num_samples buf status : Z)
| EvDeinterleave (layout : bladerf_channel_layout) (format : bladerf_format)
    (num_samples buf status : Z)
| EvCheck (buf buflen samplesize stride count : Z) (out : list line) (ret : bool).

(** A computation: from a state to nothing (undefined behaviour or a loop
    that is never left) or to a result, the state after it and the events it
    produced. *)
Definition M (A : Type) : Type := world -> option (A * world * list event).

Definition ret {A : Type} (a : A) : M A := fun w => Some (a, w, []).

Definition bind {A B : Type} (c : M A) (k : A -> M B) : M B :=
  fun w =>
    match c w with
    | None => None
    | Some (a, w1, t1) =>
        match k a w1 with
        | None => None
        | Some (b, w2, t2) => Some (b, w2, t1 ++ t2)
        end
    end.

Notation "x <- c ;; k" := (bind c (fun x => k))
  (at level 61, c at next level, right associativity).
Notation "c ;; k" := (bind c (fun _ => k))
  (at level 61, right associativity).

Definition malloc (size : Z) : M Z := fun w =>
  match w_alloc w with
  | [] => Some (NULL, w, [EvMalloc size NULL])
  | p :: rest =>
      Some (p, mkWorld (w_mem w) rest (verbose w) (quiet w), [EvMalloc size p])
  end.

Definition free (p : Z) : M unit := fun w => Some (tt, w, [EvFree p]).

Definition set_verbose (b : bool) : M unit := fun w =>
  Some (tt, mkWorld (w_mem w) (w_alloc w) b (quiet w), []).

(** [create_buf] in the state: lines 30-41. *)
Definition create_buf (buflen : Z) : M Z :=
  retbuf <- malloc buflen ;;
  if retbuf =? NULL then ret retbuf
  else fun w =>
    Some (retbuf,
          mkWorld (create_buf_fill retbuf buflen (w_mem w)) (w_alloc w)
                  (verbose w) (quiet w),
          []).

(** A call of [check_buf] on the current memory. *)
Definition call_check_buf (buf buflen samplesize stride count : Z) : M bool :=
  fun w =>
    match check_buf (verbose w) (w_mem w) buf buflen samplesize stride count with
    | None => None
    | Some (r, _, out) =>
        Some (r, w, [EvCheck buf buflen samplesize stride count out r])
    end.

(** [print_buf] (lines 82-125) only reads the buffer and prints; its text
    and the row string it allocates and frees for itself are not tracked.
    What is kept is where it has no result: with [verbose] set,
    [columns = min(num_columns, buflen / CELL_WIDTH)] is a divisor in line 91. *)
Definition print_buf (buf buflen num_columns : Z) : M unit := fun w =>
  if negb (verbose w) then Some (tt, w, [])
  else
    let columns :=
      if num_columns <? buflen / CELL_WIDTH then num_columns
      else buflen / CELL_WIDTH in
    if columns =? 0 then None else Some (tt, w, []).

(** ** print_buf in full (main.c, lines 82-125) *)

(** What [print_buf] prints: a row (line 121: the address of its first byte
    and the row string), the warning of line 117, the complaint of line 95. *)
Inductive dump_line : Type :=
| RowLine (bufptr : Z) (rowstr : list ascii)
| WarnLine (rowidx rowsize : Z)
| NoRowLine.

Definition hex_digit (n : Z) : ascii :=
  nth (Z.to_nat n)
      ["0"; "1"; "2"; "3"; "4"; "5"; "6"; "7";
       "8"; "9"; "a"; "b"; "c"; "d"; "e"; "f"]%char "0"%char.

(** [%02x] of a byte. *)
Definition hex2 (b : Z) : list ascii :=
  [hex_digit (b / 16); hex_digit (b mod 16)].

(** What [snprintf] with room for [size] characters leaves before its
    terminator. *)
Definition snprintf_chars (size : Z) (s : list ascii) : list ascii :=
  if size =? 0 then [] else firstn (Z.to_nat (size - 1)) s.

(** While a row is built: the read pointer [buf], [rowidx], and the
    characters written to [rowstr] so far. *)
Record dump_state : Type := mkDump {
  d_buf : Z;
  d_rowidx : Z;
  d_text : list ascii
}.

(** Lines 107-111, [k] bytes to go.  [snprintf] gets [rowsize - rowidx] as
    its size and writes at most that many characters, the terminator
    included.  With [rowidx] beyond [rowsize] the pointer is outside the row
    string and the size has wrapped: there is no result. *)
Fixpoint dump_bytes (k : nat) (m : mem) (rowsize : Z) (st : dump_state)
    : option dump_state :=
  match k with
  | O => Some st
  | S k' =>
      if rowsize <? d_rowidx st then None
      else
        let size := wrap (rowsize - d_rowidx st) in
        dump_bytes k' m rowsize
          (mkDump (d_buf st + 1) (wrap (d_rowidx st + 2))
                  (d_text st ++ snprintf_chars size (hex2 (load8 m (d_buf st)))))
  end.

(** Lines 103-112, [k] columns to go from column [column].  The space of
    line 105 is stored at [rowidx], which has to be inside the row
    string. *)
Fixpoint dump_columns (k : nat) (m : mem) (rowsize column : Z)
    (st : dump_state) : option dump_state :=
  match k with
  | O => Some st
  | S k' =>
      let spaced :=
        if 0 <? column then
          if d_rowidx st <? rowsize
          then Some (mkDump (d_buf st) (wrap (d_rowidx st + 1))
                            (d_text st ++ [" "%char]))
          else None
        else Some st in
      match spaced with
      | None => None
      | Some st1 =>
          match dump_bytes (Z.to_nat CELL_WIDTH) m rowsize st1 with
          | None => None
          | Some st2 => dump_columns k' m rowsize (column + 1) st2
          end
      end
  end.

(** Lines 99-122, [k] rows to go.  Line 114 stores the terminator at
    [rowidx], which has to be inside the row string; the test of line 116
    comes after that store. *)
Fixpoint dump_rows (k : nat) (m : mem) (rowsize columns buf : Z)
    : option (list dump_line) :=
  match k with
  | O => Some []
  | S k' =>
      match dump_columns (Z.to_nat columns) m rowsize 0 (mkDump buf 0 []) with
      | None => None
      | Some st =>
          if d_rowidx st <? rowsize then
            let warning :=
              if rowsize <=? d_rowidx st
              then [WarnLine (d_rowidx st) rowsize] else [] in
            match dump_rows k' m rowsize columns (d_buf st) with
            | None => None
            | Some rest => Some (warning ++ RowLine buf (d_text st) :: rest)
            end
          else None
      end
  end.

(** [print_buf] with what it prints and its own [malloc] and [free];
    [rowstr] is what [malloc] answers in line 93. *)
Definition print_buf_dump (verbose : bool) (m : mem) (rowstr : Z)
    (buf buflen num_columns : Z) : option (list dump_line * list event) :=
  if negb verbose then Some ([], [])
  else
    let columns :=
      if num_columns <? buflen / CELL_WIDTH then num_columns
      else buflen / CELL_WIDTH in
    let rowsize := wrap (1 * (CELL_WIDTH * 2) * (columns + 1) + 1) in
    if columns =? 0 then None
    else
      let rows :=
        if 1 <? buflen / columns / CELL_WIDTH
        then buflen / columns / CELL_WIDTH else 1 in
      if rowstr =? NULL then Some ([NoRowLine], [EvMalloc rowsize NULL])
      else
        match dump_rows (Z.to_nat rows) m rowsize columns buf with
        | None => None
        | Some ls => Some (ls, [EvMalloc rowsize rowstr; EvFree rowstr])
        end.

(** *** Notions for the dump *)

(** The text of a cell: [CELL_WIDTH] bytes from [a], two digits each. *)
Definition cell_text (m : mem) (a : Z) : list ascii :=
  flat_map (fun j => hex2 (load8 m (a + Z.of_nat j)))
           (seq 0 (Z.to_nat CELL_WIDTH)).

(** The text of a row: [columns] cells from [a], a space before each cell
    but the first. *)
Definition row_text (m : mem) (a : Z) (columns : nat) : list ascii :=
  flat_map (fun j => (if (0 <? j)%nat then [" "%char] else []) ++
                     cell_text m (a + CELL_WIDTH * Z.of_nat j))
           (seq 0 columns).

(** [columns], [rowsize] and [rows] of lines 89-91. *)
Definition dump_columns_of (buflen num_columns : Z) : Z :=
  Z.min num_columns (buflen / CELL_WIDTH).

Definition dump_rowsize_of (buflen num_columns : Z) : Z :=
  8 * dump_columns_of buflen num_columns + 9.

Definition dump_rows_of (buflen num_columns : Z) : Z :=
  Z.max (buflen / dump_columns_of buflen num_columns / CELL_WIDTH) 1.

(** The rows of a dump of [rows] rows of [columns] cells from [buf]. *)
Definition dump_text (m : mem) (buf columns : Z) (rows : nat) : list dump_line :=
  map (fun r => RowLine (buf + CELL_WIDTH * columns * Z.of_nat r)
                        (row_text m (buf + CELL_WIDTH * columns * Z.of_nat r)
                                  (Z.to_nat columns)))
      (seq 0 rows).

(** Where [rowidx] stands after [k] columns from column [column]. *)
Definition rowidx_after (column : nat) (k : nat) (r : Z) : Z :=
  r + 9 * Z.of_nat k - (if (column =? 0)%nat && (0 <? k)%nat then 1 else 0).

Section Harness.

Context {lib : Interleaver}.

Definition interleave (layout : bladerf_channel_layout) (format : bladerf_format)
    (num_samples buf : Z) : M Z := fun w =>
  let '(status, m') := _interleave_interleave_buf layout format num_samples buf (w_mem w) in
  Some (status, mkWorld m' (w_alloc w) (verbose w) (quiet w),
        [EvInterleave layout format num_samples buf status]).

Definition deinterleave (layout : bladerf_channel_layout) (format : bladerf_format)
    (num_samples buf : Z) : M Z := fun w =>
  let '(status, m') := _interleave_deinterleave_buf layout format num_samples buf (w_mem w) in
  Some (status, mkWorld m' (w_alloc w) (verbose w) (quiet w),
        [EvDeinterleave layout format num_samples buf status]).

(** ** test (main.c, lines 129-264) *)

(** Lines 210-215: the arguments of the [check_buf] call for channel [i]. *)
Definition chan_bufptr (buf offset samplesize i : Z) : Z :=
  buf + offset + wrap (samplesize * i).

Definition chan_buflen (bytes offset : Z) : Z := wrap (bytes - offset).

Definition chan_startval (bytes offset num_chan i : Z) : Z :=
  let buflen := chan_buflen bytes offset in
  (wrap (offset + wrap (i * (buflen / num_chan))) / 2) mod 65536.

(** Lines 217-228: the dump forced for the first channel. *)
Definition forced_dump (buf bytes i : Z) : M unit := fun w =>
  if negb (verbose w) && negb (quiet w) && (0 =? i) then
    (set_verbose true ;;
     (if 64 * 2 <? bytes then
        print_buf buf 48 2 ;; print_buf (buf + bytes - 48) 48 2
      else print_buf buf bytes 2) ;;
     set_verbose false) w
  else Some (tt, w, []).

(** The loop of lines 208-241, [k] channels from channel [i] on; [false] is
    the [goto error] of line 237. *)
Fixpoint chan_loop (k : nat) (buf bytes offset samplesize num_chan i : Z) : M bool :=
  match k with
  | O => ret true
  | S k' =>
      let bufptr := chan_bufptr buf offset samplesize i in
      let buflen := chan_buflen bytes offset in
      let startval := chan_startval bytes offset num_chan i in
      forced_dump buf bytes i ;;
      ok <- call_check_buf bufptr buflen samplesize num_chan startval ;;
      if negb ok then ret false
      else chan_loop k' buf bytes offset samplesize num_chan (i + 1)
  end.

(** Lines 172-259: from the first dump to the label [error]; the result is
    [status] as the label finds it. *)
Definition test_body (rxlay txlay : bladerf_channel_layout) (format : bladerf_format)
    (num_samples samplesize offset num_chan bytes buf : Z) : M Z :=
  print_buf buf bytes NUM_COLUMNS ;;
  status <- interleave txlay format num_samples buf ;;
  if negb (status =? 0) then ret status else
  print_buf buf bytes NUM_COLUMNS ;;
  ok <- (if 0 <? offset then
           print_buf buf offset NUM_COLUMNS ;;
           call_check_buf buf offset samplesize 1 0
         else ret true) ;;
  if negb ok then ret (-1) else
  ok <- (if num_chan =? 1 then call_check_buf buf bytes samplesize 1 0
         else ret true) ;;
  if negb ok then ret (-1) else
  ok <- chan_loop (Z.to_nat num_chan) buf bytes offset samplesize num_chan 0 ;;
  if negb ok then ret (-1) else
  status <- deinterleave rxlay format num_samples buf ;;
  if negb (status =? 0) then ret status else
  print_buf buf bytes NUM_COLUMNS ;;
  ok <- call_check_buf buf bytes samplesize 1 0 ;;
  if negb ok then ret (-1) else
  ret status.

Definition test (rxlay txlay : bladerf_channel_layout) (format : bladerf_format)
    (num_samples : Z) : M Z :=
  let samplesize := _interleave_calc_bytes_per_sample format in
  let offset := _interleave_calc_metadata_bytes format in
  let num_chan := _interleave_calc_num_channels rxlay in
  let bytes := wrap (samplesize * num_samples) in
  if negb (num_chan =? _interleave_calc_num_channels txlay) then ret (-1)
  else if bytes <? offset then ret (-1)
  else if num_chan <? 1 then ret (-1)
  else
    buf <- create_buf bytes ;;
    if buf =? NULL then ret (-1)
    else
      status <- test_body rxlay txlay format num_samples
                  samplesize offset num_chan bytes buf ;;
      free buf ;;
      ret status.

(** ** main (main.c, lines 267-306) *)

Definition NUM_SAMPLES : Z := 16384.

Definition main : M Z :=
  status <- test BLADERF_RX_X1 BLADERF_TX_X1 BLADERF_FORMAT_SC16_Q11 NUM_SAMPLES ;;
  if status <? 0 then ret status else
  status <- test BLADERF_RX_X1 BLADERF_TX_X1 BLADERF_FORMAT_SC16_Q11_META NUM_SAMPLES ;;
  if status <? 0 then ret status else
  status <- test BLADERF_RX_X2 BLADERF_TX_X2 BLADERF_FORMAT_SC16_Q11 NUM_SAMPLES ;;
  if status <? 0 then ret status else
  status <- test BLADERF_RX_X2 BLADERF_TX_X2 BLADERF_FORMAT_SC16_Q11_META NUM_SAMPLES ;;
  ret status.

(** * Notions the properties are stated with *)

(** The expected word of the [k]-th inspected sample of a scan that starts
    at count [c]. *)
Definition expected (c : Z) (k : nat) : Z :=
  (c + 2 * Z.of_nat k) mod 65536 + 65536 * ((c + 2 * Z.of_nat k + 1) mod 65536).

(** The value of [i] when line 61 tests it for the [k]-th time. *)
Definition loop_index (d : Z) (k : nat) : Z := wrap (Z.of_nat k * d).

(** The probe of the [k]-th iteration, whatever the index has done. *)
Definition loop_probe (m : mem) (buf d c : Z) (k : nat) : probe :=
  mkProbe (loop_index d k) (buf + 4 * loop_index d k) (expected c k)
          (load32 m (buf + 4 * loop_index d k)).

(** The [k]-th probe of a scan from [buf] with stride [d] and start count
    [c], when the index has not wrapped. *)
Definition scan_probe (m : mem) (buf d c : Z) (k : nat) : probe :=
  mkProbe (Z.of_nat k * d) (buf + 4 * (Z.of_nat k * d)) (expected c k)
          (load32 m (buf + 4 * (Z.of_nat k * d))).

(** How many multiples of [d] lie in [0, n). *)
Definition scan_count (n d : Z) : nat := Z.to_nat ((n + d - 1) / d).

Definition scan (m : mem) (buf n d c : Z) : list probe :=
  map (scan_probe m buf d c) (seq 0 (scan_count n d)).

Definition scan_lines (verbose : bool) (ps : list probe) : list line :=
  flat_map (probe_lines verbose) ps.

(** The lines [PRINT_ERROR] of line 70 writes for a list of probes. *)
Definition mismatches (ps : list probe) : list line :=
  map (fun p => ErrLine (p_ptr p) (p_actual p) (p_expect p))
      (filter (fun p => negb (probe_ok p)) ps).

Definition is_err (l : line) : bool :=
  match l with ErrLine _ _ _ => true | _ => false end.

Definition is_check (e : event) : bool :=
  match e with EvCheck _ _ _ _ _ _ _ => true | _ => false end.


(** The traces lines 172-259 can leave, with the status they end in: the
    forward transform failed; a check after it failed; the inverse transform
    failed; or the final check was reached.  [cs] are the checks between the
    two transforms. *)
Inductive body_shape (rxlay txlay : bladerf_channel_layout)
    (format : bladerf_format) (num_samples samplesize bytes buf : Z)
    : Z -> list event -> Prop :=
| shape_interleave_failed (m : mem) (s : Z) :
    s = fst (_interleave_interleave_buf txlay format num_samples buf m) ->
    s <> 0 ->
    body_shape rxlay txlay format num_samples samplesize bytes buf s
      [EvInterleave txlay format num_samples buf s]
| shape_check_failed (cs : list event) :
    forallb is_check cs = true ->
    body_shape rxlay txlay format num_samples samplesize bytes buf (-1)
      (EvInterleave txlay format num_samples buf 0 :: cs)
| shape_deinterleave_failed (cs : list event) (m : mem) (s : Z) :
    s = fst (_interleave_deinterleave_buf rxlay format num_samples buf m) ->
    s <> 0 -> forallb is_check cs = true ->
    body_shape rxlay txlay format num_samples samplesize bytes buf s
      (EvInterleave txlay format num_samples buf 0 :: cs ++
       [EvDeinterleave rxlay format num_samples buf s])
| shape_final_check (cs : list event) (out : list line) (r : bool) :
    forallb is_check cs = true ->
    body_shape rxlay txlay format num_samples samplesize bytes buf
      (if r then 0 else -1)
      (EvInterleave txlay format num_samples buf 0 :: cs ++
       [EvDeinterleave rxlay format num_samples buf 0;
        EvCheck buf bytes samplesize 1 0 out r]).

(** Same flags and same pending allocator answers. *)
Definition same_env (w w' : world) : Prop :=
  w_alloc w' = w_alloc w /\ verbose w' = verbose w /\ quiet w' = quiet w.

(** The sizes of a case for which every step of [test] has a result. *)
Record sizes_ok (samplesize offset num_chan bytes : Z) : Prop := {
  so_samplesize : 0 < samplesize;
  so_bytes : 4 <= bytes <= PTRDIFF_MAX;
  so_offset : offset = 0 \/ 4 <= offset;
  so_chan : num_chan < SIZE_MOD
}.

(** The traces [test] can leave: the case was rejected, no buffer could be
    had, or the body ran between the [malloc] and the [free]. *)
Inductive test_shape (rxlay txlay : bladerf_channel_layout)
    (format : bladerf_format) (num_samples samplesize bytes : Z)
    : Z -> list event -> Prop :=
| shape_rejected :
    test_shape rxlay txlay format num_samples samplesize bytes (-1) []
| shape_no_buffer :
    test_shape rxlay txlay format num_samples samplesize bytes (-1)
      [EvMalloc bytes NULL]
| shape_ran (buf status : Z) (body : list event) :
    buf <> NULL ->
    body_shape rxlay txlay format num_samples samplesize bytes buf status body ->
    test_shape rxlay txlay format num_samples samplesize bytes status
      (EvMalloc bytes buf :: body ++ [EvFree buf]).




Definition is_heap (e : event) : bool :=
  match e with EvMalloc _ _ | EvFree _ => true | _ => false end.

Definition heap_free (l : list event) : bool :=
  forallb (fun e => negb (is_heap e)) l.

Definition test_case : Type :=
  bladerf_channel_layout * bladerf_channel_layout * bladerf_format * Z.

(** The four cases of [main], in the order it runs them. *)
Definition fixed_cases : list test_case :=
  [(BLADERF_RX_X1, BLADERF_TX_X1, BLADERF_FORMAT_SC16_Q11, 16384);
   (BLADERF_RX_X1, BLADERF_TX_X1, BLADERF_FORMAT_SC16_Q11_META, 16384);
   (BLADERF_RX_X2, BLADERF_TX_X2, BLADERF_FORMAT_SC16_Q11, 16384);
   (BLADERF_RX_X2, BLADERF_TX_X2, BLADERF_FORMAT_SC16_Q11_META, 16384)].

(** The run as the specification words it: the cases in order, stopping at
    the first one whose status is not 0 (it did not complete its sequence)
    with that status; 0 when every case passed. *)
Fixpoint run_cases (cs : list test_case) : M Z :=
  match cs with
  | [] => ret 0
  | (rxlay, txlay, format, num_samples) :: rest =>
      status <- test rxlay txlay format num_samples ;;
      if status =? 0 then run_cases rest else ret status
  end.

(** The run as [main] is written: the cases in order, stopping at the
    first one but the last whose status is negative; the exit status is the
    status of the last case run. *)
Fixpoint run_until_negative (cs : list test_case) : M Z :=
  match cs with
  | [] => ret 0
  | (rxlay, txlay, format, num_samples) :: rest =>
      status <- test rxlay txlay format num_samples ;;
      match rest with
      | [] => ret status
      | _ :: _ => if status <? 0 then ret status else run_until_negative rest
      end
  end.

(** Every case of the battery has sizes [test] can work with. *)
Definition battery_sizes_ok : Prop :=
  forall (format : bladerf_format) (layout : bladerf_channel_layout),
    sizes_ok (_interleave_calc_bytes_per_sample format)
             (_interleave_calc_metadata_bytes format)
             (_interleave_calc_num_channels layout)
             (wrap (_interleave_calc_bytes_per_sample format * NUM_SAMPLES)).

(** The library follows the libbladeRF convention: 0 or a negative error
    code. *)
Definition statuses_nonpositive : Prop :=
  forall (layout : bladerf_channel_layout) (format : bladerf_format)
         (num_samples buf : Z) (m : mem),
    fst (_interleave_interleave_buf layout format num_samples buf m) <= 0 /\
    fst (_interleave_deinterleave_buf layout format num_samples buf m) <= 0.

End Harness.

(** * Further notions *)

(** The 32-bit word that holds the counts [j] and [j + 1]. *)
Definition pattern_word (j : Z) : Z :=
  j mod 65536 + 65536 * ((j + 1) mod 65536).

(** The [bytes] bytes from [buf] hold the counting pattern of [create_buf]:
    the 16-bit word of index [j] is [j mod 65536]. *)
Definition holds_pattern (m : mem) (buf bytes : Z) : Prop :=
  forall j, 0 <= j < bytes / 2 -> load16 m (buf + 2 * j) = j mod 65536.

(** A call into the library that reports success and leaves the [bytes]
    bytes of the buffer as they were. *)
Definition leaves_buffer (f : mem -> Z * mem) (buf bytes : Z) : Prop :=
  forall m : mem,
    fst (f m) = 0 /\
    forall x, buf <= x < buf + bytes -> load8 (snd (f m)) x = load8 m x.

(** The buffer after a forward transform, for samples of four bytes: the
    [offset] bytes of metadata hold the pattern as before, and sample
    [k] of channel [i], which [create_buf] put at index [i * (n / N) + k]
    of the [n] samples after the metadata, is now at index [k * N + i]. *)
Definition interleaved (m : mem) (buf bytes offset num_chan : Z) : Prop :=
  holds_pattern m buf offset /\
  let n := (bytes - offset) / 4 in
  forall i k : Z,
    0 <= i < num_chan -> 0 <= k < n / num_chan ->
    load32 m (buf + offset + 4 * (k * num_chan + i)) =
    pattern_word (offset / 2 + 2 * (i * (n / num_chan) + k)).

(** A computation that leaves the two flags as it found them. *)
Definition keeps_flags {A : Type} (c : M A) : Prop :=
  forall (w w' : world) (a : A) (t : list event),
    c w = Some (a, w', t) -> verbose w' = verbose w /\ quiet w' = quiet w.

(** The [malloc]s and [free]s of a trace pair up: a block that [malloc]
    gave is freed before the next [malloc], and nothing else is freed.
    [held] is the block that is still to be freed. *)
Fixpoint heap_paired (held : option Z) (l : list event) : bool :=
  match l with
  | [] => match held with None => true | Some _ => false end
  | EvMalloc _ p :: l' =>
      match held with
      | None => heap_paired (if p =? NULL then None else Some p) l'
      | Some _ => false
      end
  | EvFree p :: l' =>
      match held with
      | Some q => (p =? q) && heap_paired None l'
      | None => false
      end
  | _ :: l' => heap_paired held l'
  end.

(** * Sample libraries and states *)

(** A stand-in for the library in the runs below: samples of 4 bytes, a
    header of 16 bytes in the metadata format, one or two channels, and
    transforms that leave the buffer as it is and report a given status
    (for one channel, leaving the buffer is the interleaving). *)
Definition sample_lib (interleave_status deinterleave_status : Z) : Interleaver := {|
  _interleave_calc_bytes_per_sample := fun _ => 4;
  _interleave_calc_metadata_bytes := fun format =>
    match format with
    | BLADERF_FORMAT_SC16_Q11 => 0
    | BLADERF_FORMAT_SC16_Q11_META => 16
    end;
  _interleave_calc_num_channels := fun layout =>
    match layout with
    | BLADERF_RX_X1 | BLADERF_TX_X1 => 1
    | BLADERF_RX_X2 | BLADERF_TX_X2 => 2
    end;
  _interleave_interleave_buf := fun _ _ _ _ m => (interleave_status, m);
  _interleave_deinterleave_buf := fun _ _ _ _ m => (deinterleave_status, m)
|}.

(** A state with zeroed memory in which [malloc] answers [4096]. *)
Definition sample_world : world := mkWorld (fun _ => 0) [4096] false false.

(** The [n] samples of four bytes from [base], rearranged: sample [j] of
    the result is sample [src j] of [m]. *)
Definition permute_samples (src : Z -> Z) (base n : Z) (m : mem) : mem :=
  fun x =>
    if (base <=? x) && (x <? base + 4 * n)
    then m (base + 4 * src ((x - base) / 4) + (x - base) mod 4)
    else m x.

Definition sample_metadata_bytes (format : bladerf_format) : Z :=
  match format with
  | BLADERF_FORMAT_SC16_Q11 => 0
  | BLADERF_FORMAT_SC16_Q11_META => 16
  end.

Definition sample_num_channels (layout : bladerf_channel_layout) : Z :=
  match layout with
  | BLADERF_RX_X1 | BLADERF_TX_X1 => 1
  | BLADERF_RX_X2 | BLADERF_TX_X2 => 2
  end.

(** A second stand-in, one that does interleave.  Samples of four bytes;
    with two channels the forward transform interleaves the samples after
    the metadata, channel [i] being the [i]-th of the [num_chan] equal
    parts they come in, and the inverse transform puts them back; with one
    channel nothing is to be done. *)
Definition interleaving_lib : Interleaver := {|
  _interleave_calc_bytes_per_sample := fun _ => 4;
  _interleave_calc_metadata_bytes := sample_metadata_bytes;
  _interleave_calc_num_channels := sample_num_channels;
  _interleave_interleave_buf := fun layout format num_samples buf m =>
    let num_chan := sample_num_channels layout in
    let offset := sample_metadata_bytes format in
    let n := (4 * num_samples - offset) / 4 in
    if num_chan <? 2 then (0, m)
    else (0, permute_samples
               (fun j => j mod num_chan * (n / num_chan) + j / num_chan)
               (buf + offset) n m);
  _interleave_deinterleave_buf := fun layout format num_samples buf m =>
    let num_chan := sample_num_channels layout in
    let offset := sample_metadata_bytes format in
    let n := (4 * num_samples - offset) / 4 in
    if num_chan <? 2 then (0, m)
    else (0, permute_samples
               (fun j => j mod (n / num_chan) * num_chan + j / (n / num_chan))
               (buf + offset) n m)
|}.

(** * Properties *)

(** ** Arithmetic of the running count *)

Lemma mod_add_congr (a b x : Z) :
  a mod 65536 = b mod 65536 -> (a + x) mod 65536 = (b + x) mod 65536.
Proof.
  intros H.
  rewrite (Z.add_mod a x 65536), (Z.add_mod b x 65536), H by lia.
  reflexivity.
Qed.

Lemma expected_low (c : Z) (k : nat) :
  expected c k mod 65536 = (c + 2 * Z.of_nat k) mod 65536.
Proof.
  unfold expected.
  rewrite (Z.mul_comm 65536), Z.mod_add by lia.
  apply Z.mod_mod; lia.
Qed.

Lemma expected_high (c : Z) (k : nat) :
  expected c k / 65536 = (c + 2 * Z.of_nat k + 1) mod 65536.
Proof.
  unfold expected.
  rewrite (Z.mul_comm 65536), Z.div_add by lia.
  rewrite Z.div_small; [lia|]. apply Z.mod_pos_bound; lia.
Qed.

Lemma expected_range (c : Z) (k : nat) : 0 <= expected c k < 2 ^ 32.
Proof.
  unfold expected.
  pose proof (Z.mod_pos_bound (c + 2 * Z.of_nat k) 65536 ltac:(lia)).
  pose proof (Z.mod_pos_bound (c + 2 * Z.of_nat k + 1) 65536 ltac:(lia)).
  change (2 ^ 32) with 4294967296. lia.
Qed.

Lemma expect_step_spec (count c : Z) (k : nat) :
  count mod 65536 = (c + 2 * Z.of_nat k) mod 65536 ->
  expect_step count = (expected c k, (c + 2 * Z.of_nat (S k)) mod 65536).
Proof.
  intros H. unfold expect_step.
  rewrite Z.mod_mod by lia.
  rewrite (Zplus_mod_idemp_l count 1 65536).
  rewrite (Zplus_mod_idemp_l (count + 1) 1 65536).
  pose proof (mod_add_congr _ _ 1 H) as H1.
  pose proof (mod_add_congr _ _ 2 H) as H2.
  rewrite Z.shiftl_mul_pow2 by lia.
  replace (count + 1 + 1) with (count + 2) by lia.
  rewrite H, H1, H2. f_equal.
  - change (2 ^ 16) with 65536.
    rewrite Z.mod_small.
    + unfold expected. lia.
    + pose proof (Z.mod_pos_bound (c + 2 * Z.of_nat k) 65536 ltac:(lia)).
      pose proof (Z.mod_pos_bound (c + 2 * Z.of_nat k + 1) 65536 ltac:(lia)).
      change (2 ^ 32) with 4294967296. lia.
  - f_equal. lia.
Qed.

(** ** The scan of check_buf *)

Lemma wrap_small (x : Z) : 0 <= x < SIZE_MOD -> wrap x = x.
Proof. intros H. unfold wrap. apply Z.mod_small. exact H. Qed.

Lemma check_loop_scan (verbose : bool) (m : mem) (buf n d c : Z) :
  1 <= d ->
  forall (K k0 fuel : nat) (count : Z) (r : bool),
    (K < fuel)%nat ->
    count mod 65536 = (c + 2 * Z.of_nat k0) mod 65536 ->
    (forall k, (k0 <= k < k0 + K)%nat -> Z.of_nat k * d < n) ->
    n <= Z.of_nat (k0 + K) * d ->
    Z.of_nat (k0 + K) * d < SIZE_MOD ->
    check_loop fuel verbose m buf n d (Z.of_nat k0 * d) count r =
    let ps := map (scan_probe m buf d c) (seq k0 K) in
    Some (r && forallb probe_ok ps, ps, scan_lines verbose ps).
Proof.
  intros Hd K. induction K as [|K IH]; intros k0 fuel count r Hf Hc Hin Hout Hmax.
  - destruct fuel as [|fuel]; [lia|]. simpl.
    rewrite Nat.add_0_r in Hout.
    destruct (Z.ltb_spec (Z.of_nat k0 * d) n) as [Hlt|_]; [lia|].
    now rewrite andb_true_r.
  - destruct fuel as [|fuel]; [lia|].
    cbn [check_loop].
    assert (Hk0 : Z.of_nat k0 * d < n) by (apply Hin; lia).
    destruct (Z.ltb_spec (Z.of_nat k0 * d) n) as [_|Hge]; [|lia].
    rewrite (expect_step_spec count c k0 Hc).
    assert (Hw : wrap (Z.of_nat k0 * d + d) = Z.of_nat (S k0) * d).
    { rewrite wrap_small; [lia|]. split; [nia|].
      eapply Z.le_lt_trans; [|exact Hmax]. nia. }
    rewrite Hw.
    replace (k0 + S K)%nat with (S k0 + K)%nat in Hout, Hmax by lia.
    assert (Hc' : ((c + 2 * Z.of_nat (S k0)) mod 65536) mod 65536 =
                  (c + 2 * Z.of_nat (S k0)) mod 65536)
      by (apply Z.mod_mod; lia).
    assert (Hin' : forall k, (S k0 <= k < S k0 + K)%nat -> Z.of_nat k * d < n)
      by (intros k Hk; apply Hin; lia).
    rewrite (IH (S k0) fuel _ _ ltac:(lia) Hc' Hin' Hout Hmax).
    cbn [seq map forallb scan_lines flat_map].
    fold (scan_probe m buf d c k0).
    destruct (probe_ok (scan_probe m buf d c k0)); cbn [negb andb];
      destruct r; reflexivity.
Qed.

Lemma scan_count_spec (n d : Z) :
  1 <= d -> 0 <= n ->
  let K := Z.of_nat (scan_count n d) in
  (K - 1) * d < n /\ n <= K * d /\ K * d < n + d /\ K <= n.
Proof.
  intros Hd Hn. unfold scan_count. cbv zeta.
  assert (Hq : 0 <= (n + d - 1) / d) by (apply Z.div_pos; lia).
  rewrite Z2Nat.id by exact Hq.
  pose proof (Z.mul_div_le (n + d - 1) d ltac:(lia)) as H1.
  pose proof (Z.mul_succ_div_gt (n + d - 1) d ltac:(lia)) as H2.
  set (q := (n + d - 1) / d) in *.
  repeat split; nia.
Qed.

(** The whole of [check_buf] on a buffer that is there, when the index of
    the loop does not wrap after the last sample it inspects. *)
Lemma check_buf_scan_gen (verbose : bool) (m : mem)
    (buf buflen samplesize d c : Z) :
  buf <> NULL -> 0 < samplesize -> 1 <= d -> 0 <= buflen ->
  Z.of_nat (scan_count (buflen / samplesize) d) * d < SIZE_MOD ->
  check_buf verbose m buf buflen samplesize d c =
  let ps := scan m buf (buflen / samplesize) d c in
  Some (forallb probe_ok ps, ps, scan_lines verbose ps).
Proof.
  intros Hb Hs Hd Hl Hmax. unfold check_buf.
  destruct (Z.eqb_spec buf NULL) as [|_]; [contradiction|].
  destruct (Z.eqb_spec samplesize 0) as [|_]; [lia|].
  set (n := buflen / samplesize) in *.
  assert (Hn : 0 <= n) by (apply Z.div_pos; lia).
  destruct (scan_count_spec n d Hd Hn) as (H1 & H2 & H3 & H4).
  change 0 with (Z.of_nat 0 * d) at 1.
  rewrite (check_loop_scan verbose m buf n d c Hd (scan_count n d) 0).
  - reflexivity.
  - lia.
  - f_equal. lia.
  - intros k Hk. nia.
  - exact H2.
  - exact Hmax.
Qed.

(** The index cannot wrap on a buffer that is an object, with a stride that
    is a [size_t]. *)
Lemma scan_fits (buflen samplesize d : Z) :
  0 < samplesize -> 0 <= buflen <= PTRDIFF_MAX -> 1 <= d < SIZE_MOD ->
  Z.of_nat (scan_count (buflen / samplesize) d) * d < SIZE_MOD.
Proof.
  intros Hs Hl Hd.
  assert (Hn : 0 <= buflen / samplesize) by (apply Z.div_pos; lia).
  assert (Hle : buflen / samplesize <= buflen)
    by (apply Z.div_le_upper_bound; nia).
  destruct (scan_count_spec (buflen / samplesize) d ltac:(lia) Hn)
    as (H1 & _ & _ & _).
  unfold PTRDIFF_MAX, SIZE_MOD in *.
  change (2 ^ 63) with 9223372036854775808 in *.
  change (2 ^ 64) with 18446744073709551616 in *.
  set (K := Z.of_nat (scan_count (buflen / samplesize) d)) in *.
  assert (HK : 0 <= K) by (unfold K; lia).
  destruct (Z.le_gt_cases K 1) as [HK1|HK1]; nia.
Qed.

Lemma check_buf_scan (verbose : bool) (m : mem) (buf buflen samplesize d c : Z) :
  buf <> NULL -> 0 < samplesize -> 1 <= d < SIZE_MOD ->
  0 <= buflen <= PTRDIFF_MAX ->
  check_buf verbose m buf buflen samplesize d c =
  let ps := scan m buf (buflen / samplesize) d c in
  Some (forallb probe_ok ps, ps, scan_lines verbose ps).
Proof.
  intros Hb Hs Hd Hl.
  apply check_buf_scan_gen; try lia. now apply scan_fits.
Qed.

(** *** When check_buf has no result *)

Lemma loop_index_range (d : Z) (k : nat) : 0 <= loop_index d k < SIZE_MOD.
Proof. unfold loop_index, wrap. apply Z.mod_pos_bound. reflexivity. Qed.

Lemma loop_index_step (d : Z) (k : nat) :
  wrap (loop_index d k + d) = loop_index d (S k).
Proof.
  unfold loop_index, wrap. rewrite Zplus_mod_idemp_l. f_equal. lia.
Qed.

(** The fuel runs out exactly when the loop condition held every time. *)
Lemma check_loop_none (verbose : bool) (m : mem) (buf n d : Z) (fuel : nat) :
  forall (k0 : nat) (count : Z) (r : bool),
    check_loop fuel verbose m buf n d (loop_index d k0) count r = None <->
    (forall k, (k0 <= k < k0 + fuel)%nat -> loop_index d k < n).
Proof.
  induction fuel as [|fuel IH]; intros k0 count r; cbn [check_loop].
  - split; [intros _ k Hk; lia | reflexivity].
  - destruct (Z.ltb_spec (loop_index d k0) n) as [Hlt|Hge].
    + destruct (expect_step count) as [expect count'].
      rewrite loop_index_step.
      match goal with
      | |- match ?c with _ => _ end = None <-> _ =>
          assert (Hc : c = None <-> forall k, (S k0 <= k < S k0 + fuel)%nat ->
                                              loop_index d k < n) by apply IH;
          destruct c as [[[r' ps] out]|]
      end.
      * split; [discriminate|]. intros H. exfalso.
        assert (E : Some (r', ps, out) = None)
          by (apply Hc; intros k Hk; apply H; lia).
        discriminate.
      * split; [|reflexivity]. intros _ k Hk.
        destruct (Nat.eq_dec k k0) as [->|Hne]; [exact Hlt|].
        apply Hc; [reflexivity|lia].
    + split; [discriminate|]. intros H. specialize (H k0 ltac:(lia)). lia.
Qed.

(** Once the index repeats, it only takes the values it had before. *)
Lemma loop_index_periodic (d : Z) (a b k : nat) :
  (a < b)%nat -> loop_index d a = loop_index d b ->
  loop_index d k = loop_index d (k mod (b - a)).
Proof.
  intros Hab Heq. unfold loop_index, wrap in *.
  set (P := (b - a)%nat).
  assert (HP : (Z.of_nat P * d) mod SIZE_MOD = 0).
  { replace (Z.of_nat P * d) with (Z.of_nat b * d - Z.of_nat a * d)
      by (unfold P; nia).
    rewrite Zminus_mod, Heq, Z.sub_diag. reflexivity. }
  rewrite (Nat.div_mod_eq k P) at 1.
  replace (Z.of_nat (P * (k / P) + k mod P) * d)
    with (Z.of_nat (k mod P) * d + Z.of_nat (k / P) * (Z.of_nat P * d)) by nia.
  rewrite Zplus_mod.
  rewrite (Zmult_mod (Z.of_nat (k / P)) (Z.of_nat P * d)), HP, Z.mul_0_r.
  rewrite Zmod_0_l, Z.add_0_r. apply Z.mod_mod. discriminate.
Qed.

(** If the loop condition holds the first [n + 1] times, it holds every
    time: among [n + 1] indices below [n] two are the same. *)
Lemma loop_never_left (n d : Z) :
  0 <= n ->
  (forall k, (k <= Z.to_nat n)%nat -> loop_index d k < n) ->
  forall k, loop_index d k < n.
Proof.
  intros Hn H k.
  destruct (Z.lt_ge_cases (loop_index d k) n) as [Hlt|Hge]; [exact Hlt|exfalso].
  set (N := Z.to_nat n) in *.
  assert (Hinj : forall a b, (a < b <= N)%nat ->
                             loop_index d a <> loop_index d b).
  { intros a b Hab Heq.
    pose proof (loop_index_periodic d a b k ltac:(lia) Heq) as Hk.
    assert (Hm : (k mod (b - a) < b - a)%nat)
      by (apply Nat.mod_upper_bound; lia).
    specialize (H (k mod (b - a))%nat ltac:(lia)). lia. }
  assert (Hnodup : NoDup (map (loop_index d) (seq 0 (S N)))).
  { apply NoDup_map_NoDup_ForallPairs; [|apply seq_NoDup].
    intros a b Ha Hb Heq. apply in_seq in Ha, Hb.
    destruct (Nat.lt_trichotomy a b) as [Hlt|[E|Hgt]]; [|exact E|].
    - exfalso. apply (Hinj a b); [lia|exact Heq].
    - exfalso. apply (Hinj b a); [lia|now symmetry]. }
  assert (Hincl : incl (map (loop_index d) (seq 0 (S N)))
                       (map Z.of_nat (seq 0 N))).
  { intros x Hx. apply in_map_iff in Hx. destruct Hx as (j & <- & Hj).
    apply in_seq in Hj. specialize (H j ltac:(lia)).
    pose proof (loop_index_range d j). apply in_map_iff.
    exists (Z.to_nat (loop_index d j)). split; [lia|].
    apply in_seq. unfold N. lia. }
  pose proof (NoDup_incl_length Hnodup Hincl) as Hlen.
  rewrite !length_map, !length_seq in Hlen. lia.
Qed.

(** X18: on a buffer that is there, [check_buf] has no result in two cases
    only: [samplesize] is 0 (line 61 divides by it), or the loop condition
    of line 61 holds every time it is tested (the loop is never left). *)
Lemma check_buf_no_result (verbose : bool) (m : mem)
    (buf buflen samplesize d c : Z) :
  buf <> NULL -> 0 <= samplesize -> 0 <= buflen ->
  check_buf verbose m buf buflen samplesize d c = None <->
  samplesize = 0 \/ forall k : nat, loop_index d k < buflen / samplesize.
Proof.
  intros Hb Hs Hl. unfold check_buf.
  destruct (Z.eqb_spec buf NULL) as [|_]; [contradiction|].
  destruct (Z.eqb_spec samplesize 0) as [->|Hne]; [tauto|].
  cbv zeta. set (n := buflen / samplesize).
  assert (Hn : 0 <= n) by (apply Z.div_pos; lia).
  change 0 with (loop_index d 0) at 1.
  rewrite check_loop_none. cbn [Nat.add]. split.
  - intros H. right. apply loop_never_left; [exact Hn|].
    intros k Hk. apply H. lia.
  - intros [E|H]; [contradiction|]. intros k _. apply H.
Qed.

(** *** When check_buf has a result *)

(** A result is the result of all iterations up to the first time the loop
    condition fails: nothing else ends the loop. *)
Lemma check_loop_inv (verbose : bool) (m : mem) (buf n d c : Z) (fuel : nat) :
  forall (k0 : nat) (count : Z) (r0 r : bool) (ps : list probe)
         (out : list line),
    count mod 65536 = (c + 2 * Z.of_nat k0) mod 65536 ->
    check_loop fuel verbose m buf n d (loop_index d k0) count r0 =
      Some (r, ps, out) ->
    exists K : nat,
      (forall k, (k0 <= k < k0 + K)%nat -> loop_index d k < n) /\
      n <= loop_index d (k0 + K) /\
      ps = map (loop_probe m buf d c) (seq k0 K) /\
      r = r0 && forallb probe_ok ps /\
      out = scan_lines verbose ps.
Proof.
  induction fuel as [|fuel IH]; intros k0 count r0 r ps out Hc H;
    cbn [check_loop] in H; [discriminate|].
  destruct (Z.ltb_spec (loop_index d k0) n) as [Hlt|Hge].
  - rewrite (expect_step_spec count c k0 Hc), loop_index_step in H.
    fold (loop_probe m buf d c k0) in H.
    match type of H with
    | match ?x with _ => _ end = _ =>
        destruct x as [[[r' ps'] out']|] eqn:Hrec; [|discriminate]
    end.
    injection H as <- <- <-.
    apply IH in Hrec; [|apply Z.mod_mod; lia].
    destruct Hrec as (K & Hin & Hout & -> & -> & ->).
    exists (S K). split; [|split; [|split; [|split]]].
    + intros k Hk. destruct (Nat.eq_dec k k0) as [->|Hne]; [exact Hlt|].
      apply Hin. lia.
    + replace (k0 + S K)%nat with (S k0 + K)%nat by lia. exact Hout.
    + reflexivity.
    + cbn [seq map forallb].
      destruct (probe_ok (loop_probe m buf d c k0)); cbn [negb andb];
        [reflexivity | now destruct r0].
    + reflexivity.
  - injection H as <- <- <-. exists 0%nat.
    rewrite Nat.add_0_r, andb_true_r. repeat split; [|exact Hge].
    intros k Hk. lia.
Qed.

Lemma check_buf_inv (verbose : bool) (m : mem) (buf buflen samplesize d c : Z)
    (r : bool) (ps : list probe) (out : list line) :
  buf <> NULL ->
  check_buf verbose m buf buflen samplesize d c = Some (r, ps, out) ->
  exists K : nat,
    (forall k, (k < K)%nat -> loop_index d k < buflen / samplesize) /\
    buflen / samplesize <= loop_index d K /\
    ps = map (loop_probe m buf d c) (seq 0 K) /\
    r = forallb probe_ok ps /\
    out = scan_lines verbose ps.
Proof.
  intros Hb H. unfold check_buf in H.
  destruct (Z.eqb_spec buf NULL) as [|_]; [contradiction|].
  destruct (samplesize =? 0); [discriminate|].
  cbv zeta in H. change 0 with (loop_index d 0) in H at 1.
  apply (check_loop_inv _ _ _ _ _ c) in H; [|f_equal; lia].
  destruct H as (K & Hin & Hout & Hps & Hr & Ho).
  exists K. repeat split; try assumption.
  intros k Hk. apply Hin. lia.
Qed.


Lemma nth_error_map_seq {A : Type} (f : nat -> A) (K s k : nat) (p : A) :
  nth_error (map f (seq s K)) k = Some p -> (k < K)%nat /\ p = f (s + k)%nat.
Proof.
  revert s k. induction K as [|K IH]; intros s k H.
  - destruct k; discriminate.
  - destruct k as [|k]; simpl in H.
    + injection H as <-. rewrite Nat.add_0_r. split; [lia|reflexivity].
    + apply IH in H. destruct H as [Hk ->].
      split; [lia|]. f_equal. lia.
Qed.

Lemma scan_indices (m : mem) (buf n d c j : Z) :
  1 <= d -> 0 <= n ->
  In j (map p_index (scan m buf n d c)) <-> 0 <= j < n /\ j mod d = 0.
Proof.
  intros Hd Hn.
  destruct (scan_count_spec n d Hd Hn) as (H1 & H2 & H3 & H4).
  unfold scan. rewrite map_map. cbn [scan_probe p_index].
  rewrite in_map_iff. split.
  - intros (k & <- & Hk). apply in_seq in Hk.
    split; [nia|]. apply Z.mod_mul. lia.
  - intros [Hj Hm]. exists (Z.to_nat (j / d)).
    assert (Hq : 0 <= j / d) by (apply Z.div_pos; lia).
    assert (Hj' : j = j / d * d).
    { rewrite (Z.div_mod j d) at 1 by lia. rewrite Hm. lia. }
    rewrite Z2Nat.id by exact Hq. split; [lia|].
    apply in_seq. split; [lia|]. simpl.
    apply Nat2Z.inj_lt. rewrite Z2Nat.id by exact Hq. nia.
Qed.

(** A 32-bit word is the expected one exactly when its two halves are. *)
Lemma expected_halves (x c : Z) (k : nat) :
  x = expected c k <->
  x mod 65536 = (c + 2 * Z.of_nat k) mod 65536 /\
  x / 65536 = (c + 2 * Z.of_nat k + 1) mod 65536.
Proof.
  split.
  - intros ->. split; [apply expected_low | apply expected_high].
  - intros [Hlo Hhi]. rewrite (Z.div_mod x 65536) by lia.
    rewrite Hlo, Hhi. unfold expected. lia.
Qed.

(** C1, amended: take a buffer that is there, samples of four bytes, a
    stride [d >= 1] and a start count [c].  [check_buf] returns; the
    samples it inspects are exactly those of the indices [0, d, 2d, ...]
    below [buflen / samplesize], in that order; for the [k]-th of them it
    reads the 32-bit word of the sample and compares it with the word whose
    low half is [(c + 2k) mod 65536] and whose high half is
    [(c + 2k + 1) mod 65536]; it returns [true] exactly when every one of
    these words in memory is the expected one, and what it prints is, probe
    by probe, the error line of a mismatch or (when [verbose] is set) the
    line of a match. *)
Theorem check_buf_inspects_strided_samples
    (verbose : bool) (m : mem) (buf buflen d c : Z) :
  let samplesize := 4 in
  buf <> NULL -> 1 <= d < SIZE_MOD -> 0 <= buflen <= PTRDIFF_MAX ->
  exists (retval : bool) (ps : list probe) (out : list line),
    check_buf verbose m buf buflen samplesize d c = Some (retval, ps, out) /\
    (forall j, In j (map p_index ps) <->
               0 <= j < buflen / samplesize /\ j mod d = 0) /\
    (forall (k : nat) (p : probe), nth_error ps k = Some p ->
       p_index p = Z.of_nat k * d /\
       p_ptr p = buf + samplesize * p_index p /\
       p_actual p = load32 m (buf + samplesize * p_index p) /\
       p_expect p mod 65536 = (c + 2 * Z.of_nat k) mod 65536 /\
       p_expect p / 65536 = (c + 2 * Z.of_nat k + 1) mod 65536) /\
    (retval = true <->
     forall k : nat, Z.of_nat k * d < buflen / samplesize ->
       load32 m (buf + samplesize * (Z.of_nat k * d)) mod 65536 =
         (c + 2 * Z.of_nat k) mod 65536 /\
       load32 m (buf + samplesize * (Z.of_nat k * d)) / 65536 =
         (c + 2 * Z.of_nat k + 1) mod 65536) /\
    out = flat_map (probe_lines verbose) ps.
Proof.
  intros samplesize Hb Hd Hl. unfold samplesize.
  rewrite (check_buf_scan verbose m buf buflen 4 d c Hb ltac:(lia) Hd Hl).
  cbv zeta. do 3 eexists. split; [reflexivity|].
  assert (Hn : 0 <= buflen / 4) by (apply Z.div_pos; lia).
  pose proof (scan_count_spec (buflen / 4) d ltac:(lia) Hn) as (HK1 & HK2 & _).
  cbv zeta in HK1, HK2.
  split; [|split; [|split; [|reflexivity]]].
  - intros j. apply scan_indices; [lia | exact Hn].
  - intros k p Hk. unfold scan in Hk.
    apply nth_error_map_seq in Hk. destruct Hk as [_ ->].
    cbn [Nat.add scan_probe p_index p_ptr p_actual p_expect].
    repeat split; [apply expected_low | apply expected_high].
  - rewrite forallb_forall. unfold scan. split.
    + intros Hall k Hk. apply expected_halves. symmetry.
      assert (Hin : In (scan_probe m buf d c k)
                       (map (scan_probe m buf d c)
                            (seq 0 (scan_count (buflen / 4) d)))).
      { apply in_map, in_seq. nia. }
      apply Hall in Hin. unfold probe_ok, scan_probe in Hin.
      cbn [p_expect p_actual] in Hin. now apply Z.eqb_eq in Hin.
    + intros Hmem p Hin. apply in_map_iff in Hin.
      destruct Hin as (k & <- & Hk). apply in_seq in Hk.
      unfold probe_ok, scan_probe. cbn [p_expect p_actual].
      apply Z.eqb_eq. symmetry. apply expected_halves. apply Hmem. nia.
Qed.

Lemma check_buf_inspects_strided_samples_witness :
  exists (retval : bool) (ps : list probe) (out : list line),
    check_buf false (fun _ => 0) 4096 40 4 3 65535 = Some (retval, ps, out) /\
    (forall j, In j (map p_index ps) <-> 0 <= j < 40 / 4 /\ j mod 3 = 0) /\
    (forall (k : nat) (p : probe), nth_error ps k = Some p ->
       p_index p = Z.of_nat k * 3 /\
       p_ptr p = 4096 + 4 * p_index p /\
       p_actual p = load32 (fun _ => 0) (4096 + 4 * p_index p) /\
       p_expect p mod 65536 = (65535 + 2 * Z.of_nat k) mod 65536 /\
       p_expect p / 65536 = (65535 + 2 * Z.of_nat k + 1) mod 65536) /\
    (retval = true <->
     forall k : nat, Z.of_nat k * 3 < 40 / 4 ->
       load32 (fun _ => 0) (4096 + 4 * (Z.of_nat k * 3)) mod 65536 =
         (65535 + 2 * Z.of_nat k) mod 65536 /\
       load32 (fun _ => 0) (4096 + 4 * (Z.of_nat k * 3)) / 65536 =
         (65535 + 2 * Z.of_nat k + 1) mod 65536) /\
    out = flat_map (probe_lines false) ps.
Proof.
  apply (check_buf_inspects_strided_samples false (fun _ => 0) 4096 40 3 65535).
  - discriminate.
  - split; [lia | reflexivity].
  - split; [lia | vm_compute; discriminate].
Defined.

(** C1 does not hold for every sample width.  [check_buf] takes the index
    of a sample as an index into 32-bit words (line 62), so with samples of
    eight bytes the sample of index 1 (bytes 8 to 15) is never read: here
    its first word is overwritten by 65535, and the scan of both samples
    reads the bytes 0 to 7 and returns [true]. *)
Lemma check_buf_skips_wide_samples :
  let m := store16 (create_buf_fill 4096 16 (fun _ => 0)) (4096 + 8 * 1) 65535 in
  16 / 8 = 2 /\
  load32 m (4096 + 8 * 1) = 65535 + 65536 * 5 /\
  expected 0 1 = 2 + 65536 * 3 /\
  check_buf false m 4096 16 8 1 0 =
  Some (true,
        [mkProbe 0 4096 (0 + 65536 * 1) (0 + 65536 * 1);
         mkProbe 1 (4096 + 4 * 1) (2 + 65536 * 3) (2 + 65536 * 3)],
        []).
Proof. cbv zeta. repeat split; reflexivity. Qed.

Example check_buf_count_wraps :
  check_buf true (fun _ => 0) 4096 40 4 3 65535 =
  Some (false,
        [mkProbe 0 4096 65535 0; mkProbe 3 4108 131073 0;
         mkProbe 6 4120 262147 0; mkProbe 9 4132 393221 0],
        [ErrLine 4096 0 65535; ErrLine 4108 0 131073;
         ErrLine 4120 0 262147; ErrLine 4132 0 393221]).
Proof. reflexivity. Qed.

(** ** Mismatches *)

Lemma scan_lines_errors (verbose : bool) (ps : list probe) :
  filter is_err (scan_lines verbose ps) = mismatches ps.
Proof.
  unfold scan_lines, mismatches.
  induction ps as [|p ps IH]; [reflexivity|].
  cbn [flat_map filter map]. rewrite filter_app, IH.
  unfold probe_lines.
  destruct (probe_ok p); cbn [negb]; [destruct verbose|]; reflexivity.
Qed.

Lemma scan_lines_quiet (ps : list probe) :
  scan_lines false ps = mismatches ps.
Proof.
  unfold scan_lines, mismatches.
  induction ps as [|p ps IH]; [reflexivity|].
  cbn [flat_map filter map]. rewrite IH.
  unfold probe_lines. destruct (probe_ok p); reflexivity.
Qed.

Lemma forallb_probe_ok (ps : list probe) :
  forallb probe_ok ps = true <-> mismatches ps = [].
Proof.
  unfold mismatches.
  induction ps as [|p ps IH]; cbn [forallb filter map]; [tauto|].
  destruct (probe_ok p); cbn [negb andb map].
  - exact IH.
  - split; discriminate.
Qed.

(** C4: a mismatch does not end the scan.  Whenever [check_buf] returns
    from a buffer that is there, its probes are those of every iteration up
    to the first time the loop condition of line 61 fails, whatever the
    comparisons gave; the error lines it printed are one per mismatching
    probe; and it returned [true] exactly when no probe mismatched.  With a
    sample width and a stride of at least one it does return, and the
    probes are the full strided scan. *)
Theorem check_buf_scans_past_mismatches
    (verbose : bool) (m : mem) (buf buflen samplesize d c : Z) :
  buf <> NULL ->
  (0 < samplesize -> 1 <= d < SIZE_MOD -> 0 <= buflen <= PTRDIFF_MAX ->
   exists (retval : bool) (out : list line),
     check_buf verbose m buf buflen samplesize d c =
     Some (retval, scan m buf (buflen / samplesize) d c, out)) /\
  (forall (retval : bool) (ps : list probe) (out : list line),
     check_buf verbose m buf buflen samplesize d c = Some (retval, ps, out) ->
     (exists K : nat,
        (forall k, (k < K)%nat -> loop_index d k < buflen / samplesize) /\
        buflen / samplesize <= loop_index d K /\
        map p_index ps = map (loop_index d) (seq 0 K)) /\
     filter is_err out = mismatches ps /\
     (forall p, In p ps -> p_expect p <> p_actual p ->
                In (ErrLine (p_ptr p) (p_actual p) (p_expect p)) out) /\
     (retval = true <-> mismatches ps = []) /\
     (retval = true <-> forall p, In p ps -> p_expect p = p_actual p)).
Proof.
  intros Hb. split.
  { intros Hs Hd Hl.
    rewrite (check_buf_scan verbose m buf buflen samplesize d c Hb Hs Hd Hl).
    cbv zeta. now do 2 eexists. }
  intros retval ps out H. apply check_buf_inv in H; [|exact Hb].
  destruct H as (K & Hin & Hout & Hps & -> & ->).
  split; [|split; [apply scan_lines_errors|split; [|split]]].
  - exists K. split; [exact Hin|]. split; [exact Hout|].
    rewrite Hps, map_map. reflexivity.
  - intros p Hp Hne. unfold scan_lines. apply in_flat_map.
    exists p. split; [exact Hp|]. unfold probe_lines, probe_ok.
    destruct (Z.eqb_spec (p_expect p) (p_actual p)); [contradiction|].
    left. reflexivity.
  - apply forallb_probe_ok.
  - rewrite forallb_forall. unfold probe_ok.
    split; intros H p Hp; specialize (H p Hp); lia.
Qed.

Lemma check_buf_scans_past_mismatches_witness :
  check_buf false (fun _ => 0) 4096 16 4 1 0 =
    Some (false, scan (fun _ => 0) 4096 (16 / 4) 1 0,
          [ErrLine 4096 0 65536; ErrLine 4100 0 196610;
           ErrLine 4104 0 327684; ErrLine 4108 0 458758]) /\
  filter is_err
    [ErrLine 4096 0 65536; ErrLine 4100 0 196610;
     ErrLine 4104 0 327684; ErrLine 4108 0 458758] =
  mismatches (scan (fun _ => 0) 4096 (16 / 4) 1 0) /\
  (false = true <-> mismatches (scan (fun _ => 0) 4096 (16 / 4) 1 0) = []).
Proof.
  split; [reflexivity|].
  destruct (proj2 (check_buf_scans_past_mismatches false (fun _ => 0)
                     4096 16 4 1 0 ltac:(discriminate))
              false (scan (fun _ => 0) 4096 (16 / 4) 1 0)
              [ErrLine 4096 0 65536; ErrLine 4100 0 196610;
               ErrLine 4104 0 327684; ErrLine 4108 0 458758] eq_refl)
    as (_ & Herr & _ & Hret & _).
  split; [exact Herr | exact Hret].
Defined.

(** On an all-zero block of four samples every probe mismatches, and all
    four are reported. *)
Example check_buf_reports_each_mismatch :
  check_buf false (fun _ => 0) 4096 16 4 1 0 =
  Some (false,
        [mkProbe 0 4096 65536 0; mkProbe 1 4100 196610 0;
         mkProbe 2 4104 327684 0; mkProbe 3 4108 458758 0],
        [ErrLine 4096 0 65536; ErrLine 4100 0 196610;
         ErrLine 4104 0 327684; ErrLine 4108 0 458758]).
Proof. reflexivity. Qed.

(** C10: with a null buffer [check_buf] returns [false] and makes no probe,
    whatever the other arguments are. *)
Theorem check_buf_null
    (verbose : bool) (m : mem) (buflen samplesize stride count : Z) :
  check_buf verbose m NULL buflen samplesize stride count =
  Some (false, [], [NullBufLine]).
Proof. reflexivity. Qed.

(** ** The pattern of create_buf *)

Lemma store8_same (m : mem) (a v : Z) : load8 (store8 m a v) a = v mod 256.
Proof.
  unfold load8, store8. rewrite Z.eqb_refl. apply Z.mod_mod. lia.
Qed.

Lemma store8_other (m : mem) (a v x : Z) : x <> a -> store8 m a v x = m x.
Proof.
  intros H. unfold store8. destruct (Z.eqb_spec x a); [contradiction|reflexivity].
Qed.

Lemma store16_other (m : mem) (a v x : Z) :
  x <> a -> x <> a + 1 -> store16 m a v x = m x.
Proof.
  intros H0 H1. unfold store16. now rewrite !store8_other.
Qed.

Lemma load16_store16_same (m : mem) (a v : Z) :
  load16 (store16 m a v) a = v mod 65536.
Proof.
  unfold load16, store16.
  unfold load8 at 1. rewrite store8_other by lia.
  fold (load8 (store8 m a v) a). rewrite !store8_same.
  change 65536 with (256 * 256).
  rewrite Z.rem_mul_r by lia. reflexivity.
Qed.

Lemma load16_ext (m m' : mem) (a : Z) :
  m' a = m a -> m' (a + 1) = m (a + 1) -> load16 m' a = load16 m a.
Proof. intros H0 H1. unfold load16, load8. now rewrite H0, H1. Qed.

Lemma create_loop_outside (k : nat) (retbuf i : Z) (m : mem) (x : Z) :
  x < retbuf + 2 * i \/ retbuf + 2 * (i + Z.of_nat k) <= x ->
  create_loop k retbuf i m x = m x.
Proof.
  revert i m. induction k as [|k IH]; intros i m H; [reflexivity|].
  cbn [create_loop]. rewrite IH by lia. apply store16_other; lia.
Qed.

Lemma create_loop_word (k : nat) (retbuf i : Z) (m : mem) (j : Z) :
  i <= j < i + Z.of_nat k ->
  load16 (create_loop k retbuf i m) (retbuf + 2 * j) = j mod 65536.
Proof.
  revert i m. induction k as [|k IH]; intros i m H; [lia|].
  cbn [create_loop].
  destruct (Z.eq_dec j i) as [->|Hne].
  - rewrite (load16_ext (store16 m (retbuf + 2 * i) (i mod 65536))).
    + rewrite load16_store16_same. apply Z.mod_mod. lia.
    + apply create_loop_outside. lia.
    + apply create_loop_outside. lia.
  - apply IH. lia.
Qed.

Lemma create_buf_fill_word (retbuf buflen : Z) (m : mem) (i : Z) :
  0 <= i < buflen / 2 ->
  load16 (create_buf_fill retbuf buflen m) (retbuf + 2 * i) = i mod 65536.
Proof.
  intros H. unfold create_buf_fill. apply create_loop_word. lia.
Qed.

Lemma create_buf_fill_outside (retbuf buflen : Z) (m : mem) (a : Z) :
  a < retbuf \/ retbuf + 2 * (buflen / 2) <= a ->
  create_buf_fill retbuf buflen m a = m a.
Proof.
  intros H. unfold create_buf_fill. apply create_loop_outside.
  destruct (Z.le_gt_cases 0 (buflen / 2)).
  - rewrite Z2Nat.id by assumption. lia.
  - lia.
Qed.

(** What [create_buf] does in a state, by the answer of the allocator. *)
Lemma create_buf_run (buflen : Z) (w : world) :
  let p := hd NULL (w_alloc w) in
  create_buf buflen w =
  Some (p,
        mkWorld (if p =? NULL then w_mem w
                 else create_buf_fill p buflen (w_mem w))
                (tl (w_alloc w)) (verbose w) (quiet w),
        [EvMalloc buflen p]).
Proof.
  unfold create_buf, bind, malloc, ret.
  destruct w as [m al v q]. cbn [w_alloc w_mem verbose quiet hd tl].
  destruct al as [|p al]; cbn [hd tl].
  - reflexivity.
  - cbn [w_alloc w_mem verbose quiet]. destruct (p =? NULL); reflexivity.
Qed.

(** C3: for an even length, [create_buf] gives back what the allocator
    answered; when that is [NULL] memory is as before, otherwise the 16-bit
    word at index [i] of the block is [i mod 65536] for every
    [0 <= i < buflen / 2] and every byte outside the block is as before.
    The only event is the one [malloc] call, and the two flags are kept. *)
Theorem create_buf_counting_pattern (buflen : Z) (w : world) :
  Z.even buflen = true ->
  exists (p : Z) (w' : world),
    create_buf buflen w = Some (p, w', [EvMalloc buflen p]) /\
    p = hd NULL (w_alloc w) /\
    verbose w' = verbose w /\ quiet w' = quiet w /\
    (p = NULL -> forall a, w_mem w' a = w_mem w a) /\
    (p <> NULL ->
       (forall i, 0 <= i < buflen / 2 ->
                  load16 (w_mem w') (p + 2 * i) = i mod 65536) /\
       (forall a, a < p \/ p + buflen <= a -> w_mem w' a = w_mem w a)).
Proof.
  intros Heven. rewrite create_buf_run. cbv zeta.
  do 2 eexists. split; [reflexivity|].
  cbn [w_mem verbose quiet]. repeat split.
  - intros -> a. reflexivity.
  - intros i Hi.
    destruct (Z.eqb_spec (hd NULL (w_alloc w)) NULL); [contradiction|].
    now apply create_buf_fill_word.
  - intros a Ha.
    destruct (Z.eqb_spec (hd NULL (w_alloc w)) NULL); [contradiction|].
    apply create_buf_fill_outside.
    apply Z.even_spec in Heven. destruct Heven as [h ->].
    rewrite (Z.mul_comm 2 h), Z.div_mul by lia. lia.
Qed.

Lemma create_buf_counting_pattern_witness :
  exists (p : Z) (w' : world),
    let w := mkWorld (fun _ => 0) [4096] false false in
    create_buf 8 w = Some (p, w', [EvMalloc 8 p]) /\
    p = hd NULL (w_alloc w) /\
    verbose w' = verbose w /\ quiet w' = quiet w /\
    (p = NULL -> forall a, w_mem w' a = w_mem w a) /\
    (p <> NULL ->
       (forall i, 0 <= i < 8 / 2 ->
                  load16 (w_mem w') (p + 2 * i) = i mod 65536) /\
       (forall a, a < p \/ p + 8 <= a -> w_mem w' a = w_mem w a)).
Proof.
  apply (create_buf_counting_pattern 8 (mkWorld (fun _ => 0) [4096] false false)).
  reflexivity.
Defined.

Example create_buf_bytes :
  let m := create_buf_fill 4096 8 (fun _ => 255) in
  map m [4095; 4096; 4097; 4098; 4099; 4100; 4101; 4102; 4103; 4104] =
  [255; 0; 0; 1; 0; 2; 0; 3; 0; 255].
Proof. reflexivity. Qed.

(** ** One corrupted word *)

Lemma load16_store16_other (m : mem) (buf i j v : Z) :
  i <> j ->
  load16 (store16 m (buf + 2 * j) v) (buf + 2 * i) = load16 m (buf + 2 * i).
Proof.
  intros H. apply load16_ext; apply store16_other; lia.
Qed.

Lemma load32_words (m : mem) (buf k : Z) :
  load32 m (buf + 4 * k) =
  load16 m (buf + 2 * (2 * k)) + 65536 * load16 m (buf + 2 * (2 * k + 1)).
Proof.
  unfold load32.
  replace (buf + 4 * k + 2) with (buf + 2 * (2 * k + 1)) by lia.
  replace (buf + 4 * k) with (buf + 2 * (2 * k)) by lia.
  reflexivity.
Qed.

Lemma mismatches_none (f : nat -> probe) (K s : nat) :
  (forall k, (s <= k < s + K)%nat -> probe_ok (f k) = true) ->
  mismatches (map f (seq s K)) = [].
Proof.
  intros H. apply forallb_probe_ok. apply forallb_forall.
  intros p Hp. apply in_map_iff in Hp. destruct Hp as (k & <- & Hk).
  apply in_seq in Hk. apply H. lia.
Qed.

Lemma mismatches_single (f : nat -> probe) (K s t : nat) :
  (s <= t < s + K)%nat ->
  (forall k, (s <= k < s + K)%nat -> probe_ok (f k) = negb (k =? t)%nat) ->
  mismatches (map f (seq s K)) =
  [ErrLine (p_ptr (f t)) (p_actual (f t)) (p_expect (f t))].
Proof.
  revert s. induction K as [|K IH]; intros s Ht H; [lia|].
  cbn [seq map]. unfold mismatches. cbn [filter].
  rewrite (H s) by lia.
  destruct (Nat.eqb_spec s t) as [->|Hne]; cbn [negb map].
  - f_equal. apply mismatches_none.
    intros k Hk. rewrite H by lia.
    destruct (Nat.eqb_spec k t); [lia|reflexivity].
  - apply IH; [lia|]. intros k Hk. apply H. lia.
Qed.

Lemma scan_count_one (n : Z) : scan_count n 1 = Z.to_nat n.
Proof.
  unfold scan_count. rewrite Z.div_1_r. f_equal. lia.
Qed.

(** C5, amended: take a buffer [create_buf] made, overwrite its 16-bit
    word [j] by a different value [v], and let [check_buf] scan it sample
    by sample from count [0].  If word [j] lies in one of the [buflen / 4]
    whole samples (as every word does when [buflen] is a multiple of 4),
    [check_buf] returns [false] and prints one error line: for sample
    [j / 2], with the two counts [2 (j/2)] and [2 (j/2) + 1] as the expected
    word and, as the actual word, the same with the half of word [j]
    replaced by [v]. *)
Theorem check_buf_detects_single_corruption
    (vb : bool) (w w1 : world) (tr : list event) (buflen p j v : Z) :
  Z.even buflen = true -> 0 <= buflen < SIZE_MOD ->
  create_buf buflen w = Some (p, w1, tr) -> p <> NULL ->
  0 <= j < buflen / 2 -> j / 2 < buflen / 4 ->
  0 <= v < 65536 -> v <> j mod 65536 ->
  let m2 := store16 (w_mem w1) (p + 2 * j) v in
  let k := j / 2 in
  let lo := (2 * k) mod 65536 in
  let hi := (2 * k + 1) mod 65536 in
  let expect := lo + 65536 * hi in
  let actual := if Z.even j then v + 65536 * hi else lo + 65536 * v in
  exists (ps : list probe) (out : list line),
    check_buf vb m2 p buflen 4 1 0 = Some (false, ps, out) /\
    filter is_err out = [ErrLine (p + 4 * k) actual expect] /\
    (vb = false -> out = [ErrLine (p + 4 * k) actual expect]) /\
    actual = load32 m2 (p + 4 * k) /\ actual <> expect.
Proof.
  intros Heven Hlen Hcb Hp Hj Hjk Hv Hne m2 k lo hi expect actual.
  rewrite create_buf_run in Hcb. cbv zeta in Hcb.
  injection Hcb as Hp' Hw1 _. rewrite Hp' in Hw1.
  destruct (Z.eqb_spec p NULL) as [|_]; [contradiction|].
  assert (Hm1 : w_mem w1 = create_buf_fill p buflen (w_mem w))
    by (rewrite <- Hw1; reflexivity).
  clear Hw1 Hp'.
  assert (Hk0 : 0 <= k) by (apply Z.div_pos; lia).
  assert (Hj2 : j = 2 * k \/ j = 2 * k + 1).
  { unfold k. pose proof (Z.div_mod j 2 ltac:(lia)).
    pose proof (Z.mod_pos_bound j 2 ltac:(lia)). lia. }
  assert (Hn4 : 4 * (buflen / 4) <= buflen) by (apply Z.mul_div_le; lia).
  assert (Hn2 : forall i, 0 <= i < 2 * (buflen / 4) -> 0 <= i < buflen / 2).
  { intros i Hi.
    assert (i + 1 <= buflen / 2) by (apply Z.div_le_lower_bound; lia). lia. }
  assert (Hword : forall i, 0 <= i < 2 * (buflen / 4) ->
            load16 m2 (p + 2 * i) = if i =? j then v else i mod 65536).
  { intros i Hi. unfold m2. destruct (Z.eqb_spec i j) as [->|Hij].
    - rewrite load16_store16_same. apply Z.mod_small. lia.
    - rewrite load16_store16_other by exact Hij.
      rewrite Hm1. apply create_buf_fill_word. now apply Hn2. }
  assert (Hlo : 0 <= lo < 65536) by (apply Z.mod_pos_bound; lia).
  assert (Hhi : 0 <= hi < 65536) by (apply Z.mod_pos_bound; lia).
  assert (Hpar : Z.even j = true /\ j = 2 * k \/ Z.even j = false /\ j = 2 * k + 1).
  { destruct Hj2 as [Hj2|Hj2]; [left|right]; (split; [|exact Hj2]);
      rewrite Hj2.
    - rewrite Z.even_mul. reflexivity.
    - rewrite Z.add_comm, Z.even_add_mul_2. reflexivity. }
  assert (Hact : actual = load32 m2 (p + 4 * k)).
  { rewrite load32_words, !Hword by lia. unfold actual.
    destruct Hpar as [[-> Hj2']|[-> Hj2']].
    - destruct (Z.eqb_spec (2 * k) j); [|lia].
      destruct (Z.eqb_spec (2 * k + 1) j); [lia|]. reflexivity.
    - destruct (Z.eqb_spec (2 * k) j); [lia|].
      destruct (Z.eqb_spec (2 * k + 1) j); [|lia]. reflexivity. }
  assert (Hdiff : actual <> expect).
  { unfold actual, expect.
    destruct Hpar as [[-> Hj2']|[-> Hj2']]; rewrite Hj2' in Hne;
      fold lo hi in Hne; lia. }
  assert (Hmis : mismatches (scan m2 p (buflen / 4) 1 0) =
                 [ErrLine (p + 4 * k) actual expect]).
  { unfold scan. rewrite scan_count_one.
    rewrite (mismatches_single _ _ 0 (Z.to_nat k)).
    - cbn [scan_probe p_ptr p_actual p_expect].
      rewrite Z2Nat.id, Z.mul_1_r by exact Hk0.
      rewrite <- Hact. unfold expected.
      rewrite Z2Nat.id by exact Hk0. reflexivity.
    - lia.
    - intros i Hi. unfold probe_ok. cbn [scan_probe p_expect p_actual].
      rewrite Z.mul_1_r, load32_words, !Hword by lia. unfold expected.
      cbn [Z.add].
      pose proof (Z.mod_pos_bound (2 * Z.of_nat i) 65536 ltac:(lia)).
      pose proof (Z.mod_pos_bound (2 * Z.of_nat i + 1) 65536 ltac:(lia)).
      destruct (Nat.eqb_spec i (Z.to_nat k)) as [->|Hik]; cbn [negb].
      + rewrite Z2Nat.id by exact Hk0. apply Z.eqb_neq. unfold lo, hi in *.
        destruct (Z.eqb_spec (2 * k) j) as [E1|E1];
          destruct (Z.eqb_spec (2 * k + 1) j) as [E2|E2]; try lia.
        * rewrite <- E1 in Hne. lia.
        * rewrite <- E2 in Hne. lia.
      + apply Z.eqb_eq.
        destruct (Z.eqb_spec (2 * Z.of_nat i) j); [lia|].
        destruct (Z.eqb_spec (2 * Z.of_nat i + 1) j); [lia|]. reflexivity. }
  assert (Hmax : Z.of_nat (scan_count (buflen / 4) 1) * 1 < SIZE_MOD).
  { assert (buflen / 4 <= buflen) by (apply Z.div_le_upper_bound; lia).
    rewrite scan_count_one. lia. }
  rewrite (check_buf_scan_gen vb m2 p buflen 4 1 0 Hp ltac:(lia) ltac:(lia)
             ltac:(lia) Hmax).
  cbv zeta. do 2 eexists. split; [|split; [|split; [|split]]].
  - f_equal. f_equal. f_equal.
    destruct (forallb probe_ok _) eqn:E; [|reflexivity].
    apply forallb_probe_ok in E. rewrite Hmis in E. discriminate.
  - rewrite scan_lines_errors. exact Hmis.
  - intros ->. rewrite scan_lines_quiet. exact Hmis.
  - exact Hact.
  - exact Hdiff.
Qed.

Lemma check_buf_detects_single_corruption_witness :
  let w := mkWorld (fun _ => 0) [4096] false false in
  let w1 := mkWorld (create_buf_fill 4096 8 (fun _ => 0)) [] false false in
  let m2 := store16 (w_mem w1) (4096 + 2 * 3) 9 in
  let k := 3 / 2 in
  let lo := (2 * k) mod 65536 in
  let hi := (2 * k + 1) mod 65536 in
  let expect := lo + 65536 * hi in
  let actual := if Z.even 3 then 9 + 65536 * hi else lo + 65536 * 9 in
  exists (ps : list probe) (out : list line),
    check_buf false m2 4096 8 4 1 0 = Some (false, ps, out) /\
    filter is_err out = [ErrLine (4096 + 4 * k) actual expect] /\
    (false = false -> out = [ErrLine (4096 + 4 * k) actual expect]) /\
    actual = load32 m2 (4096 + 4 * k) /\ actual <> expect.
Proof.
  apply (check_buf_detects_single_corruption false
           (mkWorld (fun _ => 0) [4096] false false)
           (mkWorld (create_buf_fill 4096 8 (fun _ => 0)) [] false false)
           [EvMalloc 8 4096] 8 4096 3 9).
  - reflexivity.
  - split; [lia | reflexivity].
  - reflexivity.
  - discriminate.
  - vm_compute. split; [discriminate | reflexivity].
  - reflexivity.
  - lia.
  - vm_compute. discriminate.
Defined.

(** C5 does not hold for every even length.  When the length is not a
    multiple of 4, as with [create_buf 6] and its three words, [check_buf]
    scans [6 / 4 = 1] sample and word 2 is outside it: overwriting word 2
    (count 2) by 7 leaves the scan without a mismatch. *)
Lemma check_buf_misses_trailing_word :
  let w := mkWorld (fun _ => 0) [4096] false false in
  exists (w1 : world),
    create_buf 6 w = Some (4096, w1, [EvMalloc 6 4096]) /\
    load16 (w_mem w1) (4096 + 2 * 2) = 2 /\
    let m2 := store16 (w_mem w1) (4096 + 2 * 2) 7 in
    load16 m2 (4096 + 2 * 2) = 7 /\
    check_buf false m2 4096 6 4 1 0 =
    Some (true, [mkProbe 0 4096 65536 65536], []).
Proof.
  cbv zeta. eexists. split; [reflexivity|].
  split; [reflexivity|]. split; reflexivity.
Qed.

Example check_buf_reports_corrupted_word :
  let m2 := store16 (create_buf_fill 4096 8 (fun _ => 0)) (4096 + 2 * 3) 9 in
  check_buf false m2 4096 8 4 1 0 =
  Some (false,
        [mkProbe 0 4096 65536 65536; mkProbe 1 4100 196610 589826],
        [ErrLine 4100 589826 196610]).
Proof. reflexivity. Qed.

(** ** Running computations *)

Lemma bind_run {A B : Type} (c : M A) (k : A -> M B) (w w1 w2 : world)
    (a : A) (b : B) (t1 t2 : list event) :
  c w = Some (a, w1, t1) -> k a w1 = Some (b, w2, t2) ->
  bind c k w = Some (b, w2, t1 ++ t2).
Proof. intros Hc Hk. unfold bind. now rewrite Hc, Hk. Qed.

Lemma world_eta (w : world) :
  mkWorld (w_mem w) (w_alloc w) (verbose w) (quiet w) = w.
Proof. destruct w. reflexivity. Qed.

Lemma print_buf_run (buf buflen num_columns : Z) (w : world) :
  1 <= num_columns -> 4 <= buflen ->
  print_buf buf buflen num_columns w = Some (tt, w, []).
Proof.
  intros Hc Hl. unfold print_buf. destruct (verbose w); cbn [negb]; [|reflexivity].
  assert (1 <= buflen / CELL_WIDTH)
    by (apply Z.div_le_lower_bound; unfold CELL_WIDTH; lia).
  destruct (num_columns <? buflen / CELL_WIDTH);
    match goal with |- context [?x =? 0] => destruct (Z.eqb_spec x 0) end;
    solve [lia | reflexivity].
Qed.

Lemma forced_dump_run (buf bytes i : Z) (w : world) :
  4 <= bytes -> forced_dump buf bytes i w = Some (tt, w, []).
Proof.
  intros Hb. unfold forced_dump.
  destruct (verbose w) eqn:Hv; cbn [negb andb]; [reflexivity|].
  destruct (quiet w) eqn:Hq; cbn [negb andb]; [reflexivity|].
  destruct (0 =? i); [|reflexivity].
  set (wt := mkWorld (w_mem w) (w_alloc w) true (quiet w)).
  assert (Hs : set_verbose true w = Some (tt, wt, [])) by reflexivity.
  assert (Hf : set_verbose false wt = Some (tt, w, [])).
  { unfold set_verbose, wt. cbn [w_mem w_alloc quiet].
    rewrite <- Hv at 1. now rewrite world_eta. }
  assert (Hp : (if 64 * 2 <? bytes
                then print_buf buf 48 2;; print_buf (buf + bytes - 48) 48 2
                else print_buf buf bytes 2) wt = Some (tt, wt, [])).
  { destruct (64 * 2 <? bytes).
    - change (@nil event) with (@nil event ++ []).
      eapply bind_run; apply print_buf_run; lia.
    - apply print_buf_run; lia. }
  change (@nil event) with (@nil event ++ ([] ++ [])).
  eapply bind_run; [exact Hs|]. eapply bind_run; [exact Hp|exact Hf].
Qed.

Lemma call_check_buf_run (buf buflen samplesize d c : Z) (w : world) :
  0 < samplesize -> 1 <= d < SIZE_MOD -> 0 <= buflen <= PTRDIFF_MAX ->
  exists (r : bool) (out : list line),
    call_check_buf buf buflen samplesize d c w =
    Some (r, w, [EvCheck buf buflen samplesize d c out r]).
Proof.
  intros Hs Hd Hl. unfold call_check_buf.
  destruct (Z.eq_dec buf NULL) as [->|Hb].
  - exists false, [NullBufLine]. reflexivity.
  - rewrite (check_buf_scan _ _ _ _ _ _ _ Hb Hs Hd Hl). cbv zeta.
    now do 2 eexists.
Qed.

Lemma bind_inv {A B : Type} (c : M A) (k : A -> M B) (w w2 : world)
    (b : B) (t : list event) :
  bind c k w = Some (b, w2, t) ->
  exists (a : A) (w1 : world) (t1 t2 : list event),
    c w = Some (a, w1, t1) /\ k a w1 = Some (b, w2, t2) /\ t = t1 ++ t2.
Proof.
  unfold bind. intros H.
  destruct (c w) as [[[a w1] t1]|]; [|discriminate].
  destruct (k a w1) as [[[b' w2'] t2]|] eqn:Hk; [|discriminate].
  injection H as <- <- <-. now exists a, w1, t1, t2.
Qed.

Lemma ret_inv {A : Type} (a b : A) (w w' : world) (t : list event) :
  ret a w = Some (b, w', t) -> b = a /\ w' = w /\ t = [].
Proof. unfold ret. intros H. injection H as <- <- <-. now repeat split. Qed.

Lemma print_buf_inv (buf buflen num_columns : Z) (w w' : world) (u : unit)
    (t : list event) :
  print_buf buf buflen num_columns w = Some (u, w', t) -> w' = w /\ t = [].
Proof.
  unfold print_buf. intros H.
  destruct (negb (verbose w)); [injection H as _ <- <-; now split|].
  match type of H with (if ?c then _ else _) = _ => destruct c end;
    [discriminate|].
  injection H as _ <- <-. now split.
Qed.

Lemma call_check_buf_inv (buf buflen samplesize d c : Z) (w w' : world)
    (r : bool) (t : list event) :
  call_check_buf buf buflen samplesize d c w = Some (r, w', t) ->
  w' = w /\ exists out, t = [EvCheck buf buflen samplesize d c out r].
Proof.
  unfold call_check_buf. intros H.
  destruct (check_buf (verbose w) (w_mem w) buf buflen samplesize d c)
    as [[[r' ps] out]|]; [|discriminate].
  injection H as <- <- <-. split; [reflexivity|]. now exists out.
Qed.

Section HarnessProperties.

Context {lib : Interleaver}.

(** ** Validation *)

(** C6: a case whose layouts disagree on the channel count, whose buffer
    would be smaller than the metadata, or that has no channel, ends with
    status [-1] in the state it started in and without any event: nothing
    was allocated. *)
Theorem test_rejects_invalid_case
    (rxlay txlay : bladerf_channel_layout) (format : bladerf_format)
    (num_samples : Z) (w : world) :
  _interleave_calc_num_channels rxlay <> _interleave_calc_num_channels txlay \/
  wrap (_interleave_calc_bytes_per_sample format * num_samples)
    < _interleave_calc_metadata_bytes format \/
  _interleave_calc_num_channels rxlay < 1 ->
  test rxlay txlay format num_samples w = Some (-1, w, []).
Proof.
  intros H. unfold test.
  destruct (Z.eqb_spec (_interleave_calc_num_channels rxlay)
                       (_interleave_calc_num_channels txlay)) as [E|E];
    cbn [negb]; [|reflexivity].
  destruct (Z.ltb_spec
              (wrap (_interleave_calc_bytes_per_sample format * num_samples))
              (_interleave_calc_metadata_bytes format)); [reflexivity|].
  destruct (Z.ltb_spec (_interleave_calc_num_channels rxlay) 1);
    [reflexivity|].
  lia.
Qed.

(** ** The shape of a run of test *)

Lemma interleave_run (layout : bladerf_channel_layout) (format : bladerf_format)
    (num_samples buf : Z) (w : world) :
  exists (s : Z) (w1 : world),
    interleave layout format num_samples buf w =
      Some (s, w1, [EvInterleave layout format num_samples buf s]) /\
    s = fst (_interleave_interleave_buf layout format num_samples buf (w_mem w)) /\
    same_env w w1.
Proof.
  unfold interleave.
  destruct (_interleave_interleave_buf layout format num_samples buf (w_mem w))
    as [s m1].
  do 2 eexists. split; [reflexivity|]. split; [reflexivity|].
  repeat split.
Qed.

Lemma deinterleave_run (layout : bladerf_channel_layout) (format : bladerf_format)
    (num_samples buf : Z) (w : world) :
  exists (s : Z) (w1 : world),
    deinterleave layout format num_samples buf w =
      Some (s, w1, [EvDeinterleave layout format num_samples buf s]) /\
    s = fst (_interleave_deinterleave_buf layout format num_samples buf (w_mem w)) /\
    same_env w w1.
Proof.
  unfold deinterleave.
  destruct (_interleave_deinterleave_buf layout format num_samples buf (w_mem w))
    as [s m1].
  do 2 eexists. split; [reflexivity|]. split; [reflexivity|].
  repeat split.
Qed.

(** *** Whatever the sizes: the shape of a run that has a result *)

Lemma forced_dump_inv (buf bytes i : Z) (w w' : world) (u : unit)
    (t : list event) :
  forced_dump buf bytes i w = Some (u, w', t) -> t = [].
Proof.
  unfold forced_dump. intros H.
  destruct (negb (verbose w) && negb (quiet w) && (0 =? i));
    [|now injection H as _ _ <-].
  apply bind_inv in H. destruct H as (u1 & w1 & t1 & t2 & H1 & H & ->).
  injection H1 as _ _ <-.
  apply bind_inv in H. destruct H as (u2 & w2 & t3 & t4 & H2 & H & ->).
  injection H as _ _ <-.
  destruct (64 * 2 <? bytes).
  - apply bind_inv in H2. destruct H2 as (u3 & w3 & t5 & t6 & H3 & H4 & ->).
    apply print_buf_inv in H3. apply print_buf_inv in H4.
    destruct H3 as [_ ->]. destruct H4 as [_ ->]. reflexivity.
  - apply print_buf_inv in H2. destruct H2 as [_ ->]. reflexivity.
Qed.

Lemma chan_loop_inv (buf bytes offset samplesize num_chan : Z) (k : nat) :
  forall (i : Z) (w w' : world) (ok : bool) (t : list event),
    chan_loop k buf bytes offset samplesize num_chan i w = Some (ok, w', t) ->
    forallb is_check t = true.
Proof.
  induction k as [|k IH]; intros i w w' ok t H; cbn [chan_loop] in H.
  - apply ret_inv in H. destruct H as (_ & _ & ->). reflexivity.
  - apply bind_inv in H. destruct H as (u & w1 & t1 & t2 & Hd & H & ->).
    apply forced_dump_inv in Hd. subst t1.
    apply bind_inv in H. destruct H as (r & w2 & t3 & t4 & Hc & H & ->).
    apply call_check_buf_inv in Hc. destruct Hc as (_ & out & ->).
    destruct r; cbn [negb] in H.
    + apply IH in H. cbn. exact H.
    + apply ret_inv in H. destruct H as (_ & _ & ->). reflexivity.
Qed.

Lemma interleave_inv (layout : bladerf_channel_layout) (format : bladerf_format)
    (num_samples buf s : Z) (w w' : world) (t : list event) :
  interleave layout format num_samples buf w = Some (s, w', t) ->
  t = [EvInterleave layout format num_samples buf s] /\
  s = fst (_interleave_interleave_buf layout format num_samples buf (w_mem w)).
Proof.
  destruct (interleave_run layout format num_samples buf w)
    as (s0 & w0 & Hrun & Hs & _).
  rewrite Hrun. intros H. injection H as <- _ <-. now split.
Qed.

Lemma deinterleave_inv (layout : bladerf_channel_layout) (format : bladerf_format)
    (num_samples buf s : Z) (w w' : world) (t : list event) :
  deinterleave layout format num_samples buf w = Some (s, w', t) ->
  t = [EvDeinterleave layout format num_samples buf s] /\
  s = fst (_interleave_deinterleave_buf layout format num_samples buf (w_mem w)).
Proof.
  destruct (deinterleave_run layout format num_samples buf w)
    as (s0 & w0 & Hrun & Hs & _).
  rewrite Hrun. intros H. injection H as <- _ <-. now split.
Qed.

Lemma test_body_inv (rxlay txlay : bladerf_channel_layout)
    (format : bladerf_format)
    (num_samples samplesize offset num_chan bytes buf status : Z)
    (w w' : world) (tr : list event) :
  test_body rxlay txlay format num_samples samplesize offset num_chan
    bytes buf w = Some (status, w', tr) ->
  body_shape rxlay txlay format num_samples samplesize bytes buf status tr.
Proof.
  unfold test_body. intros H.
  apply bind_inv in H. destruct H as (u0 & w0 & t0 & t0' & Hp & H & ->).
  apply print_buf_inv in Hp. destruct Hp as [-> ->].
  apply bind_inv in H. destruct H as (s1 & w1 & t1 & t1' & Hi & H & ->).
  apply interleave_inv in Hi. destruct Hi as [-> Hs1].
  destruct (Z.eqb_spec s1 0) as [->|Hne1]; cbn [negb] in H.
  2:{ apply ret_inv in H. destruct H as (-> & _ & ->).
      now apply (shape_interleave_failed _ _ _ _ _ _ _ (w_mem w)). }
  apply bind_inv in H. destruct H as (u2 & w2 & t2 & t2' & Hp & H & ->).
  apply print_buf_inv in Hp. destruct Hp as [-> ->].
  apply bind_inv in H. destruct H as (ok1 & w3 & c1 & t3' & Hm & H & ->).
  assert (Hc1 : forallb is_check c1 = true).
  { destruct (0 <? offset).
    - apply bind_inv in Hm. destruct Hm as (u & w4 & t4 & t4' & Hp & Hm & ->).
      apply print_buf_inv in Hp. destruct Hp as [-> ->].
      apply call_check_buf_inv in Hm. destruct Hm as (_ & out & ->). reflexivity.
    - apply ret_inv in Hm. destruct Hm as (_ & _ & ->). reflexivity. }
  clear Hm. destruct ok1; cbn [negb] in H.
  2:{ apply ret_inv in H. destruct H as (-> & _ & ->).
      cbn [app]. rewrite app_nil_r. now constructor. }
  apply bind_inv in H. destruct H as (ok2 & w4 & c2 & t4' & Hm & H & ->).
  assert (Hc2 : forallb is_check c2 = true).
  { destruct (num_chan =? 1).
    - apply call_check_buf_inv in Hm. destruct Hm as (_ & out & ->). reflexivity.
    - apply ret_inv in Hm. destruct Hm as (_ & _ & ->). reflexivity. }
  clear Hm. destruct ok2; cbn [negb] in H.
  2:{ apply ret_inv in H. destruct H as (-> & _ & ->).
      cbn [app]. rewrite app_nil_r. constructor.
      rewrite forallb_app. now rewrite Hc1, Hc2. }
  apply bind_inv in H. destruct H as (ok3 & w5 & c3 & t5' & Hm & H & ->).
  apply chan_loop_inv in Hm. rename Hm into Hc3.
  assert (Hcs : forallb is_check (c1 ++ c2 ++ c3) = true)
    by (rewrite !forallb_app; now rewrite Hc1, Hc2, Hc3).
  destruct ok3; cbn [negb] in H.
  2:{ apply ret_inv in H. destruct H as (-> & _ & ->).
      cbn [app]. rewrite app_nil_r. now constructor. }
  apply bind_inv in H. destruct H as (s2 & w6 & t6 & t6' & Hd & H & ->).
  apply deinterleave_inv in Hd. destruct Hd as [-> Hs2].
  destruct (Z.eqb_spec s2 0) as [->|Hne2]; cbn [negb] in H.
  2:{ apply ret_inv in H. destruct H as (-> & _ & ->).
      cbn [app].
      replace (c1 ++ c2 ++ c3 ++ [EvDeinterleave rxlay format num_samples buf s2])
        with ((c1 ++ c2 ++ c3) ++ [EvDeinterleave rxlay format num_samples buf s2])
        by (now rewrite <- !app_assoc).
      now apply (shape_deinterleave_failed _ _ _ _ _ _ _ _ (w_mem w5)). }
  apply bind_inv in H. destruct H as (u7 & w7 & t7 & t7' & Hp & H & ->).
  apply print_buf_inv in Hp. destruct Hp as [-> ->].
  apply bind_inv in H. destruct H as (ok4 & w8 & t8 & t8' & Hm & H & ->).
  apply call_check_buf_inv in Hm. destruct Hm as (_ & out & ->).
  cbn [app].
  replace (c1 ++ c2 ++ c3 ++
           EvDeinterleave rxlay format num_samples buf 0 ::
           EvCheck buf bytes samplesize 1 0 out ok4 :: t8')
    with ((c1 ++ c2 ++ c3) ++
          [EvDeinterleave rxlay format num_samples buf 0;
           EvCheck buf bytes samplesize 1 0 out ok4] ++ t8')
    by (now rewrite <- !app_assoc).
  destruct ok4; cbn [negb] in H; apply ret_inv in H;
    destruct H as (-> & _ & ->); rewrite app_nil_r.
  - now apply (shape_final_check _ _ _ _ _ _ _ _ out true).
  - now apply (shape_final_check _ _ _ _ _ _ _ _ out false).
Qed.

Lemma test_inv (rxlay txlay : bladerf_channel_layout) (format : bladerf_format)
    (num_samples status : Z) (w w' : world) (tr : list event) :
  test rxlay txlay format num_samples w = Some (status, w', tr) ->
  test_shape rxlay txlay format num_samples
    (_interleave_calc_bytes_per_sample format)
    (wrap (_interleave_calc_bytes_per_sample format * num_samples)) status tr.
Proof.
  unfold test. intros H.
  destruct (negb _) in H.
  { apply ret_inv in H. destruct H as (-> & _ & ->). constructor. }
  destruct (_ <? _) in H.
  { apply ret_inv in H. destruct H as (-> & _ & ->). constructor. }
  destruct (_ <? 1) in H.
  { apply ret_inv in H. destruct H as (-> & _ & ->). constructor. }
  apply bind_inv in H. destruct H as (buf & w1 & t1 & t2 & Hc & H & ->).
  rewrite create_buf_run in Hc. cbv zeta in Hc. injection Hc as Hbuf _ <-.
  destruct (Z.eqb_spec buf NULL) as [Hnull|Hnn].
  - apply ret_inv in H. destruct H as (-> & _ & ->).
    rewrite Hbuf, Hnull. constructor.
  - apply bind_inv in H. destruct H as (st & w2 & body & t3 & Hb & H & ->).
    apply test_body_inv in Hb.
    apply bind_inv in H. destruct H as (u & w3 & t4 & t5 & Hf & H & ->).
    injection Hf as _ _ <-.
    apply ret_inv in H. destruct H as (-> & _ & ->).
    rewrite Hbuf. cbn [app]. now constructor.
Qed.

(** *** Sizes for which there is a result *)

Lemma chan_loop_run (buf bytes offset samplesize num_chan : Z) (w : world) :
  0 < samplesize -> 1 <= num_chan < SIZE_MOD -> 4 <= bytes ->
  chan_buflen bytes offset <= PTRDIFF_MAX ->
  forall (k : nat) (i : Z),
  exists (ok : bool) (tr : list event),
    chan_loop k buf bytes offset samplesize num_chan i w = Some (ok, w, tr).
Proof.
  intros Hs Hn Hb Hmax k. induction k as [|k IH]; intros i.
  - now exists true, [].
  - cbn [chan_loop].
    assert (Hl : 0 <= chan_buflen bytes offset).
    { unfold chan_buflen, wrap. apply Z.mod_pos_bound. reflexivity. }
    destruct (call_check_buf_run
                (chan_bufptr buf offset samplesize i)
                (chan_buflen bytes offset) samplesize num_chan
                (chan_startval bytes offset num_chan i) w
                Hs Hn (conj Hl Hmax)) as (r & out & Hc).
    destruct r.
    + destruct (IH (i + 1)) as (ok & tr & Hrun).
      exists ok. eexists.
      eapply bind_run; [apply forced_dump_run; exact Hb|].
      eapply bind_run; [exact Hc|]. exact Hrun.
    + exists false. eexists.
      eapply bind_run; [apply forced_dump_run; exact Hb|].
      eapply bind_run; [exact Hc|]. reflexivity.
Qed.

Lemma test_body_run (rxlay txlay : bladerf_channel_layout)
    (format : bladerf_format)
    (num_samples samplesize offset num_chan bytes buf : Z) (w : world) :
  sizes_ok samplesize offset num_chan bytes ->
  offset <= bytes -> 1 <= num_chan ->
  exists (status : Z) (w' : world) (tr : list event),
    test_body rxlay txlay format num_samples samplesize offset num_chan
      bytes buf w = Some (status, w', tr) /\
    same_env w w'.
Proof.
  intros [Hs Hb Ho Hmax] Hob Hn.
  assert (Hpm : PTRDIFF_MAX < SIZE_MOD) by reflexivity.
  assert (H1m : 1 < SIZE_MOD) by reflexivity.
  assert (Hlen : chan_buflen bytes offset = bytes - offset)
    by (unfold chan_buflen; apply wrap_small; lia).
  destruct (interleave_run txlay format num_samples buf w)
    as (s1 & w1 & Hi & _ & Ha1 & Hv1 & Hq1).
  (* the checks between the transforms, all on [w1] *)
  assert (Hmeta : exists ok tr,
    (if 0 <? offset
     then print_buf buf offset NUM_COLUMNS;; call_check_buf buf offset samplesize 1 0
     else ret true) w1 = Some (ok, w1, tr)).
  { destruct (Z.ltb_spec 0 offset).
    - destruct (call_check_buf_run buf offset samplesize 1 0 w1)
        as (r & out & Hc); try lia.
      exists r. eexists.
      eapply bind_run; [apply print_buf_run; unfold NUM_COLUMNS; lia|exact Hc].
    - now exists true, []. }
  assert (Hone : exists ok tr,
    (if num_chan =? 1 then call_check_buf buf bytes samplesize 1 0
     else ret true) w1 = Some (ok, w1, tr)).
  { destruct (num_chan =? 1).
    - destruct (call_check_buf_run buf bytes samplesize 1 0 w1)
        as (r & out & Hc); try lia.
      exists r. eexists. exact Hc.
    - now exists true, []. }
  destruct (chan_loop_run buf bytes offset samplesize num_chan w1 Hs
              (conj Hn Hmax) ltac:(lia) ltac:(rewrite Hlen; lia)
              (Z.to_nat num_chan) 0) as (ok3 & t3 & Hr3).
  destruct Hmeta as (ok1 & t1 & Hr1).
  destruct Hone as (ok2 & t2 & Hr2).
  destruct (deinterleave_run rxlay format num_samples buf w1)
    as (s2 & w2 & Hd & _ & Ha2 & Hv2 & Hq2).
  destruct (call_check_buf_run buf bytes samplesize 1 0 w2)
    as (r4 & out4 & Hr4); try lia.
  assert (Hp : forall w0, print_buf buf bytes NUM_COLUMNS w0 = Some (tt, w0, []))
    by (intros w0; apply print_buf_run; unfold NUM_COLUMNS; lia).
  assert (He1 : same_env w w1) by (repeat split; assumption).
  assert (He2 : same_env w w2) by (repeat split; congruence).
  unfold test_body.
  destruct (Z.eqb_spec s1 0) as [->|Hs1].
  2:{ exists s1, w1. eexists. split; [|exact He1].
      eapply bind_run; [apply Hp|]. eapply bind_run; [exact Hi|].
      destruct (Z.eqb_spec s1 0); [contradiction|]. reflexivity. }
  destruct ok1.
  2:{ exists (-1), w1. eexists. split; [|exact He1].
      eapply bind_run; [apply Hp|]. eapply bind_run; [exact Hi|].
      cbn [Z.eqb negb].
      eapply bind_run; [apply Hp|]. eapply bind_run; [exact Hr1|].
      reflexivity. }
  destruct ok2.
  2:{ exists (-1), w1. eexists. split; [|exact He1].
      eapply bind_run; [apply Hp|]. eapply bind_run; [exact Hi|].
      cbn [Z.eqb negb].
      eapply bind_run; [apply Hp|]. eapply bind_run; [exact Hr1|].
      cbn [negb]. eapply bind_run; [exact Hr2|]. reflexivity. }
  destruct ok3.
  2:{ exists (-1), w1. eexists. split; [|exact He1].
      eapply bind_run; [apply Hp|]. eapply bind_run; [exact Hi|].
      cbn [Z.eqb negb].
      eapply bind_run; [apply Hp|]. eapply bind_run; [exact Hr1|].
      cbn [negb]. eapply bind_run; [exact Hr2|].
      cbn [negb]. eapply bind_run; [exact Hr3|]. reflexivity. }
  destruct (Z.eqb_spec s2 0) as [->|Hs2].
  2:{ exists s2, w2. eexists. split; [|exact He2].
      eapply bind_run; [apply Hp|]. eapply bind_run; [exact Hi|].
      cbn [Z.eqb negb].
      eapply bind_run; [apply Hp|]. eapply bind_run; [exact Hr1|].
      cbn [negb]. eapply bind_run; [exact Hr2|].
      cbn [negb]. eapply bind_run; [exact Hr3|].
      cbn [negb]. eapply bind_run; [exact Hd|].
      destruct (Z.eqb_spec s2 0); [contradiction|]. reflexivity. }
  exists (if r4 then 0 else -1), w2. eexists. split; [|exact He2].
  eapply bind_run; [apply Hp|]. eapply bind_run; [exact Hi|].
  cbn [Z.eqb negb].
  eapply bind_run; [apply Hp|]. eapply bind_run; [exact Hr1|].
  cbn [negb]. eapply bind_run; [exact Hr2|].
  cbn [negb]. eapply bind_run; [exact Hr3|].
  cbn [negb]. eapply bind_run; [exact Hd|].
  cbn [Z.eqb negb].
  eapply bind_run; [apply Hp|]. eapply bind_run; [exact Hr4|].
  destruct r4; reflexivity.
Qed.

Lemma test_run (rxlay txlay : bladerf_channel_layout) (format : bladerf_format)
    (num_samples : Z) (w : world) :
  sizes_ok (_interleave_calc_bytes_per_sample format)
           (_interleave_calc_metadata_bytes format)
           (_interleave_calc_num_channels rxlay)
           (wrap (_interleave_calc_bytes_per_sample format * num_samples)) ->
  exists (status : Z) (w' : world) (tr : list event),
    test rxlay txlay format num_samples w = Some (status, w', tr) /\
    verbose w' = verbose w /\ quiet w' = quiet w.
Proof.
  intros Hok. unfold test.
  set (samplesize := _interleave_calc_bytes_per_sample format) in *.
  set (offset := _interleave_calc_metadata_bytes format) in *.
  set (num_chan := _interleave_calc_num_channels rxlay) in *.
  set (bytes := wrap (samplesize * num_samples)) in *.
  destruct (negb (num_chan =? _interleave_calc_num_channels txlay)).
  { now exists (-1), w, []. }
  destruct (Z.ltb_spec bytes offset) as [_|Hob].
  { now exists (-1), w, []. }
  destruct (Z.ltb_spec num_chan 1) as [_|Hn].
  { now exists (-1), w, []. }
  pose proof (create_buf_run bytes w) as Hc. cbv zeta in Hc.
  set (buf := hd NULL (w_alloc w)) in *.
  match type of Hc with _ = Some (_, ?x, _) => set (w0 := x) in * end.
  destruct (Z.eqb_spec buf NULL) as [Hnull|Hbuf].
  - exists (-1), w0. eexists. split; [|split; reflexivity].
    eapply bind_run; [exact Hc|].
    destruct (Z.eqb_spec buf NULL); [reflexivity|contradiction].
  - destruct (test_body_run rxlay txlay format num_samples samplesize offset
                num_chan bytes buf w0 Hok Hob Hn)
      as (status & w' & body & Hrun & _ & Hv & Hq).
    exists status, w'. eexists. split; [|split; [exact Hv|exact Hq]].
    eapply bind_run; [exact Hc|].
    destruct (Z.eqb_spec buf NULL); [contradiction|].
    eapply bind_run; [exact Hrun|].
    eapply bind_run; reflexivity.
Qed.

(** ** The per-channel checks, call by call *)

Lemma chan_args_exact (buf bytes offset samplesize num_chan i : Z) :
  0 < samplesize -> 0 <= offset <= bytes -> bytes < SIZE_MOD ->
  samplesize * num_chan <= SIZE_MOD -> 0 <= i < num_chan ->
  chan_bufptr buf offset samplesize i = buf + offset + i * samplesize /\
  chan_buflen bytes offset = bytes - offset /\
  chan_startval bytes offset num_chan i =
    ((offset + i * ((bytes - offset) / num_chan)) / 2) mod 65536.
Proof.
  intros Hs Ho Hb Hsn Hi.
  assert (Hlen : chan_buflen bytes offset = bytes - offset)
    by (unfold chan_buflen; apply wrap_small; lia).
  split; [|split; [exact Hlen|]].
  - unfold chan_bufptr. rewrite wrap_small by nia. lia.
  - unfold chan_startval. cbv zeta. rewrite Hlen.
    set (q := (bytes - offset) / num_chan).
    assert (Hq : 0 <= q) by (apply Z.div_pos; lia).
    assert (Hq' : num_chan * q <= bytes - offset)
      by (apply Z.mul_div_le; lia).
    assert (Hiq : 0 <= i * q <= bytes - offset) by nia.
    rewrite (wrap_small (i * q)) by lia.
    rewrite wrap_small by lia. reflexivity.
Qed.




(** With a sample width and a stride of at least one, [check_buf] returns,
    null buffer or not. *)
Lemma check_buf_returns (verbose : bool) (m : mem)
    (buf buflen samplesize d c : Z) :
  0 < samplesize -> 1 <= d < SIZE_MOD -> 0 <= buflen <= PTRDIFF_MAX ->
  exists (r : bool) (ps : list probe) (out : list line),
    check_buf verbose m buf buflen samplesize d c = Some (r, ps, out).
Proof.
  intros Hs Hd Hl. destruct (Z.eq_dec buf NULL) as [->|Hb].
  - now exists false, [], [NullBufLine].
  - rewrite (check_buf_scan _ _ _ _ _ _ _ Hb Hs Hd Hl). cbv zeta.
    now do 3 eexists.
Qed.

(** The checks of the loop of lines 208-241, from channel [i0] on: each one
    is the call of [check_buf] on the memory as it stands, with the
    arguments of lines 210-215; the loop goes on as long as the calls
    return [true], and its outcome is what the last call returned. *)
Lemma chan_loop_checks (buf bytes offset samplesize num_chan : Z) (w : world) :
  0 < samplesize -> 1 <= num_chan < SIZE_MOD -> 4 <= bytes ->
  chan_buflen bytes offset <= PTRDIFF_MAX ->
  forall (k i0 : nat),
  exists (ok : bool) (cs : list event),
    chan_loop k buf bytes offset samplesize num_chan (Z.of_nat i0) w =
      Some (ok, w, cs) /\
    (length cs <= k)%nat /\
    (0 < k -> 0 < length cs)%nat /\
    (ok = true -> length cs = k) /\
    (length cs = 0%nat -> ok = true) /\
    (forall j : nat, (j < length cs)%nat ->
       exists (r : bool) (ps : list probe) (out : list line),
         check_buf (verbose w) (w_mem w)
           (chan_bufptr buf offset samplesize (Z.of_nat (i0 + j)))
           (chan_buflen bytes offset) samplesize num_chan
           (chan_startval bytes offset num_chan (Z.of_nat (i0 + j))) =
           Some (r, ps, out) /\
         nth_error cs j =
           Some (EvCheck (chan_bufptr buf offset samplesize (Z.of_nat (i0 + j)))
                   (chan_buflen bytes offset) samplesize num_chan
                   (chan_startval bytes offset num_chan (Z.of_nat (i0 + j)))
                   out r) /\
         (S j < length cs -> r = true)%nat /\
         (S j = length cs -> ok = r)).
Proof.
  intros Hs Hn Hb Hmax k. induction k as [|k IH]; intros i0.
  - exists true, []. split; [reflexivity|]. cbn [length].
    split; [lia|]. split; [lia|]. split; [reflexivity|]. split; [reflexivity|].
    intros j Hj. lia.
  - assert (Hl : 0 <= chan_buflen bytes offset).
    { unfold chan_buflen, wrap. apply Z.mod_pos_bound. reflexivity. }
    destruct (check_buf_returns (verbose w) (w_mem w)
                (chan_bufptr buf offset samplesize (Z.of_nat i0))
                (chan_buflen bytes offset) samplesize num_chan
                (chan_startval bytes offset num_chan (Z.of_nat i0))
                Hs Hn (conj Hl Hmax)) as (r & ps & out & Hc).
    assert (Hcall : call_check_buf
                      (chan_bufptr buf offset samplesize (Z.of_nat i0))
                      (chan_buflen bytes offset) samplesize num_chan
                      (chan_startval bytes offset num_chan (Z.of_nat i0)) w =
                    Some (r, w,
                          [EvCheck (chan_bufptr buf offset samplesize (Z.of_nat i0))
                             (chan_buflen bytes offset) samplesize num_chan
                             (chan_startval bytes offset num_chan (Z.of_nat i0))
                             out r])).
    { unfold call_check_buf. now rewrite Hc. }
    destruct r.
    + destruct (IH (S i0)) as (ok & cs & Hrun & Hle & Hpos & Hok & Hnil & Hnth).
      exists ok. eexists. split.
      { cbn [chan_loop].
        eapply bind_run; [apply forced_dump_run; exact Hb|].
        eapply bind_run; [exact Hcall|]. cbn [negb].
        replace (Z.of_nat i0 + 1) with (Z.of_nat (S i0)) by lia. exact Hrun. }
      cbn [app length].
      split; [lia|]. split; [lia|]. split; [intros E; rewrite (Hok E); lia|].
      split; [lia|].
      intros [|j] Hj.
      * exists true, ps, out. rewrite Nat.add_0_r. cbn [nth_error].
        repeat split; try assumption.
        intros Hlast. apply Hnil. lia.
      * destruct (Hnth j ltac:(lia)) as (r & ps' & out' & Hc' & Hn' & Hlt & Heq).
        exists r, ps', out'.
        replace (i0 + S j)%nat with (S i0 + j)%nat by lia.
        cbn [nth_error]. repeat split; try assumption.
        -- intros H. apply Hlt. lia.
        -- intros H. apply Heq. lia.
    + exists false. eexists. split.
      { cbn [chan_loop].
        eapply bind_run; [apply forced_dump_run; exact Hb|].
        eapply bind_run; [exact Hcall|]. reflexivity. }
      cbn [app length].
      split; [lia|]. split; [lia|]. split; [discriminate|]. split; [lia|].
      intros j Hj. assert (j = 0%nat) as -> by lia.
      exists false, ps, out. rewrite Nat.add_0_r. cbn [nth_error].
      repeat split; try assumption. intros H. lia.
Qed.

(** C2: take a case that gets to the loop of lines 208-241: the layouts
    agree on [N >= 1] channels, the sizes are workable, [malloc] gives a
    block, the forward transform reports 0 and leaves the memory [m1], and
    the checks before the loop (of the metadata, if there is any; of the
    whole buffer, if [N = 1]) pass on [m1].  Then [test] returns, and in
    its trace the forward transform and those checks are followed by the
    checks of the channels [0, 1, ...], in order and at least one.  The
    check of channel [i] is the call of [check_buf] on [m1] with the
    pointer [buf + metaBytes + i * samplesize], the length
    [dataBytes = bytes - metaBytes], the sample width, stride [N] and the
    start count [((metaBytes + i * (dataBytes / N)) / 2) mod 65536], and
    the event records what that call returned and printed.  Every check
    but the last returned [true]; if the last returned [false], [test]
    frees the buffer and returns -1; if it returned [true], all [N]
    channels were checked and the inverse transform follows.  With 4 bytes
    per sample, no metadata, two channels and 16384 samples the buffer has
    65536 bytes and the start counts are 0 and 16384. *)
Theorem test_checks_each_channel
    (rxlay txlay : bladerf_channel_layout) (format : bladerf_format)
    (num_samples buf : Z) (rest : list Z) (w : world) :
  let samplesize := _interleave_calc_bytes_per_sample format in
  let offset := _interleave_calc_metadata_bytes format in
  let num_chan := _interleave_calc_num_channels rxlay in
  let bytes := wrap (samplesize * num_samples) in
  let m1 := snd (_interleave_interleave_buf txlay format num_samples buf
                   (create_buf_fill buf bytes (w_mem w))) in
  _interleave_calc_num_channels txlay = num_chan -> 1 <= num_chan ->
  sizes_ok samplesize offset num_chan bytes -> offset <= bytes ->
  samplesize * num_chan <= SIZE_MOD ->
  w_alloc w = buf :: rest -> buf <> NULL ->
  fst (_interleave_interleave_buf txlay format num_samples buf
         (create_buf_fill buf bytes (w_mem w))) = 0 ->
  (0 < offset -> exists (ps : list probe) (out : list line),
     check_buf (verbose w) m1 buf offset samplesize 1 0 =
     Some (true, ps, out)) ->
  (num_chan = 1 -> exists (ps : list probe) (out : list line),
     check_buf (verbose w) m1 buf bytes samplesize 1 0 =
     Some (true, ps, out)) ->
  (exists (status : Z) (w' : world) (c0 cs tail : list event),
     test rxlay txlay format num_samples w =
       Some (status, w',
             EvMalloc bytes buf ::
             EvInterleave txlay format num_samples buf 0 ::
             c0 ++ cs ++ tail) /\
     forallb is_check c0 = true /\
     length c0 = ((if (0 <? offset)%Z then 1 else 0) +
                  (if (num_chan =? 1)%Z then 1 else 0))%nat /\
     (1 <= length cs <= Z.to_nat num_chan)%nat /\
     (forall i : nat, (i < length cs)%nat ->
        exists (r : bool) (ps : list probe) (out : list line),
          check_buf (verbose w) m1
            (buf + offset + Z.of_nat i * samplesize) (bytes - offset)
            samplesize num_chan
            (((offset + Z.of_nat i * ((bytes - offset) / num_chan)) / 2)
               mod 65536) = Some (r, ps, out) /\
          nth_error cs i =
            Some (EvCheck (buf + offset + Z.of_nat i * samplesize)
                    (bytes - offset) samplesize num_chan
                    (((offset + Z.of_nat i * ((bytes - offset) / num_chan)) / 2)
                       mod 65536) out r) /\
          (S i < length cs -> r = true)%nat /\
          (S i = length cs -> r = false ->
             status = -1 /\ tail = [EvFree buf]) /\
          (S i = length cs -> r = true ->
             length cs = Z.to_nat num_chan /\
             exists (s : Z) (tail' : list event),
               tail = EvDeinterleave rxlay format num_samples buf s :: tail'))) /\
  (wrap (4 * NUM_SAMPLES) = 65536 /\
   ((0 + 0 * ((65536 - 0) / 2)) / 2) mod 65536 = 0 /\
   ((0 + 1 * ((65536 - 0) / 2)) / 2) mod 65536 = 16384 /\
   chan_startval 65536 0 2 0 = 0 /\ chan_startval 65536 0 2 1 = 16384).
Proof.
  intros samplesize offset num_chan bytes m1 Htx Hn [Hs Hb Ho Hmax] Hob Hsn
         Ha Hbuf Hst Hmeta Hone.
  split; [|repeat split; reflexivity].
  assert (HS : SIZE_MOD = 18446744073709551616) by reflexivity.
  assert (HP : PTRDIFF_MAX = 9223372036854775807) by reflexivity.
  assert (Ho0 : 0 <= offset) by lia.
  (* the buffer and the forward transform *)
  pose proof (create_buf_run bytes w) as Hc. cbv zeta in Hc.
  rewrite Ha in Hc. cbn [hd tl] in Hc.
  destruct (Z.eqb_spec buf NULL) as [|_]; [contradiction|].
  set (w0 := mkWorld (create_buf_fill buf bytes (w_mem w)) rest
                     (verbose w) (quiet w)) in *.
  set (w1 := mkWorld m1 rest (verbose w) (quiet w)).
  assert (Hrun1 : interleave txlay format num_samples buf w0 =
                  Some (0, w1, [EvInterleave txlay format num_samples buf 0])).
  { unfold interleave, w1, m1. cbn [w_mem w_alloc verbose quiet w0].
    destruct (_interleave_interleave_buf txlay format num_samples buf
                (create_buf_fill buf bytes (w_mem w))) as [s m'].
    cbn [fst snd] in *. now subst s. }
  assert (Hpb : forall w', print_buf buf bytes NUM_COLUMNS w' = Some (tt, w', []))
    by (intros w'; apply print_buf_run; unfold NUM_COLUMNS; lia).
  (* the checks before the loop *)
  assert (Hm : exists t1,
    (if 0 <? offset
     then print_buf buf offset NUM_COLUMNS;;
          call_check_buf buf offset samplesize 1 0
     else ret true) w1 = Some (true, w1, t1) /\
    forallb is_check t1 = true /\
    length t1 = (if (0 <? offset)%Z then 1 else 0)%nat).
  { destruct (Z.ltb_spec 0 offset) as [Hpos|_]; [|now exists []].
    destruct (Hmeta Hpos) as (ps & out & Hck). eexists. split; [|split].
    - eapply bind_run; [apply print_buf_run; unfold NUM_COLUMNS; lia|].
      unfold call_check_buf. cbn [verbose w_mem w1]. rewrite Hck. reflexivity.
    - reflexivity.
    - reflexivity. }
  destruct Hm as (t1 & Hm & Hc1 & Hl1).
  assert (H1 : exists t2,
    (if num_chan =? 1 then call_check_buf buf bytes samplesize 1 0
     else ret true) w1 = Some (true, w1, t2) /\
    forallb is_check t2 = true /\
    length t2 = (if (num_chan =? 1)%Z then 1 else 0)%nat).
  { destruct (Z.eqb_spec num_chan 1) as [E|_]; [|now exists []].
    destruct (Hone E) as (ps & out & Hck). eexists. split; [|split].
    - unfold call_check_buf. cbn [verbose w_mem w1]. rewrite Hck. reflexivity.
    - reflexivity.
    - reflexivity. }
  destruct H1 as (t2 & H1 & Hc2 & Hl2).
  (* the loop *)
  assert (Hlen : chan_buflen bytes offset = bytes - offset)
    by (unfold chan_buflen; apply wrap_small; lia).
  destruct (chan_loop_checks buf bytes offset samplesize num_chan w1 Hs
              ltac:(lia) ltac:(lia) ltac:(rewrite Hlen; lia)
              (Z.to_nat num_chan) 0)
    as (ok & cs & Hloop & Hle & Hpos & Hok & _ & Hnth).
  change (Z.of_nat 0) with 0 in Hloop.
  assert (Hcs : (1 <= length cs <= Z.to_nat num_chan)%nat) by lia.
  assert (Hargs : forall i : nat, (i < length cs)%nat ->
    exists (r : bool) (ps : list probe) (out : list line),
      check_buf (verbose w) m1
        (buf + offset + Z.of_nat i * samplesize) (bytes - offset)
        samplesize num_chan
        (((offset + Z.of_nat i * ((bytes - offset) / num_chan)) / 2)
           mod 65536) = Some (r, ps, out) /\
      nth_error cs i =
        Some (EvCheck (buf + offset + Z.of_nat i * samplesize)
                (bytes - offset) samplesize num_chan
                (((offset + Z.of_nat i * ((bytes - offset) / num_chan)) / 2)
                   mod 65536) out r) /\
      (S i < length cs -> r = true)%nat /\
      (S i = length cs -> ok = r)).
  { intros i Hi.
    destruct (Hnth i Hi) as (r & ps & out & Hck & Hev & Hlt & Heq).
    cbn [Nat.add verbose w_mem w1] in Hck, Hev.
    destruct (chan_args_exact buf bytes offset samplesize num_chan (Z.of_nat i))
      as (Hptr & _ & Hval); try lia.
    rewrite Hptr, Hlen, Hval in Hck, Hev.
    now exists r, ps, out. }
  destruct ok.
  - (* every channel passed: the inverse transform follows *)
    destruct (deinterleave_run rxlay format num_samples buf w1)
      as (s2 & w2 & Hd & _ & _).
    assert (Hlast : exists (st : Z) (t4 : list event),
      (if negb (s2 =? 0) then ret s2 else
       print_buf buf bytes NUM_COLUMNS ;;
       ok <- call_check_buf buf bytes samplesize 1 0 ;;
       if negb ok then ret (-1) else ret s2) w2 = Some (st, w2, t4)).
    { destruct (Z.eqb_spec s2 0) as [->|_]; cbn [negb]; [|now exists s2, []].
      destruct (call_check_buf_run buf bytes samplesize 1 0 w2)
        as (r4 & out4 & Hr4); try lia.
      exists (if r4 then 0 else -1). eexists.
      eapply bind_run; [apply Hpb|]. eapply bind_run; [exact Hr4|].
      destruct r4; reflexivity. }
    destruct Hlast as (st & t4 & Hlast).
    assert (Hrun : exists tr,
      test rxlay txlay format num_samples w = Some (st, w2, tr) /\
      tr = EvMalloc bytes buf ::
           EvInterleave txlay format num_samples buf 0 ::
           (t1 ++ t2) ++ cs ++
           (EvDeinterleave rxlay format num_samples buf s2 ::
            t4 ++ [EvFree buf])).
    { eexists. split.
      - unfold test. fold samplesize offset num_chan bytes. rewrite Htx.
        rewrite Z.eqb_refl. cbn [negb].
        destruct (Z.ltb_spec bytes offset) as [|_]; [lia|].
        destruct (Z.ltb_spec num_chan 1) as [|_]; [lia|].
        eapply bind_run; [exact Hc|].
        destruct (Z.eqb_spec buf NULL) as [|_]; [contradiction|].
        eapply bind_run; [|eapply bind_run; reflexivity].
        unfold test_body.
        eapply bind_run; [apply Hpb|]. eapply bind_run; [exact Hrun1|].
        cbn [Z.eqb negb].
        eapply bind_run; [apply Hpb|]. eapply bind_run; [exact Hm|].
        cbn [negb]. eapply bind_run; [exact H1|].
        cbn [negb]. eapply bind_run; [exact Hloop|].
        cbn [negb]. eapply bind_run; [exact Hd|]. exact Hlast.
      - cbn [app]. rewrite ?app_nil_r, <- ?app_assoc. cbn [app].
        reflexivity. }
    destruct Hrun as (tr & Hrun & ->).
    exists st, w2, (t1 ++ t2), cs,
      (EvDeinterleave rxlay format num_samples buf s2 :: t4 ++ [EvFree buf]).
    split; [exact Hrun|]. split; [now rewrite forallb_app, Hc1, Hc2|].
    split; [rewrite length_app; lia|]. split; [exact Hcs|].
    intros i Hi.
    destruct (Hargs i Hi) as (r & ps & out & Hck & Hev & Hlt & Heq).
    exists r, ps, out. split; [exact Hck|]. split; [exact Hev|].
    split; [exact Hlt|]. split.
    + intros E Hr. rewrite <- (Heq E) in Hr. discriminate.
    + intros E _. split; [now apply Hok|]. now eexists _, _.
  - (* a channel failed: the case is given up *)
    assert (Hrun : exists tr,
      test rxlay txlay format num_samples w = Some (-1, w1, tr) /\
      tr = EvMalloc bytes buf ::
           EvInterleave txlay format num_samples buf 0 ::
           (t1 ++ t2) ++ cs ++ [EvFree buf]).
    { eexists. split.
      - unfold test. fold samplesize offset num_chan bytes. rewrite Htx.
        rewrite Z.eqb_refl. cbn [negb].
        destruct (Z.ltb_spec bytes offset) as [|_]; [lia|].
        destruct (Z.ltb_spec num_chan 1) as [|_]; [lia|].
        eapply bind_run; [exact Hc|].
        destruct (Z.eqb_spec buf NULL) as [|_]; [contradiction|].
        eapply bind_run; [|eapply bind_run; reflexivity].
        unfold test_body.
        eapply bind_run; [apply Hpb|]. eapply bind_run; [exact Hrun1|].
        cbn [Z.eqb negb].
        eapply bind_run; [apply Hpb|]. eapply bind_run; [exact Hm|].
        cbn [negb]. eapply bind_run; [exact H1|].
        cbn [negb]. eapply bind_run; [exact Hloop|].
        cbn [negb]. reflexivity.
      - cbn [app]. rewrite ?app_nil_r, <- ?app_assoc. cbn [app].
        reflexivity. }
    destruct Hrun as (tr & Hrun & ->).
    exists (-1), w1, (t1 ++ t2), cs, [EvFree buf].
    split; [exact Hrun|]. split; [now rewrite forallb_app, Hc1, Hc2|].
    split; [rewrite length_app; lia|]. split; [exact Hcs|].
    intros i Hi.
    destruct (Hargs i Hi) as (r & ps & out & Hck & Hev & Hlt & Heq).
    exists r, ps, out. split; [exact Hck|]. split; [exact Hev|].
    split; [exact Hlt|]. split.
    + intros _ _. now split.
    + intros E Hr. rewrite <- (Heq E) in Hr. discriminate.
Qed.

(** ** Transform failures *)





(** ** The buffer is released *)

Lemma checks_heap_free (cs : list event) :
  forallb is_check cs = true -> heap_free cs = true.
Proof.
  unfold heap_free. rewrite !forallb_forall. intros H e He.
  specialize (H e He). destruct e; try discriminate. reflexivity.
Qed.

Lemma body_heap_free (rxlay txlay : bladerf_channel_layout)
    (format : bladerf_format) (num_samples samplesize bytes buf status : Z)
    (body : list event) :
  body_shape rxlay txlay format num_samples samplesize bytes buf status body ->
  heap_free body = true.
Proof.
  intros [m s _ _|cs Hcs|cs m s _ _ Hcs|cs out r Hcs]; unfold heap_free;
    cbn [forallb is_heap negb andb]; rewrite ?forallb_app;
    try (fold (heap_free cs); rewrite (checks_heap_free cs Hcs));
    reflexivity.
Qed.

Lemma heap_free_filter (l : list event) :
  heap_free l = true -> filter is_heap l = [].
Proof.
  unfold heap_free. induction l as [|e l IH]; [reflexivity|].
  cbn [forallb filter]. intros H. apply andb_true_iff in H.
  destruct H as [He Hl]. destruct (is_heap e); [discriminate|]. now apply IH.
Qed.

(** C9: in a run of [test] that got a buffer from [create_buf], the trace
    is the [malloc], then events that are neither [malloc] nor [free], then
    the [free] of that buffer as the last event: the buffer is released
    once, and before [test] returns, on every path.  For sizes [test] can
    work with there is such a run. *)
Theorem test_releases_buffer_once
    (rxlay txlay : bladerf_channel_layout) (format : bladerf_format)
    (num_samples : Z) (w : world) :
  (sizes_ok (_interleave_calc_bytes_per_sample format)
           (_interleave_calc_metadata_bytes format)
           (_interleave_calc_num_channels rxlay)
           (wrap (_interleave_calc_bytes_per_sample format * num_samples)) ->
   exists (status : Z) (w' : world) (tr : list event),
     test rxlay txlay format num_samples w = Some (status, w', tr)) /\
  (forall (status : Z) (w' : world) (tr : list event),
     test rxlay txlay format num_samples w = Some (status, w', tr) ->
     forall (size buf : Z),
       In (EvMalloc size buf) tr -> buf <> NULL ->
       (exists body : list event,
          tr = EvMalloc size buf :: body ++ [EvFree buf] /\
          heap_free body = true) /\
       filter is_heap tr = [EvMalloc size buf; EvFree buf]).
Proof.
  split.
  { intros Hok.
    destruct (test_run rxlay txlay format num_samples w Hok)
      as (status & w' & tr & Hrun & _).
    now exists status, w', tr. }
  intros status w' tr Hrun. apply test_inv in Hrun. rename Hrun into Hshape.
  intros size buf Hin Hbuf.
  destruct Hshape as [| |b st body Hb Hbody].
  - destruct Hin.
  - destruct Hin as [E|[]]. injection E as _ E. congruence.
  - pose proof (body_heap_free _ _ _ _ _ _ _ _ _ Hbody) as Hfree.
    assert (E : EvMalloc size buf =
                EvMalloc (wrap (_interleave_calc_bytes_per_sample format
                                * num_samples)) b).
    { destruct Hin as [E|Hin]; [now symmetry|]. exfalso.
      apply in_app_or in Hin. destruct Hin as [Hin|[E|[]]]; [|discriminate].
      unfold heap_free in Hfree. rewrite forallb_forall in Hfree.
      specialize (Hfree _ Hin). discriminate. }
    injection E as -> ->. split.
    + exists body. now split.
    + cbn [filter is_heap]. rewrite filter_app.
      rewrite (heap_free_filter body Hfree). reflexivity.
Qed.

(** ** The battery of main *)

Lemma test_status_nonpositive (rxlay txlay : bladerf_channel_layout)
    (format : bladerf_format) (num_samples samplesize bytes status : Z)
    (tr : list event) :
  statuses_nonpositive ->
  test_shape rxlay txlay format num_samples samplesize bytes status tr ->
  status <= 0.
Proof.
  intros Hlib [| |buf st body _ Hbody]; try lia.
  destruct Hbody as [m s -> _|cs _|cs m s -> _ _|cs out r _].
  - apply Hlib.
  - lia.
  - apply Hlib.
  - destruct r; lia.
Qed.


Lemma run_cases_run (cs : list test_case) :
  (forall rxlay txlay format num_samples,
     In (rxlay, txlay, format, num_samples) cs ->
     sizes_ok (_interleave_calc_bytes_per_sample format)
              (_interleave_calc_metadata_bytes format)
              (_interleave_calc_num_channels rxlay)
              (wrap (_interleave_calc_bytes_per_sample format * num_samples))) ->
  forall w : world,
  exists (status : Z) (w' : world) (tr : list event),
    run_cases cs w = Some (status, w', tr).
Proof.
  induction cs as [|[[[rxlay txlay] format] num_samples] cs IH]; intros Hok w.
  - now exists 0, w, [].
  - destruct (test_run rxlay txlay format num_samples w
                (Hok _ _ _ _ (or_introl eq_refl)))
      as (st & w1 & t1 & Hrun & _).
    cbn [run_cases]. destruct (Z.eqb_spec st 0) as [->|Hne].
    + destruct (IH (fun a b c d H => Hok a b c d (or_intror H)) w1)
        as (st2 & w2 & t2 & Hrest).
      exists st2, w2, (t1 ++ t2). eapply bind_run; [exact Hrun|exact Hrest].
    + exists st, w1, (t1 ++ []). eapply bind_run; [exact Hrun|].
      destruct (Z.eqb_spec st 0); [contradiction|reflexivity].
Qed.

Lemma bind_test_agree (rxlay txlay : bladerf_channel_layout)
    (format : bladerf_format) (num_samples : Z) (k1 k2 : Z -> M Z) (w : world) :
  statuses_nonpositive ->
  (forall st w1, st <= 0 -> k1 st w1 = k2 st w1) ->
  bind (test rxlay txlay format num_samples) k1 w =
  bind (test rxlay txlay format num_samples) k2 w.
Proof.
  intros Hlib Hk. unfold bind.
  destruct (test rxlay txlay format num_samples w) as [[[st w1] t1]|] eqn:Hrun;
    [|reflexivity].
  apply test_inv in Hrun.
  pose proof (test_status_nonpositive _ _ _ _ _ _ _ _ Hlib Hrun) as Hst.
  rewrite (Hk st w1 Hst). reflexivity.
Qed.

(** Whatever the library reports, [main] stops at the first negative
    status. *)
Lemma main_run_until_negative : main = run_until_negative fixed_cases.
Proof. reflexivity. Qed.

Lemma main_run_cases (w : world) :
  statuses_nonpositive -> main w = run_cases fixed_cases w.
Proof.
  intros Hlib. unfold main, fixed_cases. cbn [run_cases].
  change NUM_SAMPLES with 16384 in *.
  apply bind_test_agree; [exact Hlib|]. intros st1 w1 Hst1.
  destruct (Z.ltb_spec st1 0), (Z.eqb_spec st1 0); try lia; [reflexivity|].
  apply bind_test_agree; [exact Hlib|]. intros st2 w2 Hst2.
  destruct (Z.ltb_spec st2 0), (Z.eqb_spec st2 0); try lia; [reflexivity|].
  apply bind_test_agree; [exact Hlib|]. intros st3 w3 Hst3.
  destruct (Z.ltb_spec st3 0), (Z.eqb_spec st3 0); try lia; [reflexivity|].
  apply bind_test_agree; [exact Hlib|]. intros st4 w4 Hst4.
  destruct (Z.eqb_spec st4 0) as [->|]; reflexivity.
Qed.

(** C8, amended: when the library reports failure by a negative status
    (every status of a transform is 0 or negative), [main] is the run of
    its four cases (one and two channels, each without and with
    metadata, 16384 samples) in order, up to and including the first case
    whose status is not 0; it exits with that status, or with 0 when all
    four passed.  With sizes [test] can work with, [main] does exit. *)
Theorem main_stops_at_first_failure (w : world) :
  statuses_nonpositive ->
  main w = run_cases fixed_cases w /\
  (battery_sizes_ok ->
   exists (status : Z) (w' : world) (tr : list event),
     main w = Some (status, w', tr) /\
     run_cases fixed_cases w = Some (status, w', tr)).
Proof.
  intros Hlib. split; [now apply main_run_cases|]. intros Hok.
  destruct (run_cases_run fixed_cases) with (w := w)
    as (status & w' & tr & Hrun).
  - intros rxlay txlay format num_samples Hin.
    assert (num_samples = NUM_SAMPLES) as ->.
    { unfold fixed_cases in Hin.
      repeat (destruct Hin as [Hin|Hin]; [now inversion Hin|]).
      destruct Hin. }
    apply Hok.
  - exists status, w', tr. split; [|exact Hrun].
    rewrite main_run_cases; assumption.
Qed.

End HarnessProperties.

(** * Concrete runs *)

Lemma test_checks_each_channel_witness :
  let m1 := snd (@_interleave_interleave_buf interleaving_lib BLADERF_TX_X2
                   BLADERF_FORMAT_SC16_Q11 4 4096
                   (create_buf_fill 4096 16 (fun _ => 0))) in
  (exists (status : Z) (w' : world) (c0 cs tail : list event),
     @test interleaving_lib BLADERF_RX_X2 BLADERF_TX_X2
       BLADERF_FORMAT_SC16_Q11 4 sample_world =
       Some (status, w',
             EvMalloc 16 4096 ::
             EvInterleave BLADERF_TX_X2 BLADERF_FORMAT_SC16_Q11 4 4096 0 ::
             c0 ++ cs ++ tail) /\
     forallb is_check c0 = true /\
     length c0 = ((if (0 <? 0)%Z then 1 else 0) +
                  (if (2 =? 1)%Z then 1 else 0))%nat /\
     (1 <= length cs <= Z.to_nat 2)%nat /\
     (forall i : nat, (i < length cs)%nat ->
        exists (r : bool) (ps : list probe) (out : list line),
          check_buf false m1 (4096 + 0 + Z.of_nat i * 4) (16 - 0) 4 2
            (((0 + Z.of_nat i * ((16 - 0) / 2)) / 2) mod 65536) =
            Some (r, ps, out) /\
          nth_error cs i =
            Some (EvCheck (4096 + 0 + Z.of_nat i * 4) (16 - 0) 4 2
                    (((0 + Z.of_nat i * ((16 - 0) / 2)) / 2) mod 65536)
                    out r) /\
          (S i < length cs -> r = true)%nat /\
          (S i = length cs -> r = false ->
             status = -1 /\ tail = [EvFree 4096]) /\
          (S i = length cs -> r = true ->
             length cs = Z.to_nat 2 /\
             exists (s : Z) (tail' : list event),
               tail = EvDeinterleave BLADERF_RX_X2 BLADERF_FORMAT_SC16_Q11 4
                        4096 s :: tail'))) /\
  (wrap (4 * NUM_SAMPLES) = 65536 /\
   ((0 + 0 * ((65536 - 0) / 2)) / 2) mod 65536 = 0 /\
   ((0 + 1 * ((65536 - 0) / 2)) / 2) mod 65536 = 16384 /\
   chan_startval 65536 0 2 0 = 0 /\ chan_startval 65536 0 2 1 = 16384).
Proof.
  apply (@test_checks_each_channel interleaving_lib BLADERF_RX_X2
           BLADERF_TX_X2 BLADERF_FORMAT_SC16_Q11 4 4096 [] sample_world).
  - reflexivity.
  - cbn. lia.
  - constructor; cbn; lia.
  - vm_compute. discriminate.
  - vm_compute. discriminate.
  - reflexivity.
  - discriminate.
  - reflexivity.
  - cbn. lia.
  - cbn. intros H. discriminate.
Defined.

(** The same case on a library that leaves the buffer as it is: the check
    of channel 0 is made, fails on the second sample of the channel, and
    the case is given up. *)
Example test_checks_plain_buffer :
  option_map (fun r => (fst (fst r), snd r))
    (@test (sample_lib 0 0) BLADERF_RX_X2 BLADERF_TX_X2
       BLADERF_FORMAT_SC16_Q11 4 sample_world) =
  Some (-1,
        [EvMalloc 16 4096;
         EvInterleave BLADERF_TX_X2 BLADERF_FORMAT_SC16_Q11 4 4096 0;
         EvCheck 4096 16 4 2 0 [ErrLine 4104 327684 196610] false;
         EvFree 4096]).
Proof. vm_compute. reflexivity. Qed.

Lemma test_rejects_invalid_case_witness :
  @test (sample_lib 0 0) BLADERF_RX_X1 BLADERF_TX_X2 BLADERF_FORMAT_SC16_Q11 4
    sample_world = Some (-1, sample_world, []).
Proof.
  apply (@test_rejects_invalid_case (sample_lib 0 0)).
  left. discriminate.
Defined.

Example test_rejects_short_buffer :
  @test (sample_lib 0 0) BLADERF_RX_X1 BLADERF_TX_X1
    BLADERF_FORMAT_SC16_Q11_META 3 sample_world = Some (-1, sample_world, []).
Proof. reflexivity. Qed.


(** A failing inverse transform, after the checks of the forward one. *)
Example test_deinterleave_failure :
  exists w' : world,
    @test (sample_lib 0 (-4)) BLADERF_RX_X1 BLADERF_TX_X1
      BLADERF_FORMAT_SC16_Q11 4 sample_world =
    Some (-4, w',
          [EvMalloc 16 4096;
           EvInterleave BLADERF_TX_X1 BLADERF_FORMAT_SC16_Q11 4 4096 0;
           EvCheck 4096 16 4 1 0 [] true;
           EvCheck 4096 16 4 1 0 [] true;
           EvDeinterleave BLADERF_RX_X1 BLADERF_FORMAT_SC16_Q11 4 4096 (-4);
           EvFree 4096]).
Proof. eexists. reflexivity. Qed.

Lemma test_releases_buffer_once_witness :
  exists w' : world,
    @test (sample_lib 0 0) BLADERF_RX_X1 BLADERF_TX_X1
      BLADERF_FORMAT_SC16_Q11 4 sample_world =
    Some (0, w',
          [EvMalloc 16 4096;
           EvInterleave BLADERF_TX_X1 BLADERF_FORMAT_SC16_Q11 4 4096 0;
           EvCheck 4096 16 4 1 0 [] true;
           EvCheck 4096 16 4 1 0 [] true;
           EvDeinterleave BLADERF_RX_X1 BLADERF_FORMAT_SC16_Q11 4 4096 0;
           EvCheck 4096 16 4 1 0 [] true;
           EvFree 4096]) /\
    filter is_heap
      [EvMalloc 16 4096;
       EvInterleave BLADERF_TX_X1 BLADERF_FORMAT_SC16_Q11 4 4096 0;
       EvCheck 4096 16 4 1 0 [] true;
       EvCheck 4096 16 4 1 0 [] true;
       EvDeinterleave BLADERF_RX_X1 BLADERF_FORMAT_SC16_Q11 4 4096 0;
       EvCheck 4096 16 4 1 0 [] true;
       EvFree 4096] = [EvMalloc 16 4096; EvFree 4096].
Proof.
  eexists. split; [reflexivity|].
  eapply (proj2 (@test_releases_buffer_once (sample_lib 0 0)
                   BLADERF_RX_X1 BLADERF_TX_X1 BLADERF_FORMAT_SC16_Q11 4
                   sample_world)
            _ _ _ eq_refl 16 4096).
  - left. reflexivity.
  - discriminate.
Defined.

(** A two-channel case with a transform that leaves the buffer alone: the
    check of channel 0 finds the second sample where the third should be,
    and the buffer is released all the same. *)
Example test_verification_failure :
  exists w' : world,
    @test (sample_lib 0 0) BLADERF_RX_X2 BLADERF_TX_X2
      BLADERF_FORMAT_SC16_Q11 4 sample_world =
    Some (-1, w',
          [EvMalloc 16 4096;
           EvInterleave BLADERF_TX_X2 BLADERF_FORMAT_SC16_Q11 4 4096 0;
           EvCheck 4096 16 4 2 0 [ErrLine 4104 327684 196610] false;
           EvFree 4096]).
Proof. eexists. reflexivity. Qed.

Lemma sample_lib_statuses : @statuses_nonpositive (sample_lib 0 (-4)).
Proof. intros layout format num_samples buf m. split; cbn; lia. Qed.

Lemma sample_lib_sizes : @battery_sizes_ok (sample_lib 0 (-4)).
Proof.
  intros format layout. constructor.
  - reflexivity.
  - split; discriminate.
  - destruct format; [left | right]; [reflexivity | discriminate].
  - destruct layout; reflexivity.
Qed.

Lemma main_stops_at_first_failure_witness :
  @main (sample_lib 0 (-4)) sample_world =
    @run_cases (sample_lib 0 (-4)) fixed_cases sample_world /\
  exists (status : Z) (w' : world) (tr : list event),
    @main (sample_lib 0 (-4)) sample_world = Some (status, w', tr) /\
    @run_cases (sample_lib 0 (-4)) fixed_cases sample_world =
      Some (status, w', tr).
Proof.
  destruct (@main_stops_at_first_failure (sample_lib 0 (-4)) sample_world
              sample_lib_statuses) as [Heq Hrun].
  split; [exact Heq | exact (Hrun sample_lib_sizes)].
Defined.

(** Without memory to be had, [main] stops in its first case. *)
Example main_without_memory :
  @main (sample_lib 0 0) (mkWorld (fun _ => 0) [] false false) =
  Some (-1, mkWorld (fun _ => 0) [] false false, [EvMalloc 65536 NULL]).
Proof. reflexivity. Qed.

(** C8 does not hold for a library that reports a positive status.
    [test] gives up a case on any status other than 0 (lines 175 and 244),
    [main] stops only at a negative one (lines 276-298).  With a forward
    transform that reports 5 the first case is given up with status 5;
    [main] goes on to the second case (which here finds no memory) and
    exits with the status -1 of that case, where the run that stops at the
    first failing case exits with 5. *)
Lemma main_goes_on_after_positive_status :
  option_map (fun r => (fst (fst r), snd r))
    (@main (sample_lib 5 0) sample_world) =
  Some (-1,
        [EvMalloc 65536 4096;
         EvInterleave BLADERF_TX_X1 BLADERF_FORMAT_SC16_Q11 16384 4096 5;
         EvFree 4096;
         EvMalloc 65536 NULL]) /\
  option_map (fun r => (fst (fst r), snd r))
    (@run_cases (sample_lib 5 0) fixed_cases sample_world) =
  Some (5,
        [EvMalloc 65536 4096;
         EvInterleave BLADERF_TX_X1 BLADERF_FORMAT_SC16_Q11 16384 4096 5;
         EvFree 4096]).
Proof. split; vm_compute; reflexivity. Qed.

(** * Further properties *)

(** ** The dump of print_buf *)

Lemma SIZE_MOD_val : SIZE_MOD = 18446744073709551616.
Proof. reflexivity. Qed.

Lemma PTRDIFF_MAX_val : PTRDIFF_MAX = 9223372036854775807.
Proof. reflexivity. Qed.

Lemma dump_bytes_text (m : mem) (rowsize b0 : Z) (k : nat) :
  forall (s : nat) (r : Z) (txt : list ascii),
    0 <= r -> r + 2 * Z.of_nat k < rowsize -> rowsize < SIZE_MOD ->
    dump_bytes k m rowsize (mkDump (b0 + Z.of_nat s) r txt) =
    Some (mkDump (b0 + Z.of_nat (s + k)) (r + 2 * Z.of_nat k)
                 (txt ++ flat_map (fun j => hex2 (load8 m (b0 + Z.of_nat j)))
                                  (seq s k))).
Proof.
  induction k as [|k IH]; intros s r txt Hr Hfit Hrs.
  - cbn. rewrite app_nil_r, Nat.add_0_r, Z.add_0_r. reflexivity.
  - cbn [dump_bytes d_rowidx d_buf d_text].
    destruct (rowsize <? r) eqn:E; [apply Z.ltb_lt in E; lia|].
    rewrite (wrap_small (rowsize - r)) by lia.
    rewrite (wrap_small (r + 2)) by lia.
    unfold snprintf_chars.
    destruct (rowsize - r =? 0) eqn:E0; [apply Z.eqb_eq in E0; lia|].
    replace (Z.to_nat (rowsize - r - 1)) with (S (S (Z.to_nat (rowsize - r - 3))))
      by lia.
    cbn [hex2 firstn].
    replace (b0 + Z.of_nat s + 1) with (b0 + Z.of_nat (S s)) by lia.
    rewrite IH by lia.
    rewrite firstn_nil.
    cbn [seq flat_map hex2]. rewrite <- app_assoc. cbn [app].
    f_equal. f_equal; [f_equal; lia|lia].
Qed.

Lemma dump_bytes_some (m : mem) (rowsize : Z) (k : nat) :
  forall st st' : dump_state,
    dump_bytes k m rowsize st = Some st' ->
    0 <= d_rowidx st -> rowsize + 2 < SIZE_MOD ->
    d_buf st' = d_buf st + Z.of_nat k /\
    d_rowidx st' = d_rowidx st + 2 * Z.of_nat k /\
    d_rowidx st' <= Z.max (d_rowidx st) (rowsize + 2).
Proof.
  induction k as [|k IH]; intros st st' H Hr Hrs.
  - cbn in H. injection H as <-. lia.
  - cbn [dump_bytes] in H.
    destruct (rowsize <? d_rowidx st) eqn:E; [discriminate|].
    apply Z.ltb_ge in E.
    apply IH in H; cbn [d_rowidx d_buf] in *;
      rewrite ?(wrap_small (d_rowidx st + 2)) in * by lia; lia.
Qed.

Lemma dump_bytes_ext (m m' : mem) (rowsize : Z) (k : nat) :
  forall st : dump_state,
    (forall a, d_buf st <= a < d_buf st + Z.of_nat k -> load8 m a = load8 m' a) ->
    dump_bytes k m rowsize st = dump_bytes k m' rowsize st.
Proof.
  induction k as [|k IH]; intros st Hm; [reflexivity|].
  cbn [dump_bytes].
  destruct (rowsize <? d_rowidx st); [reflexivity|].
  rewrite (Hm (d_buf st)) by lia.
  apply IH. cbn [d_buf]. intros a Ha. apply Hm. lia.
Qed.

Lemma dump_columns_text (m : mem) (rowsize b0 : Z) (k : nat) :
  forall (s : nat) (r : Z) (txt : list ascii),
    0 <= r -> rowidx_after s k r < rowsize -> rowsize < SIZE_MOD ->
    dump_columns k m rowsize (Z.of_nat s)
      (mkDump (b0 + CELL_WIDTH * Z.of_nat s) r txt) =
    Some (mkDump (b0 + CELL_WIDTH * Z.of_nat (s + k)) (rowidx_after s k r)
            (txt ++ flat_map
               (fun j => (if (0 <? j)%nat then [" "%char] else []) ++
                         cell_text m (b0 + CELL_WIDTH * Z.of_nat j))
               (seq s k))).
Proof.
  unfold rowidx_after.
  induction k as [|k IH]; intros s r txt Hr Hfit Hrs.
  - cbn [dump_columns seq flat_map].
    change (0 <? 0)%nat with false. rewrite andb_false_r.
    rewrite app_nil_r, Nat.add_0_r. f_equal. f_equal. cbn [Z.of_nat]. lia.
  - cbn [dump_columns].
    assert (Hk : (0 <? S k)%nat = true) by reflexivity.
    rewrite Hk, andb_true_r in Hfit |- *.
    assert (HW : Z.of_nat (Z.to_nat CELL_WIDTH) = 4) by reflexivity.
    assert (HC : CELL_WIDTH = 4) by reflexivity.
    assert (Hsk : Z.of_nat (S k) = Z.of_nat k + 1) by lia.
    destruct s as [|s].
    + change (Z.of_nat 0) with 0 in *. rewrite Z.ltb_irrefl.
      change (0 =? 0)%nat with true in *. cbv iota in Hfit |- *.
      pose proof (dump_bytes_text m rowsize (b0 + CELL_WIDTH * 0)
                    (Z.to_nat CELL_WIDTH) 0 r txt) as Hb.
      change (Z.of_nat 0) with 0 in Hb. rewrite Z.add_0_r in Hb at 1.
      rewrite Hb by lia. clear Hb.
      change (0 + 1) with (Z.of_nat 1).
      replace (b0 + CELL_WIDTH * 0 + Z.of_nat (0 + Z.to_nat CELL_WIDTH))
        with (b0 + CELL_WIDTH * Z.of_nat 1) by lia.
      rewrite IH by
        (try change (1 =? 0)%nat with false; rewrite ?andb_false_l; lia).
      change (1 =? 0)%nat with false. rewrite andb_false_l.
      f_equal. f_equal; try (rewrite ?HW, ?HC; lia).
      rewrite <- app_assoc. f_equal.
    + change (S s =? 0)%nat with false in *. rewrite ?andb_false_l in *.
      destruct (0 <? Z.of_nat (S s)) eqn:E; [|apply Z.ltb_ge in E; lia].
      cbn [d_rowidx d_buf d_text].
      destruct (r <? rowsize) eqn:E1; [|apply Z.ltb_ge in E1; lia].
      rewrite (wrap_small (r + 1)) by lia.
      pose proof (dump_bytes_text m rowsize (b0 + CELL_WIDTH * Z.of_nat (S s))
                    (Z.to_nat CELL_WIDTH) 0 (r + 1) (txt ++ [" "%char])) as Hb.
      change (Z.of_nat 0) with 0 in Hb. rewrite Z.add_0_r in Hb at 1.
      rewrite Hb by lia. clear Hb.
      replace (Z.of_nat (S s) + 1) with (Z.of_nat (S (S s))) by lia.
      replace (b0 + CELL_WIDTH * Z.of_nat (S s) + Z.of_nat (0 + Z.to_nat CELL_WIDTH))
        with (b0 + CELL_WIDTH * Z.of_nat (S (S s))) by lia.
      rewrite IH by
        (try change (S (S s) =? 0)%nat with false; rewrite ?andb_false_l; lia).
      change (S (S s) =? 0)%nat with false. rewrite andb_false_l.
      f_equal. f_equal; try (rewrite ?HW, ?HC; lia).
      rewrite <- !app_assoc. f_equal.
Qed.

Lemma dump_bytes_buf (m : mem) (rowsize : Z) (k : nat) :
  forall st st' : dump_state,
    dump_bytes k m rowsize st = Some st' -> d_buf st' = d_buf st + Z.of_nat k.
Proof.
  induction k as [|k IH]; intros st st' H.
  - cbn in H. injection H as <-. lia.
  - cbn [dump_bytes] in H.
    destruct (rowsize <? d_rowidx st); [discriminate|].
    apply IH in H. cbn [d_buf] in H. lia.
Qed.

Lemma dump_columns_buf (m : mem) (rowsize : Z) (k : nat) :
  forall (column : Z) (st st' : dump_state),
    dump_columns k m rowsize column st = Some st' ->
    d_buf st' = d_buf st + CELL_WIDTH * Z.of_nat k.
Proof.
  induction k as [|k IH]; intros column st st' H.
  - cbn in H. injection H as <-. lia.
  - cbn [dump_columns] in H.
    match type of H with
    | match ?sp with _ => _ end = _ =>
        destruct sp as [st1|] eqn:Hsp; [|discriminate];
        assert (Hb1 : d_buf st1 = d_buf st)
    end.
    { destruct (0 <? column); [|now injection Hsp as <-].
      destruct (d_rowidx st <? rowsize); [|discriminate].
      now injection Hsp as <-. }
    destruct (dump_bytes (Z.to_nat CELL_WIDTH) m rowsize st1) as [st2|] eqn:Hby;
      [|discriminate].
    apply dump_bytes_buf in Hby. apply IH in H.
    change (Z.of_nat (Z.to_nat CELL_WIDTH)) with CELL_WIDTH in Hby. lia.
Qed.

Lemma dump_columns_some (m : mem) (rowsize : Z) (k : nat) :
  forall (s : nat) (st st' : dump_state),
    dump_columns k m rowsize (Z.of_nat s) st = Some st' ->
    0 <= d_rowidx st -> rowsize + 2 < SIZE_MOD ->
    d_rowidx st' = rowidx_after s k (d_rowidx st) /\
    d_rowidx st' <= Z.max (d_rowidx st) (rowsize + 2).
Proof.
  unfold rowidx_after.
  induction k as [|k IH]; intros s st st' H Hr Hrs.
  - cbn in H. injection H as <-.
    change (0 <? 0)%nat with false. rewrite andb_false_r. cbn [Z.of_nat]. lia.
  - cbn [dump_columns] in H.
    assert (Hk : (0 <? S k)%nat = true) by reflexivity.
    rewrite Hk, andb_true_r.
    match type of H with
    | match ?sp with _ => _ end = _ =>
        destruct sp as [st1|] eqn:Hsp; [|discriminate];
        assert (Hr1 : d_rowidx st1 =
                      d_rowidx st + (if (s =? 0)%nat then 0 else 1) /\
                      d_rowidx st1 <= Z.max (d_rowidx st) rowsize)
    end.
    { destruct s as [|s].
      - change (0 <? Z.of_nat 0) with false in Hsp. injection Hsp as <-.
        cbn [Nat.eqb]. lia.
      - destruct (0 <? Z.of_nat (S s)) eqn:E; [|apply Z.ltb_ge in E; lia].
        destruct (d_rowidx st <? rowsize) eqn:E1; [|discriminate].
        apply Z.ltb_lt in E1. injection Hsp as <-. cbn [d_rowidx Nat.eqb].
        rewrite (wrap_small (d_rowidx st + 1)) by lia. lia. }
    destruct (dump_bytes (Z.to_nat CELL_WIDTH) m rowsize st1) as [st2|] eqn:Hby;
      [|discriminate].
    assert (Hr1' : 0 <= d_rowidx st1) by (destruct (s =? 0)%nat; lia).
    apply dump_bytes_some in Hby; [|lia|lia].
    change (Z.of_nat (Z.to_nat CELL_WIDTH)) with 4 in Hby.
    replace (Z.of_nat s + 1) with (Z.of_nat (S s)) in H by lia.
    apply IH in H; [|lia|lia].
    change (S s =? 0)%nat with false in H. rewrite andb_false_l in H.
    destruct (s =? 0)%nat; lia.
Qed.

Lemma dump_columns_ext (m m' : mem) (rowsize : Z) (k : nat) :
  forall (column : Z) (st : dump_state),
    (forall a, d_buf st <= a < d_buf st + CELL_WIDTH * Z.of_nat k ->
               load8 m a = load8 m' a) ->
    dump_columns k m rowsize column st = dump_columns k m' rowsize column st.
Proof.
  induction k as [|k IH]; intros column st Hm; [reflexivity|].
  cbn [dump_columns].
  match goal with
  | |- match ?sp with _ => _ end = _ =>
      destruct sp as [st1|] eqn:Hsp; [|reflexivity];
      assert (Hb1 : d_buf st1 = d_buf st)
  end.
  { destruct (0 <? column); [|now injection Hsp as <-].
    destruct (d_rowidx st <? rowsize); [|discriminate].
    now injection Hsp as <-. }
  assert (HC : CELL_WIDTH = 4) by reflexivity.
  rewrite <- (dump_bytes_ext m m') by
    (intros a Ha; apply Hm;
     change (Z.of_nat (Z.to_nat CELL_WIDTH)) with 4 in Ha; lia).
  destruct (dump_bytes (Z.to_nat CELL_WIDTH) m rowsize st1) as [st2|] eqn:Hby;
    [|reflexivity].
  apply dump_bytes_buf in Hby.
  change (Z.of_nat (Z.to_nat CELL_WIDTH)) with 4 in Hby.
  apply IH. intros a Ha. apply Hm. lia.
Qed.

Lemma dump_rows_text (m : mem) (rowsize columns b0 : Z) (k : nat) :
  1 <= columns -> 9 * columns - 1 < rowsize -> rowsize < SIZE_MOD ->
  forall s : nat,
    dump_rows k m rowsize columns (b0 + CELL_WIDTH * columns * Z.of_nat s) =
    Some (map (fun r => RowLine (b0 + CELL_WIDTH * columns * Z.of_nat r)
                          (row_text m (b0 + CELL_WIDTH * columns * Z.of_nat r)
                                    (Z.to_nat columns)))
              (seq s k)).
Proof.
  intros Hc Hfit Hrs.
  assert (HC : CELL_WIDTH = 4) by reflexivity.
  induction k as [|k IH]; intros s; [reflexivity|].
  cbn [dump_rows].
  pose proof (dump_columns_text m rowsize
                (b0 + CELL_WIDTH * columns * Z.of_nat s) (Z.to_nat columns)
                0 0 []) as Hcol.
  change (Z.of_nat 0) with 0 in Hcol. rewrite Z.mul_0_r, Z.add_0_r in Hcol.
  assert (Hafter : rowidx_after 0 (Z.to_nat columns) 0 = 9 * columns - 1).
  { unfold rowidx_after. change (0 =? 0)%nat with true.
    destruct (0 <? Z.to_nat columns)%nat eqn:E;
      [|apply Nat.ltb_ge in E; lia].
    cbv iota. cbn [andb]. lia. }
  rewrite Hafter in Hcol. rewrite Hcol by lia. clear Hcol.
  cbn [d_rowidx d_buf d_text app].
  destruct (9 * columns - 1 <? rowsize) eqn:E; [|apply Z.ltb_ge in E; lia].
  destruct (rowsize <=? 9 * columns - 1) eqn:E1; [apply Z.leb_le in E1; lia|].
  replace (b0 + CELL_WIDTH * columns * Z.of_nat s +
           CELL_WIDTH * Z.of_nat (0 + Z.to_nat columns))
    with (b0 + CELL_WIDTH * columns * Z.of_nat (S s)) by (rewrite HC; lia).
  rewrite IH. cbn [app seq map]. reflexivity.
Qed.

Lemma dump_rows_some (m : mem) (rowsize columns buf : Z) (k : nat)
    (ls : list dump_line) :
  dump_rows (S k) m rowsize columns buf = Some ls ->
  1 <= columns -> rowsize + 2 < SIZE_MOD ->
  9 * columns - 1 < rowsize.
Proof.
  intros H Hc Hrs. cbn [dump_rows] in H.
  destruct (dump_columns (Z.to_nat columns) m rowsize 0 (mkDump buf 0 []))
    as [st|] eqn:Hcol; [|discriminate].
  apply (dump_columns_some m rowsize (Z.to_nat columns) 0) in Hcol;
    [|cbn; lia|lia].
  destruct Hcol as [Hidx _]. cbn [d_rowidx] in Hidx.
  destruct (d_rowidx st <? rowsize) eqn:E; [|discriminate].
  apply Z.ltb_lt in E. unfold rowidx_after in Hidx.
  change (0 =? 0)%nat with true in Hidx.
  destruct (0 <? Z.to_nat columns)%nat eqn:E0;
    [|apply Nat.ltb_ge in E0; lia].
  cbn [andb] in Hidx. lia.
Qed.

Lemma dump_rows_ext (m m' : mem) (rowsize columns : Z) (k : nat) :
  0 <= columns ->
  forall buf : Z,
    (forall a, buf <= a < buf + CELL_WIDTH * columns * Z.of_nat k ->
               load8 m a = load8 m' a) ->
    dump_rows k m rowsize columns buf = dump_rows k m' rowsize columns buf.
Proof.
  intros Hc.
  assert (HC : CELL_WIDTH = 4) by reflexivity.
  induction k as [|k IH]; intros buf Hm; [reflexivity|].
  cbn [dump_rows].
  rewrite <- (dump_columns_ext m m') by
    (cbn [d_buf]; intros a Ha; apply Hm; rewrite HC in *; nia).
  destruct (dump_columns (Z.to_nat columns) m rowsize 0 (mkDump buf 0 []))
    as [st|] eqn:Hcol; [|reflexivity].
  apply dump_columns_buf in Hcol. cbn [d_buf] in Hcol.
  destruct (d_rowidx st <? rowsize); [|reflexivity].
  rewrite (IH (d_buf st)); [reflexivity|].
  intros a Ha. apply Hm. rewrite HC in *. nia.
Qed.

Lemma dump_columns_of_spec (buflen num_columns : Z) :
  (if num_columns <? buflen / CELL_WIDTH then num_columns
   else buflen / CELL_WIDTH) = dump_columns_of buflen num_columns.
Proof.
  unfold dump_columns_of.
  destruct (num_columns <? buflen / CELL_WIDTH) eqn:E;
    [apply Z.ltb_lt in E|apply Z.ltb_ge in E]; lia.
Qed.

Lemma dump_rows_of_spec (buflen num_columns : Z) :
  (if 1 <? buflen / dump_columns_of buflen num_columns / CELL_WIDTH
   then buflen / dump_columns_of buflen num_columns / CELL_WIDTH else 1) =
  dump_rows_of buflen num_columns.
Proof.
  unfold dump_rows_of.
  destruct (1 <? buflen / dump_columns_of buflen num_columns / CELL_WIDTH) eqn:E;
    [apply Z.ltb_lt in E|apply Z.ltb_ge in E]; lia.
Qed.

(** The rows of a dump lie in the buffer. *)
Lemma dump_rows_fit (buflen num_columns : Z) :
  1 <= dump_columns_of buflen num_columns ->
  CELL_WIDTH * dump_columns_of buflen num_columns *
    dump_rows_of buflen num_columns <= buflen.
Proof.
  unfold dump_rows_of. intros Hc.
  set (c := dump_columns_of buflen num_columns) in *.
  assert (HC : CELL_WIDTH = 4) by reflexivity.
  assert (Hc4 : c <= buflen / 4).
  { unfold c, dump_columns_of. rewrite HC. lia. }
  rewrite HC.
  pose proof (Z.mul_div_le buflen 4 ltac:(lia)) as H4.
  pose proof (Z.mul_div_le buflen c ltac:(lia)) as Hbc.
  pose proof (Z.mul_div_le (buflen / c) 4 ltac:(lia)) as Hbc4.
  destruct (Z.max_spec (buflen / c / 4) 1) as [[_ ->]|[_ ->]]; nia.
Qed.

(** Up to nine columns fit the row string. *)
Lemma print_buf_dump_defined (m : mem) (rowstr buf buflen num_columns : Z) :
  rowstr <> NULL -> 1 <= dump_columns_of buflen num_columns <= 9 ->
  print_buf_dump true m rowstr buf buflen num_columns <> None.
Proof.
  intros Hrow Hc.
  assert (HC : CELL_WIDTH = 4) by reflexivity.
  assert (HS := SIZE_MOD_val).
  unfold print_buf_dump. cbn [negb].
  rewrite dump_columns_of_spec, dump_rows_of_spec.
  set (c := dump_columns_of buflen num_columns) in *.
  replace (1 * (CELL_WIDTH * 2) * (c + 1) + 1) with (8 * c + 9)
    by (rewrite HC; lia).
  rewrite (wrap_small (8 * c + 9)) by lia.
  destruct (c =? 0) eqn:E; [apply Z.eqb_eq in E; lia|].
  destruct (rowstr =? NULL) eqn:E1; [apply Z.eqb_eq in E1; contradiction|].
  pose proof (dump_rows_text m (8 * c + 9) c buf
                (Z.to_nat (dump_rows_of buflen num_columns))
                ltac:(lia) ltac:(lia) ltac:(lia) 0%nat) as Hrows.
  change (Z.of_nat 0) with 0 in Hrows. rewrite Z.mul_0_r, Z.add_0_r in Hrows.
  rewrite Hrows. discriminate.
Qed.

(** The calls [test] makes ask for 2 or 8 columns.  For up to nine columns
    the division of line 91 is the only step of [print_buf] that can be
    without a result, which is what [print_buf] above keeps of it. *)
Lemma print_buf_dump_agrees (rowstr buf buflen num_columns : Z) (w : world) :
  rowstr <> NULL -> 0 <= num_columns <= 9 -> 0 <= buflen ->
  print_buf buf buflen num_columns w = None <->
  print_buf_dump (verbose w) (w_mem w) rowstr buf buflen num_columns = None.
Proof.
  intros Hrow Hnc Hlen. unfold print_buf.
  destruct (verbose w) eqn:Hv; cbn [negb].
  - rewrite dump_columns_of_spec.
    destruct (Z.eqb_spec (dump_columns_of buflen num_columns) 0) as [E|E].
    + unfold print_buf_dump. cbn [negb].
      rewrite dump_columns_of_spec, E. cbn [Z.eqb]. tauto.
    + assert (0 <= buflen / CELL_WIDTH)
        by (apply Z.div_pos; [lia|reflexivity]).
      pose proof (print_buf_dump_defined (w_mem w) rowstr buf buflen
                    num_columns Hrow) as Hd.
      unfold dump_columns_of in *.
      split; [discriminate|]. intros Hn. exfalso. apply Hd; [lia|exact Hn].
  - unfold print_buf_dump. cbn [negb]. split; discriminate.
Qed.

(** X1: with [verbose] set and a row string obtained, a dump of a buffer
    of at least four bytes in up to nine columns (of the [num_columns] asked
    for and the [buflen / 4] cells there are, the smaller) prints
    [max (buflen / columns / 4, 1)] rows and nothing else: row [r] shows
    the address [buf + 4 * columns * r] and the bytes from there on, two
    hexadecimal digits each, with one space between two cells of four
    bytes.  The row string of [8 * columns + 9] characters is obtained
    before the first row and released after the last. *)
Theorem print_buf_dump_layout (m : mem) (rowstr buf buflen num_columns : Z) :
  rowstr <> NULL -> 1 <= num_columns -> 4 <= buflen ->
  dump_columns_of buflen num_columns <= 9 ->
  print_buf_dump true m rowstr buf buflen num_columns =
  Some (dump_text m buf (dump_columns_of buflen num_columns)
                  (Z.to_nat (dump_rows_of buflen num_columns)),
        [EvMalloc (dump_rowsize_of buflen num_columns) rowstr; EvFree rowstr]).
Proof.
  intros Hrow Hnc Hlen Hc9.
  assert (HC : CELL_WIDTH = 4) by reflexivity.
  unfold print_buf_dump. cbn [negb].
  rewrite dump_columns_of_spec, dump_rows_of_spec.
  assert (Hc1 : 1 <= dump_columns_of buflen num_columns).
  { unfold dump_columns_of. rewrite HC.
    pose proof (Z.div_le_lower_bound buflen 4 1 ltac:(lia) ltac:(lia)). lia. }
  set (c := dump_columns_of buflen num_columns) in *.
  replace (1 * (CELL_WIDTH * 2) * (c + 1) + 1) with (8 * c + 9)
    by (rewrite HC; lia).
  assert (HS := SIZE_MOD_val).
  rewrite (wrap_small (8 * c + 9)) by lia.
  destruct (c =? 0) eqn:E; [apply Z.eqb_eq in E; lia|].
  destruct (rowstr =? NULL) eqn:E1; [apply Z.eqb_eq in E1; contradiction|].
  pose proof (dump_rows_text m (8 * c + 9) c buf
                (Z.to_nat (dump_rows_of buflen num_columns))
                ltac:(lia) ltac:(lia) ltac:(lia) 0%nat) as Hrows.
  change (Z.of_nat 0) with 0 in Hrows. rewrite Z.mul_0_r, Z.add_0_r in Hrows.
  rewrite Hrows. reflexivity.
Qed.

(** X2: with [verbose] set and a row string obtained, [print_buf] has no
    result in exactly these cases: no column is asked for or the buffer has
    fewer than four bytes (line 91 divides by [columns = 0]), or ten or more
    columns are asked for of a buffer of forty or more bytes (a row of ten
    or more cells does not fit the row string of line 90). *)
Theorem print_buf_dump_no_result (m : mem) (rowstr buf buflen num_columns : Z) :
  rowstr <> NULL -> 0 <= num_columns -> 0 <= buflen <= PTRDIFF_MAX ->
  print_buf_dump true m rowstr buf buflen num_columns = None <->
  num_columns = 0 \/ buflen < 4 \/ (10 <= num_columns /\ 40 <= buflen).
Proof.
  intros Hrow Hnc Hlen.
  assert (HC : CELL_WIDTH = 4) by reflexivity.
  assert (HS := SIZE_MOD_val). assert (HP := PTRDIFF_MAX_val).
  assert (Hdiv : 0 <= buflen / 4 <= buflen).
  { split; [apply Z.div_pos; lia|].
    apply Z.div_le_upper_bound; lia. }
  assert (Hc : dump_columns_of buflen num_columns = Z.min num_columns (buflen / 4))
    by reflexivity.
  destruct (Z_le_gt_dec 1 (dump_columns_of buflen num_columns)) as [Hc1|Hc0].
  - destruct (Z_le_gt_dec (dump_columns_of buflen num_columns) 9) as [Hc9|Hc10].
    + assert (Hlen4 : 4 <= buflen).
      { destruct (Z_lt_ge_dec buflen 4) as [Hlt|]; [|lia].
        rewrite (Z.div_small buflen 4) in Hc by lia. lia. }
      pose proof (print_buf_dump_defined m rowstr buf buflen num_columns
                    Hrow ltac:(lia)) as Hsome.
      split; [intros Hnone; contradiction|].
      intros [->|[Hlt|[H10 H40]]]; [lia|lia|].
      pose proof (Z.div_le_lower_bound buflen 4 10 ltac:(lia) ltac:(lia)). lia.
    + split.
      * intros _. right. right. split; [lia|].
        destruct (Z_lt_ge_dec buflen 40) as [Hlt|]; [|lia].
        pose proof (Z.div_lt_upper_bound buflen 4 10 ltac:(lia) ltac:(lia)). lia.
      * intros _. unfold print_buf_dump. cbn [negb].
        rewrite dump_columns_of_spec, dump_rows_of_spec.
        set (c := dump_columns_of buflen num_columns) in *.
        replace (1 * (CELL_WIDTH * 2) * (c + 1) + 1) with (8 * c + 9)
          by (rewrite HC; lia).
        assert (Hrs : (8 * c + 9 < SIZE_MOD /\ wrap (8 * c + 9) = 8 * c + 9) \/
                      wrap (8 * c + 9) = 1).
        { pose proof (Z.div_lt_upper_bound buflen 4 (2 ^ 61) ltac:(lia)
                        ltac:(lia)) as Hq.
          destruct (Z_lt_ge_dec (8 * c + 9) SIZE_MOD) as [Hlt|Hge].
          - left. split; [exact Hlt|]. apply wrap_small. lia.
          - right. replace c with (2 ^ 61 - 1) by lia. reflexivity. }
        destruct (c =? 0) eqn:E; [reflexivity|].
        destruct (rowstr =? NULL) eqn:E1; [apply Z.eqb_eq in E1; contradiction|].
        destruct (Z.to_nat (dump_rows_of buflen num_columns)) as [|k] eqn:Ek.
        { unfold dump_rows_of in Ek. lia. }
        destruct (dump_rows (S k) m (wrap (8 * c + 9)) c buf) as [ls|] eqn:Hr;
          [|reflexivity].
        apply dump_rows_some in Hr; [|lia|].
        -- destruct Hrs as [[_ Hrs]|Hrs]; rewrite Hrs in Hr; lia.
        -- destruct Hrs as [[Hlt Hrs]|Hrs]; rewrite Hrs; lia.
  - split.
    + intros _.
      destruct (Z.eq_dec num_columns 0) as [|Hn]; [now left|].
      right. left.
      destruct (Z_lt_ge_dec buflen 4) as [|Hge]; [assumption|].
      pose proof (Z.div_le_lower_bound buflen 4 1 ltac:(lia) ltac:(lia)). lia.
    + intros _. unfold print_buf_dump. cbn [negb].
      rewrite dump_columns_of_spec.
      destruct (dump_columns_of buflen num_columns =? 0) eqn:E; [reflexivity|].
      apply Z.eqb_neq in E. lia.
Qed.

(** X3: what [print_buf] prints depends on the bytes of
    [buf .. buf + buflen) alone: it reads no byte outside the buffer. *)
Theorem print_buf_dump_reads_buffer (verbose : bool) (m m' : mem)
    (rowstr buf buflen num_columns : Z) :
  0 <= num_columns -> 0 <= buflen ->
  (forall a, buf <= a < buf + buflen -> load8 m a = load8 m' a) ->
  print_buf_dump verbose m rowstr buf buflen num_columns =
  print_buf_dump verbose m' rowstr buf buflen num_columns.
Proof.
  intros Hnc Hlen Hm. unfold print_buf_dump.
  destruct (negb verbose); [reflexivity|].
  rewrite dump_columns_of_spec, dump_rows_of_spec.
  destruct (dump_columns_of buflen num_columns =? 0) eqn:E; [reflexivity|].
  apply Z.eqb_neq in E.
  destruct (rowstr =? NULL); [reflexivity|].
  assert (Hc1 : 1 <= dump_columns_of buflen num_columns).
  { assert (0 <= buflen / CELL_WIDTH) by (apply Z.div_pos; [lia|reflexivity]).
    unfold dump_columns_of in *. lia. }
  pose proof (dump_rows_fit buflen num_columns Hc1) as Hfit.
  rewrite (dump_rows_ext m m'); [reflexivity|lia|].
  intros a Ha. apply Hm.
  assert (1 <= dump_rows_of buflen num_columns) by (unfold dump_rows_of; lia).
  rewrite Z2Nat.id in Ha by lia. lia.
Qed.

(** ** What check_buf reads *)

Lemma load32_ext (m m' : mem) (a : Z) :
  (forall x, a <= x < a + 4 -> load8 m x = load8 m' x) ->
  load32 m a = load32 m' a.
Proof.
  intros H. unfold load32, load16.
  rewrite (H a), (H (a + 1)), (H (a + 2)), (H (a + 2 + 1)) by lia.
  reflexivity.
Qed.

Lemma check_loop_ext (verbose : bool) (m m' : mem) (buf n stride : Z) :
  (forall x, buf <= x < buf + 4 * n -> load8 m x = load8 m' x) ->
  forall (fuel : nat) (i count : Z) (retval : bool),
    0 <= i ->
    check_loop fuel verbose m buf n stride i count retval =
    check_loop fuel verbose m' buf n stride i count retval.
Proof.
  intros Hm. induction fuel as [|fuel IH]; intros i count retval Hi;
    [reflexivity|].
  cbn [check_loop].
  destruct (i <? n) eqn:E; [|reflexivity]. apply Z.ltb_lt in E.
  destruct (expect_step count) as [expect count'].
  rewrite (load32_ext m m' (buf + 4 * i)) by (intros x Hx; apply Hm; lia).
  rewrite IH; [reflexivity|].
  unfold wrap. apply Z.mod_pos_bound. reflexivity.
Qed.

Lemma check_buf_ext (verbose : bool) (m m' : mem)
    (buf buflen samplesize stride count : Z) :
  (forall x, buf <= x < buf + 4 * (buflen / samplesize) ->
             load8 m x = load8 m' x) ->
  check_buf verbose m buf buflen samplesize stride count =
  check_buf verbose m' buf buflen samplesize stride count.
Proof.
  intros Hm. unfold check_buf.
  destruct (buf =? NULL); [reflexivity|].
  destruct (samplesize =? 0); [reflexivity|].
  apply check_loop_ext; [exact Hm|lia].
Qed.

Lemma samples_fit (buflen samplesize : Z) :
  4 <= samplesize -> 0 <= buflen -> 4 * (buflen / samplesize) <= buflen.
Proof.
  intros Hs Hl.
  pose proof (Z.mul_div_le buflen samplesize ltac:(lia)).
  assert (0 <= buflen / samplesize) by (apply Z.div_pos; lia).
  nia.
Qed.

(** X5: with samples of four bytes or more, what [check_buf] returns and
    prints depends on the bytes of [buf .. buf + buflen) alone: no probe
    reads outside the buffer. *)
Theorem check_buf_reads_buffer (verbose : bool) (m m' : mem)
    (buf buflen samplesize stride count : Z) :
  4 <= samplesize -> 0 <= buflen ->
  (forall x, buf <= x < buf + buflen -> load8 m x = load8 m' x) ->
  check_buf verbose m buf buflen samplesize stride count =
  check_buf verbose m' buf buflen samplesize stride count.
Proof.
  intros Hs Hl Hm. apply check_buf_ext.
  intros x Hx. apply Hm.
  pose proof (samples_fit buflen samplesize Hs Hl). lia.
Qed.

(** ** create_buf and check_buf together *)

Lemma create_buf_fill_holds (p buflen : Z) (m0 : mem) :
  holds_pattern (create_buf_fill p buflen m0) p buflen.
Proof. intros j Hj. apply create_buf_fill_word. exact Hj. Qed.

Lemma holds_pattern_prefix (m : mem) (p bytes len : Z) :
  holds_pattern m p bytes -> len <= bytes -> holds_pattern m p len.
Proof.
  intros H Hl j Hj. apply H.
  pose proof (Z.div_le_mono len bytes 2 ltac:(lia) Hl). lia.
Qed.

Lemma holds_pattern_ext (m m' : mem) (p bytes : Z) :
  holds_pattern m p bytes ->
  (forall x, p <= x < p + bytes -> load8 m' x = load8 m x) ->
  holds_pattern m' p bytes.
Proof.
  intros H Hm j Hj. rewrite <- (H j Hj).
  pose proof (Z.mul_div_le bytes 2 ltac:(lia)).
  unfold load16. rewrite !Hm by lia. reflexivity.
Qed.

(** The 32-bit word at byte [o + 4 * i] of a buffer that holds the
    pattern: the counts [o / 2 + 2 * i] and the next one. *)
Lemma pattern_word_at (m : mem) (p buflen o i : Z) :
  holds_pattern m p buflen ->
  Z.even o = true -> 0 <= o -> 0 <= i -> o + 4 * i + 4 <= buflen ->
  load32 m (p + o + 4 * i) = pattern_word (o / 2 + 2 * i).
Proof.
  intros Hm He Ho Hi Hfit.
  assert (Ho2 : o = 2 * (o / 2)).
  { apply Z.even_spec in He. destruct He as [q ->].
    rewrite (Z.mul_comm 2 q), Z.div_mul by lia. lia. }
  assert (Hq : 0 <= o / 2) by (apply Z.div_pos; lia).
  assert (Hb : o / 2 + 2 * i + 2 <= buflen / 2).
  { apply Z.div_le_lower_bound; lia. }
  rewrite load32_words.
  replace (p + o + 2 * (2 * i)) with (p + 2 * (o / 2 + 2 * i)) by lia.
  replace (p + o + 2 * (2 * i + 1)) with (p + 2 * (o / 2 + 2 * i + 1)) by lia.
  rewrite !Hm by lia. reflexivity.
Qed.

Lemma expected_pattern_word (c j : Z) (k : nat) :
  c = j mod 65536 -> expected c k = pattern_word (j + 2 * Z.of_nat k).
Proof.
  intros ->. unfold expected, pattern_word.
  rewrite <- !Z.add_assoc, !Zplus_mod_idemp_l. reflexivity.
Qed.

(** A stride-1 scan of a part of a buffer that holds the pattern, from the
    count of the part's first word: every probe matches. *)
Lemma check_buf_pattern (verbose : bool) (m : mem)
    (p buflen o len samplesize : Z) :
  holds_pattern m p buflen ->
  p + o <> NULL -> 4 <= samplesize -> Z.even o = true -> 0 <= o ->
  0 <= len <= PTRDIFF_MAX -> o + len <= buflen ->
  exists ps : list probe,
    check_buf verbose m (p + o) len samplesize 1 ((o / 2) mod 65536) =
      Some (true, ps, scan_lines verbose ps) /\
    length ps = Z.to_nat (len / samplesize) /\
    mismatches ps = [].
Proof.
  intros Hm Hnn Hs He Ho Hlen Hfit.
  assert (HS : SIZE_MOD = 18446744073709551616) by reflexivity.
  pose proof (samples_fit len samplesize Hs ltac:(lia)) as Hsf.
  rewrite check_buf_scan by (assumption || lia). cbv zeta.
  set (ps := scan m (p + o) (len / samplesize) 1 ((o / 2) mod 65536)).
  assert (Hok : mismatches ps = []).
  { unfold ps, scan. apply mismatches_none. intros k Hk.
    rewrite scan_count_one in Hk.
    unfold probe_ok, scan_probe. cbn [p_expect p_actual].
    apply Z.eqb_eq. rewrite Z.mul_1_r.
    rewrite (pattern_word_at m p buflen) by (assumption || lia).
    apply expected_pattern_word. reflexivity. }
  exists ps. split; [|split].
  - f_equal. f_equal. f_equal. apply forallb_probe_ok. exact Hok.
  - unfold ps, scan. now rewrite length_map, length_seq, scan_count_one.
  - exact Hok.
Qed.


(** A strided scan of a part of a buffer that holds the pattern: with a
    stride from 2 to 32768 and two probes or more, the first two probes
    cannot both match. *)
Lemma check_buf_stride_mismatch (verbose : bool) (m : mem)
    (p buflen o len samplesize d c : Z) :
  holds_pattern m p buflen ->
  p + o <> NULL -> 4 <= samplesize -> Z.even o = true -> 0 <= o ->
  0 <= len <= PTRDIFF_MAX -> o + len <= buflen ->
  2 <= d <= 32768 -> d < len / samplesize ->
  exists (ps : list probe) (out : list line),
    check_buf verbose m (p + o) len samplesize d c = Some (false, ps, out).
Proof.
  intros Hm Hnn Hs He Ho Hlen Hfit Hd Hn.
  assert (HS : SIZE_MOD = 18446744073709551616) by reflexivity.
  pose proof (samples_fit len samplesize Hs ltac:(lia)) as Hsf.
  rewrite check_buf_scan by (assumption || lia). cbv zeta.
  eexists _, _. f_equal. f_equal. f_equal.
  apply not_true_is_false. intros Hall.
  rewrite forallb_forall in Hall.
  assert (Hcount : (2 <= scan_count (len / samplesize) d)%nat).
  { destruct (le_lt_dec 2 (scan_count (len / samplesize) d)) as [|Hlt];
      [assumption|].
    pose proof (scan_count_spec (len / samplesize) d ltac:(lia) ltac:(lia))
      as (_ & Hk2 & _). cbv zeta in Hk2. nia. }
  assert (H0 : probe_ok (scan_probe m (p + o) d c 0) = true).
  { apply Hall. unfold scan. apply in_map, in_seq. lia. }
  assert (H1 : probe_ok (scan_probe m (p + o) d c 1) = true).
  { apply Hall. unfold scan. apply in_map, in_seq. lia. }
  unfold probe_ok, scan_probe in H0, H1. cbn [p_expect p_actual] in H0, H1.
  apply Z.eqb_eq in H0, H1.
  change (Z.of_nat 0 * d) with 0 in H0.
  replace (Z.of_nat 1 * d) with d in H1 by lia.
  rewrite (pattern_word_at m p buflen) in H0 by (assumption || lia).
  rewrite (pattern_word_at m p buflen) in H1 by (assumption || nia).
  unfold pattern_word in H0, H1.
  apply (f_equal (fun x => x mod 65536)) in H0, H1.
  rewrite expected_low in H0, H1.
  rewrite (Z.mul_comm 65536), Z.mod_add, Z.mod_mod in H0, H1 by lia.
  change (Z.of_nat 0) with 0 in H0. change (Z.of_nat 1) with 1 in H1.
  rewrite Z.mul_0_r, !Z.add_0_r in H0.
  (* c = o/2 and c + 2 = o/2 + 2d (mod 65536), so 2d - 2 = 0 (mod 65536) *)
  assert (Hdiff : (2 * d - 2) mod 65536 = 0).
  { replace (2 * d - 2) with ((o / 2 + 2 * d) - (o / 2 + 2)) by lia.
    rewrite Zminus_mod, <- H1.
    rewrite <- (Zplus_mod_idemp_l (o / 2) 2), <- H0, Zplus_mod_idemp_l.
    rewrite Z.mul_1_r, Z.sub_diag. reflexivity. }
  rewrite Z.mod_small in Hdiff by lia. lia.
Qed.

(** X7: on a buffer as [create_buf] filled it, a strided check is bound to
    fail: with a stride from 2 to 32768 and room for two probes or more,
    [check_buf] returns [false] whatever count it starts at.  (Data that
    was not interleaved never passes a per-channel check of [test].) *)
Theorem check_buf_rejects_created (verbose : bool) (m0 : mem)
    (p buflen o len samplesize d c : Z) :
  p + o <> NULL -> 4 <= samplesize -> Z.even o = true -> 0 <= o ->
  0 <= len <= PTRDIFF_MAX -> o + len <= buflen ->
  2 <= d <= 32768 -> d < len / samplesize ->
  exists (ps : list probe) (out : list line),
    check_buf verbose (create_buf_fill p buflen m0) (p + o) len samplesize d c =
    Some (false, ps, out).
Proof.
  intros. apply (check_buf_stride_mismatch verbose _ p buflen); auto.
  apply create_buf_fill_holds.
Qed.

(** X8: [create_buf] writes inside the block it obtained and nowhere else:
    every byte below the block or from its end on keeps its content, so
    does the last byte of a block of odd length, and so does every byte
    when the allocation failed. *)
Theorem create_buf_writes_inside (buflen p : Z) (w w' : world)
    (t : list event) :
  0 <= buflen ->
  create_buf buflen w = Some (p, w', t) ->
  (forall a, a < p \/ p + buflen <= a \/
             (Z.odd buflen = true /\ a = p + buflen - 1) ->
             w_mem w' a = w_mem w a) /\
  (p = NULL -> forall a, w_mem w' a = w_mem w a).
Proof.
  intros Hl H. rewrite create_buf_run in H. cbv zeta in H.
  injection H as Hp <- _. cbn [w_mem]. rewrite Hp.
  split.
  - intros a Ha. destruct (p =? NULL); [reflexivity|].
    apply create_buf_fill_outside.
    pose proof (Z.mul_div_le buflen 2 ltac:(lia)) as Hle.
    destruct Ha as [Ha|[Ha|[Hodd ->]]]; [lia|lia|].
    right. rewrite (Z.div_mod buflen 2) at 2 by lia.
    rewrite Zmod_odd, Hodd. lia.
  - intros ->. reflexivity.
Qed.

(** ** Runs of test on a library that leaves the buffer alone *)

Lemma bind_none_l {A B : Type} (c : M A) (k : A -> M B) (w : world) :
  c w = None -> bind c k w = None.
Proof. unfold bind. now intros ->. Qed.

Lemma bind_none_r {A B : Type} (c : M A) (k : A -> M B) (w w1 : world)
    (a : A) (t1 : list event) :
  c w = Some (a, w1, t1) -> k a w1 = None -> bind c k w = None.
Proof. unfold bind. now intros -> ->. Qed.

Lemma call_check_buf_pattern (w : world)
    (p buflen o len samplesize : Z) :
  holds_pattern (w_mem w) p buflen ->
  p + o <> NULL -> 4 <= samplesize -> Z.even o = true -> 0 <= o ->
  0 <= len <= PTRDIFF_MAX -> o + len <= buflen ->
  exists out : list line,
    call_check_buf (p + o) len samplesize 1 ((o / 2) mod 65536) w =
    Some (true, w, [EvCheck (p + o) len samplesize 1 ((o / 2) mod 65536)
                            out true]).
Proof.
  intros Hm Hnn Hs He Ho Hlen Hfit.
  destruct (check_buf_pattern (verbose w) (w_mem w) p buflen o len
              samplesize Hm Hnn Hs He Ho Hlen Hfit) as (ps & Hc & _).
  unfold call_check_buf. rewrite Hc. now eexists.
Qed.

Lemma call_check_buf_stride (w : world)
    (p buflen o len samplesize d c : Z) :
  holds_pattern (w_mem w) p buflen ->
  p + o <> NULL -> 4 <= samplesize -> Z.even o = true -> 0 <= o ->
  0 <= len <= PTRDIFF_MAX -> o + len <= buflen ->
  2 <= d <= 32768 -> d < len / samplesize ->
  exists out : list line,
    call_check_buf (p + o) len samplesize d c w =
    Some (false, w, [EvCheck (p + o) len samplesize d c out false]).
Proof.
  intros Hm Hnn Hs He Ho Hlen Hfit Hd Hn.
  destruct (check_buf_stride_mismatch (verbose w) (w_mem w) p buflen o len
              samplesize d c Hm Hnn Hs He Ho Hlen Hfit Hd Hn)
    as (ps & out & Hc).
  unfold call_check_buf. rewrite Hc. now eexists.
Qed.

Section UntouchedBuffer.

Context {lib : Interleaver}.

Lemma interleave_leaves (layout : bladerf_channel_layout)
    (format : bladerf_format) (num_samples buf bytes : Z) (w : world) :
  leaves_buffer (_interleave_interleave_buf layout format num_samples buf)
                buf bytes ->
  exists w1 : world,
    interleave layout format num_samples buf w =
      Some (0, w1, [EvInterleave layout format num_samples buf 0]) /\
    same_env w w1 /\
    forall x, buf <= x < buf + bytes -> load8 (w_mem w1) x = load8 (w_mem w) x.
Proof.
  intros H. destruct (H (w_mem w)) as [Hs Hm]. unfold interleave.
  destruct (_interleave_interleave_buf layout format num_samples buf (w_mem w))
    as [s m']. cbn [fst snd] in Hs, Hm. subst s.
  eexists. split; [reflexivity|]. split; [now repeat split|exact Hm].
Qed.

Lemma deinterleave_leaves (layout : bladerf_channel_layout)
    (format : bladerf_format) (num_samples buf bytes : Z) (w : world) :
  leaves_buffer (_interleave_deinterleave_buf layout format num_samples buf)
                buf bytes ->
  exists w1 : world,
    deinterleave layout format num_samples buf w =
      Some (0, w1, [EvDeinterleave layout format num_samples buf 0]) /\
    same_env w w1 /\
    forall x, buf <= x < buf + bytes -> load8 (w_mem w1) x = load8 (w_mem w) x.
Proof.
  intros H. destruct (H (w_mem w)) as [Hs Hm]. unfold deinterleave.
  destruct (_interleave_deinterleave_buf layout format num_samples buf (w_mem w))
    as [s m']. cbn [fst snd] in Hs, Hm. subst s.
  eexists. split; [reflexivity|]. split; [now repeat split|exact Hm].
Qed.

(** The arguments of the check of channel 0. *)
Lemma chan_args_first (buf bytes offset samplesize num_chan : Z) :
  0 <= offset <= bytes -> bytes < SIZE_MOD ->
  chan_bufptr buf offset samplesize 0 = buf + offset /\
  chan_buflen bytes offset = bytes - offset /\
  chan_startval bytes offset num_chan 0 = (offset / 2) mod 65536.
Proof.
  intros Ho Hb. unfold chan_bufptr, chan_startval, chan_buflen.
  rewrite Z.mul_0_r, Z.mul_0_l.
  change (wrap 0) with 0. rewrite !Z.add_0_r.
  rewrite (wrap_small (bytes - offset)), (wrap_small offset) by lia.
  now repeat split.
Qed.

(** The metadata check of lines 182-194 on a buffer that holds the
    pattern. *)
Lemma meta_check_pattern (w : world) (p bytes offset samplesize : Z) :
  holds_pattern (w_mem w) p bytes ->
  0 < p -> 4 <= samplesize -> offset = 0 \/ 4 <= offset ->
  offset <= bytes <= PTRDIFF_MAX ->
  exists tr : list event,
    (if 0 <? offset
     then print_buf p offset NUM_COLUMNS;; call_check_buf p offset samplesize 1 0
     else ret true) w = Some (true, w, tr).
Proof.
  intros Hm Hp Hs Ho Hb.
  destruct (Z.ltb_spec 0 offset) as [Hpos|_]; [|now exists []].
  destruct (call_check_buf_pattern w p bytes 0 offset samplesize Hm)
    as (out & Hc); try (unfold NULL; lia); try reflexivity.
  rewrite Z.add_0_r in Hc. change ((0 / 2) mod 65536) with 0 in Hc.
  eexists. eapply bind_run; [apply print_buf_run; unfold NUM_COLUMNS; lia|].
  exact Hc.
Qed.

(** The loop of lines 208-241 when the check of every channel passes. *)
Lemma chan_loop_all_pass (buf bytes offset samplesize num_chan : Z) (w : world) :
  4 <= bytes ->
  forall (k : nat) (i0 : Z),
    (forall i, i0 <= i < i0 + Z.of_nat k ->
       exists out : list line,
         call_check_buf (chan_bufptr buf offset samplesize i)
           (chan_buflen bytes offset) samplesize num_chan
           (chan_startval bytes offset num_chan i) w =
         Some (true, w,
               [EvCheck (chan_bufptr buf offset samplesize i)
                  (chan_buflen bytes offset) samplesize num_chan
                  (chan_startval bytes offset num_chan i) out true])) ->
    exists tr : list event,
      chan_loop k buf bytes offset samplesize num_chan i0 w = Some (true, w, tr).
Proof.
  intros Hb. induction k as [|k IH]; intros i0 Hall.
  - now exists [].
  - destruct (Hall i0 ltac:(lia)) as (out & Hc).
    destruct (IH (i0 + 1)) as (tr & Hrun).
    { intros i Hi. apply Hall. lia. }
    eexists. cbn [chan_loop].
    eapply bind_run; [apply forced_dump_run; exact Hb|].
    eapply bind_run; [exact Hc|]. cbn [negb]. exact Hrun.
Qed.

(** A run of [test] in which every step succeeds. *)
Lemma test_forward_pass
    (rxlay txlay : bladerf_channel_layout) (format : bladerf_format)
    (num_samples p : Z) (rest : list Z) (w w1 w2 : world) :
  let samplesize := _interleave_calc_bytes_per_sample format in
  let offset := _interleave_calc_metadata_bytes format in
  let num_chan := _interleave_calc_num_channels rxlay in
  let bytes := wrap (samplesize * num_samples) in
  let w0 := mkWorld (create_buf_fill p bytes (w_mem w)) rest
                    (verbose w) (quiet w) in
  _interleave_calc_num_channels txlay = num_chan -> 1 <= num_chan ->
  offset <= bytes -> 4 <= bytes -> offset = 0 \/ 4 <= offset ->
  w_alloc w = p :: rest -> p <> NULL ->
  interleave txlay format num_samples p w0 =
    Some (0, w1, [EvInterleave txlay format num_samples p 0]) ->
  (0 < offset -> exists out,
     call_check_buf p offset samplesize 1 0 w1 =
     Some (true, w1, [EvCheck p offset samplesize 1 0 out true])) ->
  (num_chan = 1 -> exists out,
     call_check_buf p bytes samplesize 1 0 w1 =
     Some (true, w1, [EvCheck p bytes samplesize 1 0 out true])) ->
  (forall i, 0 <= i < num_chan -> exists out,
     call_check_buf (chan_bufptr p offset samplesize i)
       (chan_buflen bytes offset) samplesize num_chan
       (chan_startval bytes offset num_chan i) w1 =
     Some (true, w1,
           [EvCheck (chan_bufptr p offset samplesize i)
              (chan_buflen bytes offset) samplesize num_chan
              (chan_startval bytes offset num_chan i) out true])) ->
  deinterleave rxlay format num_samples p w1 =
    Some (0, w2, [EvDeinterleave rxlay format num_samples p 0]) ->
  (exists out,
     call_check_buf p bytes samplesize 1 0 w2 =
     Some (true, w2, [EvCheck p bytes samplesize 1 0 out true])) ->
  exists tr : list event,
    test rxlay txlay format num_samples w = Some (0, w2, tr).
Proof.
  intros samplesize offset num_chan bytes w0 Htx Hn Hob Hb Ho Ha Hp
         Hrun1 Hmeta Hone Hchan Hrun2 (out4 & Hlast).
  unfold test. fold samplesize offset num_chan bytes. rewrite Htx.
  rewrite Z.eqb_refl. cbn [negb].
  destruct (Z.ltb_spec bytes offset) as [|_]; [lia|].
  destruct (Z.ltb_spec num_chan 1) as [|_]; [lia|].
  pose proof (create_buf_run bytes w) as Hc. cbv zeta in Hc.
  rewrite Ha in Hc. cbn [hd tl] in Hc.
  destruct (Z.eqb_spec p NULL) as [|_]; [contradiction|].
  fold w0 in Hc.
  assert (Hpb : forall w', print_buf p bytes NUM_COLUMNS w' = Some (tt, w', []))
    by (intros w'; apply print_buf_run; unfold NUM_COLUMNS; lia).
  assert (Hm : exists t1,
    (if 0 <? offset
     then print_buf p offset NUM_COLUMNS;; call_check_buf p offset samplesize 1 0
     else ret true) w1 = Some (true, w1, t1)).
  { destruct (Z.ltb_spec 0 offset) as [Hpos|_]; [|now exists []].
    destruct (Hmeta Hpos) as (out & Hck). eexists.
    eapply bind_run; [apply print_buf_run; unfold NUM_COLUMNS; lia|exact Hck]. }
  destruct Hm as (t1 & Hm).
  assert (H1 : exists t2,
    (if num_chan =? 1 then call_check_buf p bytes samplesize 1 0
     else ret true) w1 = Some (true, w1, t2)).
  { destruct (Z.eqb_spec num_chan 1) as [E|_]; [|now exists []].
    destruct (Hone E) as (out & Hck). eexists. exact Hck. }
  destruct H1 as (t2 & H1).
  destruct (chan_loop_all_pass p bytes offset samplesize num_chan w1 Hb
              (Z.to_nat num_chan) 0) as (t3 & Hloop).
  { intros i Hi. apply Hchan. lia. }
  eexists.
  eapply bind_run; [exact Hc|].
  destruct (Z.eqb_spec p NULL) as [|_]; [contradiction|].
  eapply bind_run; [|eapply bind_run; reflexivity].
  unfold test_body.
  eapply bind_run; [apply Hpb|]. eapply bind_run; [exact Hrun1|].
  cbn [Z.eqb negb].
  eapply bind_run; [apply Hpb|]. eapply bind_run; [exact Hm|].
  cbn [negb]. eapply bind_run; [exact H1|].
  cbn [negb]. eapply bind_run; [exact Hloop|].
  cbn [negb]. eapply bind_run; [exact Hrun2|].
  cbn [Z.eqb negb].
  eapply bind_run; [apply Hpb|]. eapply bind_run; [exact Hlast|].
  cbn [negb]. reflexivity.
Qed.

(** The whole-buffer check of lines 199 and 253 on a buffer that holds the
    pattern. *)
Lemma whole_check_pattern (w : world) (p bytes samplesize : Z) :
  holds_pattern (w_mem w) p bytes ->
  0 < p -> 4 <= samplesize -> 0 <= bytes <= PTRDIFF_MAX ->
  exists out : list line,
    call_check_buf p bytes samplesize 1 0 w =
    Some (true, w, [EvCheck p bytes samplesize 1 0 out true]).
Proof.
  intros Hm Hp Hs Hb.
  destruct (call_check_buf_pattern w p bytes 0 bytes samplesize Hm)
    as (out & Hc); try (unfold NULL; lia); try reflexivity.
  rewrite Z.add_0_r in Hc. change ((0 / 2) mod 65536) with 0 in Hc.
  now exists out.
Qed.

Lemma test_untouched_single_run
    (rxlay txlay : bladerf_channel_layout) (format : bladerf_format)
    (num_samples p : Z) (rest : list Z) (w : world) :
  let samplesize := _interleave_calc_bytes_per_sample format in
  let offset := _interleave_calc_metadata_bytes format in
  let bytes := wrap (samplesize * num_samples) in
  _interleave_calc_num_channels rxlay = 1 ->
  _interleave_calc_num_channels txlay = 1 ->
  sizes_ok samplesize offset 1 bytes ->
  4 <= samplesize -> Z.even offset = true -> offset <= bytes ->
  w_alloc w = p :: rest -> 0 < p ->
  leaves_buffer (_interleave_interleave_buf txlay format num_samples p)
                p bytes ->
  leaves_buffer (_interleave_deinterleave_buf rxlay format num_samples p)
                p bytes ->
  exists (w' : world) (tr : list event),
    test rxlay txlay format num_samples w = Some (0, w', tr) /\
    w_alloc w' = rest.
Proof.
  intros samplesize offset bytes Hrx Htx [_ Hb Ho _] Hs He Hob Ha Hp Hi Hd.
  assert (HS : SIZE_MOD = 18446744073709551616) by reflexivity.
  assert (HP : PTRDIFF_MAX = 9223372036854775807) by reflexivity.
  set (m0 := w_mem w).
  set (w0 := mkWorld (create_buf_fill p bytes m0) rest (verbose w) (quiet w)).
  destruct (interleave_leaves txlay format num_samples p bytes w0 Hi)
    as (w1 & Hrun1 & (Hal1 & _) & Hm1).
  assert (Hpat1 : holds_pattern (w_mem w1) p bytes).
  { apply (holds_pattern_ext (create_buf_fill p bytes m0));
      [apply create_buf_fill_holds|exact Hm1]. }
  destruct (deinterleave_leaves rxlay format num_samples p bytes w1 Hd)
    as (w2 & Hrun2 & (Hal2 & _) & Hm2).
  assert (Hpat2 : holds_pattern (w_mem w2) p bytes)
    by (apply (holds_pattern_ext (w_mem w1)); assumption).
  destruct (chan_args_first p bytes offset samplesize 1 ltac:(lia) ltac:(lia))
    as (Hptr & Hlen & Hval).
  destruct (test_forward_pass rxlay txlay format num_samples p rest w w1 w2)
    as (tr & Hrun); fold samplesize offset bytes; rewrite ?Hrx;
    try assumption; try lia; try (unfold NULL; lia).
  - intros Hpos.
    destruct (call_check_buf_pattern w1 p bytes 0 offset samplesize Hpat1)
      as (out & Hc); try (unfold NULL; lia); try reflexivity.
    rewrite Z.add_0_r in Hc. change ((0 / 2) mod 65536) with 0 in Hc.
    now exists out.
  - intros _. apply (whole_check_pattern w1); try assumption; lia.
  - intros i Hi0. replace i with 0 by lia. rewrite Hptr, Hlen, Hval.
    apply (call_check_buf_pattern w1 p bytes); try assumption;
      try lia; unfold NULL; lia.
  - apply (whole_check_pattern w2); try assumption; lia.
  - exists w2, tr. split; [exact Hrun|]. cbn [w_alloc w0] in Hal1. congruence.
Qed.

(** X9: a library whose transforms report success and leave the buffer as
    it is passes every single-channel case: for samples of four bytes or
    more, a metadata size that is even, and a buffer that [malloc] gave,
    [test] returns 0. *)
Theorem test_passes_single_channel
    (rxlay txlay : bladerf_channel_layout) (format : bladerf_format)
    (num_samples p : Z) (rest : list Z) (w : world) :
  let samplesize := _interleave_calc_bytes_per_sample format in
  let offset := _interleave_calc_metadata_bytes format in
  let bytes := wrap (samplesize * num_samples) in
  _interleave_calc_num_channels rxlay = 1 ->
  _interleave_calc_num_channels txlay = 1 ->
  sizes_ok samplesize offset 1 bytes ->
  4 <= samplesize -> Z.even offset = true -> offset <= bytes ->
  w_alloc w = p :: rest -> 0 < p ->
  leaves_buffer (_interleave_interleave_buf txlay format num_samples p)
                p bytes ->
  leaves_buffer (_interleave_deinterleave_buf rxlay format num_samples p)
                p bytes ->
  exists (w' : world) (tr : list event),
    test rxlay txlay format num_samples w = Some (0, w', tr).
Proof.
  intros samplesize offset bytes Hrx Htx Hok Hs He Hob Ha Hp Hi Hd.
  destruct (test_untouched_single_run rxlay txlay format num_samples p rest w
              Hrx Htx Hok Hs He Hob Ha Hp Hi Hd) as (w' & tr & Hrun & _).
  now exists w', tr.
Qed.

Lemma test_untouched_multi_run
    (rxlay txlay : bladerf_channel_layout) (format : bladerf_format)
    (num_samples p : Z) (rest : list Z) (w : world) :
  let samplesize := _interleave_calc_bytes_per_sample format in
  let offset := _interleave_calc_metadata_bytes format in
  let num_chan := _interleave_calc_num_channels rxlay in
  let bytes := wrap (samplesize * num_samples) in
  _interleave_calc_num_channels txlay = num_chan ->
  2 <= num_chan <= 32768 ->
  sizes_ok samplesize offset num_chan bytes ->
  4 <= samplesize -> Z.even offset = true -> offset <= bytes ->
  num_chan < (bytes - offset) / samplesize ->
  w_alloc w = p :: rest -> 0 < p ->
  leaves_buffer (_interleave_interleave_buf txlay format num_samples p)
                p bytes ->
  exists (w' : world) (tr : list event),
    test rxlay txlay format num_samples w = Some (-1, w', tr) /\
    w_alloc w' = rest /\
    forallb (fun e => match e with EvDeinterleave _ _ _ _ _ => false
                               | _ => true end) tr = true.
Proof.
  intros samplesize offset num_chan bytes Htx Hn [_ Hb Ho _] Hs He Hob Htwo
         Ha Hp Hi.
  assert (HS : SIZE_MOD = 18446744073709551616) by reflexivity.
  assert (HP : PTRDIFF_MAX = 9223372036854775807) by reflexivity.
  unfold test. fold samplesize offset num_chan bytes. rewrite Htx.
  rewrite Z.eqb_refl. cbn [negb].
  destruct (Z.ltb_spec bytes offset) as [|_]; [lia|].
  destruct (Z.ltb_spec num_chan 1) as [|_]; [lia|].
  pose proof (create_buf_run bytes w) as Hc. cbv zeta in Hc.
  rewrite Ha in Hc. cbn [hd tl] in Hc.
  destruct (Z.eqb_spec p NULL) as [E|_]; [unfold NULL in E; lia|].
  set (m0 := w_mem w) in *.
  set (w0 := mkWorld (create_buf_fill p bytes m0) rest (verbose w) (quiet w))
    in *.
  destruct (interleave_leaves txlay format num_samples p bytes w0 Hi)
    as (w1 & Hrun1 & (Hal1 & _) & Hm1).
  assert (Hpat1 : holds_pattern (w_mem w1) p bytes).
  { apply (holds_pattern_ext (create_buf_fill p bytes m0));
      [apply create_buf_fill_holds|exact Hm1]. }
  destruct (meta_check_pattern w1 p bytes offset samplesize Hpat1 Hp Hs Ho
              ltac:(lia)) as (t1 & Hmeta).
  destruct (chan_args_first p bytes offset samplesize num_chan ltac:(lia)
              ltac:(lia)) as (Hptr & Hlen & Hval).
  destruct (call_check_buf_stride w1 p bytes offset (bytes - offset)
              samplesize num_chan ((offset / 2) mod 65536) Hpat1)
    as (out3 & Hchan); try (unfold NULL; lia); try assumption.
  assert (Hpb : forall w', print_buf p bytes NUM_COLUMNS w' = Some (tt, w', []))
    by (intros w'; apply print_buf_run; unfold NUM_COLUMNS; lia).
  destruct (Z.to_nat num_chan) as [|k] eqn:Ek; [lia|].
  exists w1. eexists. split; [|split; [exact Hal1|]].
  - eapply bind_run; [exact Hc|].
    destruct (Z.eqb_spec p NULL) as [E|_]; [unfold NULL in E; lia|].
    eapply bind_run; [|eapply bind_run; reflexivity].
    unfold test_body.
    eapply bind_run; [apply Hpb|]. eapply bind_run; [exact Hrun1|].
    cbn [Z.eqb negb].
    eapply bind_run; [apply Hpb|]. eapply bind_run; [exact Hmeta|].
    cbn [negb].
    destruct (Z.eqb_spec num_chan 1) as [|_]; [lia|].
    eapply bind_run; [reflexivity|].
    cbn [negb]. eapply bind_run.
    { rewrite Ek. cbn [chan_loop].
      eapply bind_run; [apply forced_dump_run; lia|].
      rewrite Hptr, Hlen, Hval.
      eapply bind_run; [exact Hchan|]. cbn [negb]. reflexivity. }
    cbn [negb]. reflexivity.
  - cbn [app forallb andb]. rewrite !forallb_app. cbn [forallb andb].
    rewrite !andb_true_r.
    destruct (Z.ltb_spec 0 offset) as [Hpos|_].
    + apply bind_inv in Hmeta.
      destruct Hmeta as (a & wa & ta & tb & Hpr & Hck & ->).
      apply print_buf_inv in Hpr. destruct Hpr as [-> ->].
      apply call_check_buf_inv in Hck. destruct Hck as (_ & out & ->).
      reflexivity.
    + apply ret_inv in Hmeta. destruct Hmeta as (_ & _ & ->). reflexivity.
Qed.



(** ** A case without samples *)

(** X11: a case of no samples has no result when both flags are off, the
    format has no metadata, [malloc] gives a block and the forward
    transform reports success: the dump forced for channel 0 (lines
    217-228) calls [print_buf] on a buffer of 0 bytes, whose line 91
    divides by [columns = 0]. *)
Theorem test_without_samples_no_result
    (rxlay txlay : bladerf_channel_layout) (format : bladerf_format)
    (p : Z) (rest : list Z) (w : world) :
  _interleave_calc_metadata_bytes format = 0 ->
  _interleave_calc_num_channels txlay = _interleave_calc_num_channels rxlay ->
  1 <= _interleave_calc_num_channels rxlay ->
  verbose w = false -> quiet w = false ->
  w_alloc w = p :: rest -> p <> NULL ->
  (forall m, fst (_interleave_interleave_buf txlay format 0 p m) = 0) ->
  test rxlay txlay format 0 w = None.
Proof.
  intros Hoff Htx Hn Hv Hq Ha Hp Hi.
  unfold test. rewrite Hoff, Htx, Z.eqb_refl, Z.mul_0_r. cbn [negb].
  change (wrap 0) with 0. rewrite Z.ltb_irrefl.
  destruct (Z.ltb_spec (_interleave_calc_num_channels rxlay) 1) as [|_]; [lia|].
  pose proof (create_buf_run 0 w) as Hc. cbv zeta in Hc.
  rewrite Ha in Hc. cbn [hd tl] in Hc.
  destruct (Z.eqb_spec p NULL) as [|_]; [contradiction|].
  rewrite Hv, Hq in Hc.
  eapply bind_none_r; [exact Hc|].
  destruct (Z.eqb_spec p NULL) as [|_]; [contradiction|].
  apply bind_none_l.
  unfold test_body.
  eapply bind_none_r; [reflexivity|].
  match goal with |- bind _ _ ?w0 = None => set (w0' := w0) end.
  destruct (interleave_run txlay format 0 p w0')
    as (s & w1 & Hrun & Hs & Henv).
  rewrite Hi in Hs. subst s.
  destruct Henv as (_ & Hv1 & Hq1). cbn [verbose quiet w0'] in Hv1, Hq1.
  eapply bind_none_r; [exact Hrun|]. cbn [Z.eqb negb].
  assert (Hpb : forall n, print_buf p 0 n w1 = Some (tt, w1, []))
    by (intros n; unfold print_buf; rewrite Hv1; reflexivity).
  eapply bind_none_r; [apply Hpb|].
  rewrite Z.ltb_irrefl. eapply bind_none_r; [reflexivity|]. cbn [negb].
  assert (Hloop : chan_loop (Z.to_nat (_interleave_calc_num_channels rxlay))
                    p 0 0 (_interleave_calc_bytes_per_sample format)
                    (_interleave_calc_num_channels rxlay) 0 w1 = None).
  { destruct (Z.to_nat (_interleave_calc_num_channels rxlay)) eqn:E; [lia|].
    cbn [chan_loop]. apply bind_none_l.
    unfold forced_dump. rewrite Hv1, Hq1. cbn [negb andb Z.eqb].
    eapply bind_none_r; [reflexivity|].
    apply bind_none_l. reflexivity. }
  destruct (_interleave_calc_num_channels rxlay =? 1).
  - destruct (call_check_buf p 0 (_interleave_calc_bytes_per_sample format) 1 0 w1)
      as [[[r w2] t]|] eqn:Hck; [|now apply bind_none_l].
    pose proof Hck as Hck'.
    apply call_check_buf_inv in Hck'. destruct Hck' as (-> & out & ->).
    eapply bind_none_r; [exact Hck|].
    assert (r = true) as ->.
    { unfold call_check_buf, check_buf in Hck.
      destruct (Z.eqb_spec p NULL) as [|_]; [contradiction|].
      destruct (_interleave_calc_bytes_per_sample format =? 0); [discriminate|].
      rewrite Zdiv_0_l in Hck.
      cbn in Hck. now injection Hck as <-. }
    cbn [negb]. apply bind_none_l. exact Hloop.
  - eapply bind_none_r; [reflexivity|]. cbn [negb].
    apply bind_none_l. exact Hloop.
Qed.

End UntouchedBuffer.

(** ** The flags *)

Lemma keeps_flags_ret {A : Type} (a : A) : keeps_flags (ret a).
Proof. intros w w' b t H. apply ret_inv in H. now destruct H as (_ & -> & _). Qed.

Lemma keeps_flags_bind {A B : Type} (c : M A) (k : A -> M B) :
  keeps_flags c -> (forall a, keeps_flags (k a)) -> keeps_flags (bind c k).
Proof.
  intros Hc Hk w w' b t H.
  apply bind_inv in H. destruct H as (a & w1 & t1 & t2 & H1 & H2 & _).
  apply Hc in H1. apply Hk in H2. destruct H1, H2. split; congruence.
Qed.

Lemma keeps_flags_if {A : Type} (b : bool) (c1 c2 : M A) :
  keeps_flags c1 -> keeps_flags c2 -> keeps_flags (if b then c1 else c2).
Proof. now destruct b. Qed.

Lemma keeps_flags_print_buf (buf buflen num_columns : Z) :
  keeps_flags (print_buf buf buflen num_columns).
Proof. intros w w' a t H. apply print_buf_inv in H. now destruct H as [-> _]. Qed.

Lemma keeps_flags_call_check_buf (buf buflen samplesize d c : Z) :
  keeps_flags (call_check_buf buf buflen samplesize d c).
Proof.
  intros w w' a t H. apply call_check_buf_inv in H. now destruct H as [-> _].
Qed.

Lemma keeps_flags_create_buf (buflen : Z) : keeps_flags (create_buf buflen).
Proof.
  intros w w' a t H. rewrite create_buf_run in H. cbv zeta in H.
  injection H as _ <- _. now split.
Qed.

Lemma keeps_flags_free (p : Z) : keeps_flags (free p).
Proof. intros w w' a t H. unfold free in H. injection H as _ <- _. now split. Qed.

(** Lines 217-228 set [verbose] and clear it again; they are entered only
    when it was clear. *)
Lemma keeps_flags_forced_dump (buf bytes i : Z) :
  keeps_flags (forced_dump buf bytes i).
Proof.
  intros w w' a t H. unfold forced_dump in H.
  destruct (verbose w) eqn:Hv; cbn [negb andb] in H;
    [injection H as _ <- _; now rewrite Hv|].
  destruct (negb (quiet w) && (0 =? i));
    [|injection H as _ <- _; now rewrite Hv].
  apply bind_inv in H. destruct H as (u1 & w1 & t1 & t2 & H1 & H2 & _).
  apply bind_inv in H2. destruct H2 as (u2 & w2 & t3 & t4 & H2 & H3 & _).
  unfold set_verbose in H1, H3.
  injection H1 as _ <- _. injection H3 as _ <- _. cbn [verbose quiet].
  assert (Hk : keeps_flags
                 (if 64 * 2 <? bytes
                  then print_buf buf 48 2;; print_buf (buf + bytes - 48) 48 2
                  else print_buf buf bytes 2)).
  { apply keeps_flags_if; [apply keeps_flags_bind; [|intros _]|];
      apply keeps_flags_print_buf. }
  apply Hk in H2. cbn [verbose quiet] in H2. now destruct H2 as [_ ->].
Qed.

Ltac keeps_flags_step :=
  first [ apply keeps_flags_ret
        | apply keeps_flags_print_buf
        | apply keeps_flags_call_check_buf
        | apply keeps_flags_create_buf
        | apply keeps_flags_free
        | apply keeps_flags_forced_dump
        | apply keeps_flags_bind; [|intros ?]
        | apply keeps_flags_if ].

Section Flags.

Context {lib : Interleaver}.

Lemma keeps_flags_interleave (layout : bladerf_channel_layout)
    (format : bladerf_format) (num_samples buf : Z) :
  keeps_flags (interleave layout format num_samples buf).
Proof.
  intros w w' a t H. unfold interleave in H.
  destruct (_interleave_interleave_buf layout format num_samples buf (w_mem w)).
  injection H as _ <- _. now split.
Qed.

Lemma keeps_flags_deinterleave (layout : bladerf_channel_layout)
    (format : bladerf_format) (num_samples buf : Z) :
  keeps_flags (deinterleave layout format num_samples buf).
Proof.
  intros w w' a t H. unfold deinterleave in H.
  destruct (_interleave_deinterleave_buf layout format num_samples buf (w_mem w)).
  injection H as _ <- _. now split.
Qed.

Lemma keeps_flags_chan_loop (buf bytes offset samplesize num_chan : Z) (k : nat) :
  forall i : Z, keeps_flags (chan_loop k buf bytes offset samplesize num_chan i).
Proof.
  induction k as [|k IH]; intros i; cbn [chan_loop].
  - apply keeps_flags_ret.
  - repeat keeps_flags_step. apply IH.
Qed.

Lemma keeps_flags_test_body (rxlay txlay : bladerf_channel_layout)
    (format : bladerf_format)
    (num_samples samplesize offset num_chan bytes buf : Z) :
  keeps_flags (test_body rxlay txlay format num_samples samplesize offset
                 num_chan bytes buf).
Proof.
  unfold test_body.
  repeat first [ apply keeps_flags_interleave
               | apply keeps_flags_deinterleave
               | apply keeps_flags_chan_loop
               | keeps_flags_step ].
Qed.

Lemma keeps_flags_test (rxlay txlay : bladerf_channel_layout)
    (format : bladerf_format) (num_samples : Z) :
  keeps_flags (test rxlay txlay format num_samples).
Proof.
  unfold test.
  repeat first [ apply keeps_flags_test_body | keeps_flags_step ].
Qed.

(** X12: [test] and [main] leave [verbose] and [quiet] as they found
    them, in every run that returns: the dump forced for channel 0 sets
    [verbose] only when it was clear, and clears it again. *)
Theorem test_and_main_keep_flags :
  (forall (rxlay txlay : bladerf_channel_layout) (format : bladerf_format)
          (num_samples status : Z) (w w' : world) (tr : list event),
     test rxlay txlay format num_samples w = Some (status, w', tr) ->
     verbose w' = verbose w /\ quiet w' = quiet w) /\
  (forall (status : Z) (w w' : world) (tr : list event),
     main w = Some (status, w', tr) ->
     verbose w' = verbose w /\ quiet w' = quiet w).
Proof.
  split.
  - intros rxlay txlay format num_samples status w w' tr.
    apply keeps_flags_test.
  - intros status w w' tr.
    assert (H : keeps_flags main); [|apply H].
    unfold main.
    repeat first [ apply keeps_flags_test | keeps_flags_step ].
Qed.

(** ** The buffers of a whole run *)

Lemma heap_paired_quiet (l : list event) (held : option Z) (rest : list event) :
  heap_free l = true -> heap_paired held (l ++ rest) = heap_paired held rest.
Proof.
  unfold heap_free. induction l as [|e l IH]; intros H; [reflexivity|].
  cbn [forallb] in H. apply andb_prop in H. destruct H as [He Hl].
  destruct e; cbn [is_heap negb] in He; try discriminate;
    cbn [app heap_paired]; exact (IH Hl).
Qed.

Lemma heap_paired_app (l1 l2 : list event) :
  forall held : option Z,
    heap_paired held l1 = true ->
    heap_paired held (l1 ++ l2) = heap_paired None l2.
Proof.
  induction l1 as [|e l1 IH]; intros held H.
  - cbn in H. destruct held; [discriminate|reflexivity].
  - destruct e; cbn [app heap_paired] in *; try (apply IH; exact H).
    + destruct held; [discriminate|]. apply IH. exact H.
    + destruct held as [q|]; [|discriminate].
      apply andb_prop in H. destruct H as [-> H]. cbn [andb].
      apply IH. exact H.
Qed.

Lemma test_heap_paired (rxlay txlay : bladerf_channel_layout)
    (format : bladerf_format) (num_samples status : Z) (w w' : world)
    (tr : list event) :
  test rxlay txlay format num_samples w = Some (status, w', tr) ->
  heap_paired None tr = true.
Proof.
  intros H. apply test_inv in H.
  destruct H as [| |buf s body Hbuf Hbody]; try reflexivity.
  cbn [heap_paired].
  destruct (Z.eqb_spec buf NULL) as [|_]; [contradiction|].
  rewrite heap_paired_quiet by (eapply body_heap_free; exact Hbody).
  cbn [heap_paired]. now rewrite Z.eqb_refl.
Qed.

Lemma run_until_negative_heap_paired (cs : list test_case) :
  forall (status : Z) (w w' : world) (tr : list event),
    run_until_negative cs w = Some (status, w', tr) ->
    heap_paired None tr = true.
Proof.
  induction cs as [|[[[rxlay txlay] format] num_samples] rest IH];
    intros status w w' tr H.
  - apply ret_inv in H. now destruct H as (_ & _ & ->).
  - cbn [run_until_negative] in H.
    apply bind_inv in H. destruct H as (s & w1 & t1 & t2 & H1 & H2 & ->).
    apply test_heap_paired in H1.
    rewrite (heap_paired_app _ _ _ H1).
    destruct rest as [|c rest'].
    + apply ret_inv in H2. now destruct H2 as (_ & _ & ->).
    + destruct (s <? 0).
      * apply ret_inv in H2. now destruct H2 as (_ & _ & ->).
      * exact (IH _ _ _ _ H2).
Qed.

(** X13: over a whole run of [main], the buffers of the cases are obtained
    and released one at a time: in the trace, a block that [create_buf]
    obtained is freed before the next one is asked for, nothing else is
    freed, and when [main] returns no block is left. *)
Theorem main_releases_every_buffer (status : Z) (w w' : world)
    (tr : list event) :
  main w = Some (status, w', tr) -> heap_paired None tr = true.
Proof.
  rewrite main_run_until_negative. apply run_until_negative_heap_paired.
Qed.

End Flags.

(** ** Where the per-channel checks read *)

(** The stride-[d] probes of [n] samples: the last one is at the last
    multiple of [d] below [n]. *)
Lemma scan_count_div (n d : Z) :
  1 <= d -> 0 <= n ->
  Z.of_nat (scan_count n d) =
  if n mod d =? 0 then n / d else n / d + 1.
Proof.
  intros Hd Hn.
  pose proof (scan_count_spec n d Hd Hn) as (H1 & H2 & _ & _).
  cbv zeta in H1, H2.
  pose proof (Z.div_mod n d ltac:(lia)) as Hdm.
  pose proof (Z.mod_pos_bound n d ltac:(lia)) as Hr.
  assert (Hq : 0 <= n / d) by (apply Z.div_pos; lia).
  set (K := Z.of_nat (scan_count n d)) in *.
  set (q := n / d) in *. set (r := n mod d) in *.
  destruct (Z.eqb_spec r 0) as [E|E].
  - rewrite E in Hdm. nia.
  - nia.
Qed.

(** X14: with samples of four bytes, the check of channel [i] (line 234)
    reads inside the buffer exactly when the number of samples [n] after
    the metadata is a multiple of the number of channels, or [i] is below
    the remainder [n mod num_chan].  Otherwise its last probe reads the
    four bytes after a channel's last whole sample, which are past the
    end of the buffer. *)
Theorem chan_check_reads_inside (verbose : bool) (m : mem)
    (buf bytes offset num_chan i : Z) (r : bool) (ps : list probe)
    (out : list line) :
  0 < buf -> 0 <= offset <= bytes -> bytes <= PTRDIFF_MAX ->
  1 <= num_chan -> 4 * num_chan <= SIZE_MOD -> 0 <= i < num_chan ->
  check_buf verbose m (chan_bufptr buf offset 4 i) (chan_buflen bytes offset)
            4 num_chan (chan_startval bytes offset num_chan i) =
    Some (r, ps, out) ->
  (forall p, In p ps -> buf <= p_ptr p /\ p_ptr p + 4 <= buf + bytes) <->
  (((bytes - offset) / 4) mod num_chan = 0 \/
   i < ((bytes - offset) / 4) mod num_chan).
Proof.
  intros Hbuf Ho Hb Hn Hn4 Hi Hc.
  assert (HS : SIZE_MOD = 18446744073709551616) by reflexivity.
  assert (HP : PTRDIFF_MAX = 9223372036854775807) by reflexivity.
  destruct (chan_args_exact buf bytes offset 4 num_chan i ltac:(lia)
              ltac:(lia) ltac:(lia) ltac:(lia) ltac:(lia))
    as (Hptr & Hlen & _).
  rewrite Hptr, Hlen in Hc.
  rewrite check_buf_scan in Hc by (unfold NULL; lia).
  cbv zeta in Hc. injection Hc as _ <- _.
  set (n := (bytes - offset) / 4) in *.
  assert (Hn0 : 0 <= n) by (apply Z.div_pos; lia).
  pose proof (Z.mul_div_le (bytes - offset) 4 ltac:(lia)) as Hlo.
  pose proof (Z.mul_succ_div_gt (bytes - offset) 4 ltac:(lia)) as Hhi.
  fold n in Hlo, Hhi.
  pose proof (scan_count_div n num_chan Hn Hn0) as HK.
  pose proof (Z.div_mod n num_chan ltac:(lia)) as Hdm.
  pose proof (Z.mod_pos_bound n num_chan ltac:(lia)) as Hr.
  assert (Hq : 0 <= n / num_chan) by (apply Z.div_pos; lia).
  set (q := n / num_chan) in *. set (rm := n mod num_chan) in *.
  unfold scan. split.
  - intros Hall.
    destruct (Z.eqb_spec rm 0) as [E|E]; [now left|]. right.
    assert (Hin : In (scan_probe m (buf + offset + i * 4) num_chan
                        (chan_startval bytes offset num_chan i)
                        (Z.to_nat q))
                     (map (scan_probe m (buf + offset + i * 4) num_chan
                             (chan_startval bytes offset num_chan i))
                          (seq 0 (scan_count n num_chan)))).
    { apply in_map, in_seq. lia. }
    apply Hall in Hin. unfold scan_probe in Hin. cbn [p_ptr] in Hin.
    rewrite Z2Nat.id in Hin by lia. nia.
  - intros Hdiv p Hin. apply in_map_iff in Hin.
    destruct Hin as (k & <- & Hk). apply in_seq in Hk.
    unfold scan_probe. cbn [p_ptr].
    destruct (Z.eqb_spec rm 0) as [E|E].
    + assert (Z.of_nat k * num_chan <= (q - 1) * num_chan) by nia. nia.
    + assert (Z.of_nat k * num_chan <= q * num_chan) by nia.
      destruct Hdiv as [|Hlt]; [contradiction|]. nia.
Qed.

(** ** Runs of test on a library that interleaves *)

(** The check of channel [i] on an interleaved buffer. *)
Lemma check_buf_interleaved (verbose : bool) (m : mem)
    (p bytes offset num_chan i : Z) :
  interleaved m p bytes offset num_chan ->
  0 < p -> 0 <= offset <= bytes -> bytes <= PTRDIFF_MAX ->
  offset mod 4 = 0 -> bytes mod 4 = 0 ->
  1 <= num_chan -> 4 * num_chan <= SIZE_MOD ->
  ((bytes - offset) / 4) mod num_chan = 0 -> 0 <= i < num_chan ->
  exists ps : list probe,
    check_buf verbose m (chan_bufptr p offset 4 i) (chan_buflen bytes offset)
              4 num_chan (chan_startval bytes offset num_chan i) =
    Some (true, ps, scan_lines verbose ps).
Proof.
  intros [_ Hil] Hp Ho Hb Ho4 Hb4 Hn Hn4 Hdiv Hi. cbv zeta in Hil.
  assert (HS : SIZE_MOD = 18446744073709551616) by reflexivity.
  assert (HP : PTRDIFF_MAX = 9223372036854775807) by reflexivity.
  destruct (chan_args_exact p bytes offset 4 num_chan i ltac:(lia)
              ltac:(lia) ltac:(lia) ltac:(lia) ltac:(lia))
    as (Hptr & Hlen & Hval).
  rewrite Hptr, Hlen, Hval.
  rewrite check_buf_scan by (unfold NULL; lia). cbv zeta.
  set (n := (bytes - offset) / 4) in *.
  assert (Hn0 : 0 <= n) by (apply Z.div_pos; lia).
  set (q := n / num_chan) in *.
  assert (Hq : n = num_chan * q).
  { pose proof (Z.div_mod n num_chan ltac:(lia)) as Hdm.
    rewrite Hdiv in Hdm. unfold q. lia. }
  assert (Hq0 : 0 <= q) by (apply Z.div_pos; lia).
  assert (Hbytes : bytes - offset = 4 * n).
  { pose proof (Z.div_mod (bytes - offset) 4 ltac:(lia)) as Hdm.
    assert (Hr : (bytes - offset) mod 4 = 0).
    { rewrite Zminus_mod, Hb4, Ho4. reflexivity. }
    fold n in Hdm. lia. }
  assert (Ho2 : offset = 2 * (offset / 2)).
  { pose proof (Z.div_mod offset 4 ltac:(lia)) as Hdm. rewrite Ho4 in Hdm.
    assert (offset / 2 = 2 * (offset / 4)).
    { rewrite Hdm at 1. rewrite Z.add_0_r.
      replace (4 * (offset / 4)) with (2 * (offset / 4) * 2) by lia.
      apply Z.div_mul. lia. }
    lia. }
  assert (Hstart : (offset + i * ((bytes - offset) / num_chan)) / 2 =
                   offset / 2 + 2 * (i * q)).
  { rewrite Hbytes, Hq.
    replace (4 * (num_chan * q)) with (4 * q * num_chan) by lia.
    rewrite Z.div_mul by lia.
    rewrite Ho2 at 1.
    replace (2 * (offset / 2) + i * (4 * q))
      with ((offset / 2 + 2 * (i * q)) * 2) by lia.
    apply Z.div_mul. lia. }
  assert (HK : Z.of_nat (scan_count n num_chan) = q).
  { rewrite scan_count_div by lia. rewrite Hdiv. reflexivity. }
  set (ps := scan m (p + offset + i * 4) n num_chan
               (((offset + i * ((bytes - offset) / num_chan)) / 2) mod 65536)).
  assert (Hok : mismatches ps = []).
  { unfold ps, scan. apply mismatches_none. intros k Hk.
    unfold probe_ok, scan_probe. cbn [p_expect p_actual].
    apply Z.eqb_eq.
    replace (p + offset + i * 4 + 4 * (Z.of_nat k * num_chan))
      with (p + offset + 4 * (Z.of_nat k * num_chan + i)) by lia.
    rewrite Hil by lia.
    rewrite (expected_pattern_word _ _ k eq_refl), Hstart.
    f_equal. lia. }
  exists ps. f_equal. f_equal. f_equal. apply forallb_probe_ok. exact Hok.
Qed.

Section Interleaving.

Context {lib : Interleaver}.

Lemma test_interleaving_run
    (rxlay txlay : bladerf_channel_layout) (format : bladerf_format)
    (num_samples p : Z) (rest : list Z) (w : world) :
  let samplesize := _interleave_calc_bytes_per_sample format in
  let offset := _interleave_calc_metadata_bytes format in
  let num_chan := _interleave_calc_num_channels rxlay in
  let bytes := wrap (samplesize * num_samples) in
  samplesize = 4 ->
  _interleave_calc_num_channels txlay = num_chan ->
  2 <= num_chan <= 32768 ->
  sizes_ok samplesize offset num_chan bytes ->
  offset mod 4 = 0 -> offset <= bytes ->
  ((bytes - offset) / 4) mod num_chan = 0 ->
  w_alloc w = p :: rest -> 0 < p ->
  (forall m, holds_pattern m p bytes ->
     fst (_interleave_interleave_buf txlay format num_samples p m) = 0 /\
     interleaved (snd (_interleave_interleave_buf txlay format num_samples p m))
                 p bytes offset num_chan) ->
  (forall m, interleaved m p bytes offset num_chan ->
     fst (_interleave_deinterleave_buf rxlay format num_samples p m) = 0 /\
     holds_pattern (snd (_interleave_deinterleave_buf rxlay format num_samples p m))
                p bytes) ->
  exists (w' : world) (tr : list event),
    test rxlay txlay format num_samples w = Some (0, w', tr) /\
    w_alloc w' = rest.
Proof.
  intros samplesize offset num_chan bytes Hss Htx Hn [_ Hb Ho _] Ho4 Hob Hdiv
         Ha Hp Hi Hd.
  assert (HS : SIZE_MOD = 18446744073709551616) by reflexivity.
  assert (HP : PTRDIFF_MAX = 9223372036854775807) by reflexivity.
  assert (Hb4 : bytes mod 4 = 0).
  { unfold bytes, wrap. rewrite Hss.
    rewrite Z.mod_mod_divide by (exists (2 ^ 62); reflexivity).
    rewrite Z.mul_comm. apply Z.mod_mul. lia. }
  set (w0 := mkWorld (create_buf_fill p bytes (w_mem w)) rest
                     (verbose w) (quiet w)).
  assert (Hcr : holds_pattern (w_mem w0) p bytes)
    by apply create_buf_fill_holds.
  destruct (Hi _ Hcr) as [Hs1 Hil].
  assert (Hrun1 : exists w1,
    interleave txlay format num_samples p w0 =
      Some (0, w1, [EvInterleave txlay format num_samples p 0]) /\
    interleaved (w_mem w1) p bytes offset num_chan /\
    w_alloc w1 = rest).
  { unfold interleave.
    destruct (_interleave_interleave_buf txlay format num_samples p (w_mem w0))
      as [s m']. cbn [fst snd] in Hs1, Hil. subst s.
    eexists. split; [reflexivity|]. split; [exact Hil|reflexivity]. }
  destruct Hrun1 as (w1 & Hrun1 & Hil1 & Hal1).
  destruct (Hd _ Hil1) as [Hs2 Hcr2].
  assert (Hrun2 : exists w2,
    deinterleave rxlay format num_samples p w1 =
      Some (0, w2, [EvDeinterleave rxlay format num_samples p 0]) /\
    holds_pattern (w_mem w2) p bytes /\
    w_alloc w2 = w_alloc w1).
  { unfold deinterleave.
    destruct (_interleave_deinterleave_buf rxlay format num_samples p (w_mem w1))
      as [s m']. cbn [fst snd] in Hs2, Hcr2. subst s.
    eexists. split; [reflexivity|]. split; [exact Hcr2|reflexivity]. }
  destruct Hrun2 as (w2 & Hrun2 & Hcr2' & Hal2).
  assert (He : Z.even offset = true).
  { rewrite Zeven_mod. apply Z.eqb_eq.
    rewrite <- (Z.mod_mod_divide offset 4 2) by (exists 2; reflexivity).
    rewrite Ho4. reflexivity. }
  destruct (test_forward_pass rxlay txlay format num_samples p rest w w1 w2)
    as (tr & Hrun); fold samplesize offset num_chan bytes;
    try assumption; try lia; try (unfold NULL; lia).
  - intros Hpos. destruct Hil1 as [Hmeta _].
    destruct (call_check_buf_pattern w1 p offset 0 offset samplesize Hmeta)
      as (out & Hc); try (unfold NULL; lia); try reflexivity.
    rewrite Z.add_0_r in Hc. change ((0 / 2) mod 65536) with 0 in Hc.
    now exists out.
  - intros i Hi0. rewrite Hss.
    destruct (check_buf_interleaved (verbose w1) (w_mem w1) p bytes offset
                num_chan i Hil1) as (ps & Hc); try assumption; try lia.
    unfold call_check_buf. rewrite Hc. now eexists.
  - apply (whole_check_pattern w2); try assumption; lia.
  - exists w2, tr. split; [exact Hrun|congruence].
Qed.


(** X15: a library that interleaves passes the multi-channel cases.  Take
    samples of four bytes, 2 to 32768 channels, a metadata size that is a
    multiple of 4 and a number of samples after the metadata that is a
    multiple of the number of channels.  If the forward transform reports
    success and turns a buffer that holds the pattern of [create_buf] into
    an interleaved one (metadata kept, sample [k] of channel [i] moved
    from index [i * (n / N) + k] to index [k * N + i]), and the inverse
    transform reports success and restores the pattern, then [test]
    returns 0: the
    start values and strides of lines 210-215 are those of an interleaved
    buffer. *)
Theorem test_passes_interleaving
    (rxlay txlay : bladerf_channel_layout) (format : bladerf_format)
    (num_samples p : Z) (rest : list Z) (w : world) :
  let samplesize := _interleave_calc_bytes_per_sample format in
  let offset := _interleave_calc_metadata_bytes format in
  let num_chan := _interleave_calc_num_channels rxlay in
  let bytes := wrap (samplesize * num_samples) in
  samplesize = 4 ->
  _interleave_calc_num_channels txlay = num_chan ->
  2 <= num_chan <= 32768 ->
  sizes_ok samplesize offset num_chan bytes ->
  offset mod 4 = 0 -> offset <= bytes ->
  ((bytes - offset) / 4) mod num_chan = 0 ->
  w_alloc w = p :: rest -> 0 < p ->
  (forall m, holds_pattern m p bytes ->
     fst (_interleave_interleave_buf txlay format num_samples p m) = 0 /\
     interleaved (snd (_interleave_interleave_buf txlay format num_samples p m))
                 p bytes offset num_chan) ->
  (forall m, interleaved m p bytes offset num_chan ->
     fst (_interleave_deinterleave_buf rxlay format num_samples p m) = 0 /\
     holds_pattern (snd (_interleave_deinterleave_buf rxlay format num_samples p m))
                p bytes) ->
  exists (w' : world) (tr : list event),
    test rxlay txlay format num_samples w = Some (0, w', tr).
Proof.
  intros samplesize offset num_chan bytes Hss Htx Hn Hok Ho4 Hob Hdiv Ha Hp
         Hi Hd.
  destruct (test_interleaving_run rxlay txlay format num_samples p rest w
              Hss Htx Hn Hok Ho4 Hob Hdiv Ha Hp Hi Hd)
    as (w' & tr & Hrun & _).
  now exists w', tr.
Qed.

(** ** Runs of main on such libraries *)

(** The sizes of the battery for a library with samples of four bytes. *)
Lemma battery_bytes (format : bladerf_format) :
  _interleave_calc_bytes_per_sample format = 4 ->
  wrap (_interleave_calc_bytes_per_sample format * NUM_SAMPLES) = 65536.
Proof. intros ->. reflexivity. Qed.

(** X16: [main] catches a library that does nothing.  Let the library have
    samples of four bytes, no metadata in the plain format and an even
    number of metadata bytes (4 to 65536) in the other, one channel in the
    X1 layouts and two in the X2 layouts; let both transforms report
    success and leave the buffer as it is; let [malloc] give three blocks.
    Then [main] returns -1 after exactly three cases: the two
    single-channel cases pass, the first two-channel case fails, and the
    fourth case is not run. *)
Theorem main_catches_missing_interleave (p1 p2 p3 : Z) (rest : list Z)
    (w : world) :
  (forall format, _interleave_calc_bytes_per_sample format = 4) ->
  _interleave_calc_metadata_bytes BLADERF_FORMAT_SC16_Q11 = 0 ->
  Z.even (_interleave_calc_metadata_bytes BLADERF_FORMAT_SC16_Q11_META) = true ->
  4 <= _interleave_calc_metadata_bytes BLADERF_FORMAT_SC16_Q11_META <= 65536 ->
  _interleave_calc_num_channels BLADERF_RX_X1 = 1 ->
  _interleave_calc_num_channels BLADERF_TX_X1 = 1 ->
  _interleave_calc_num_channels BLADERF_RX_X2 = 2 ->
  _interleave_calc_num_channels BLADERF_TX_X2 = 2 ->
  (forall layout format buf,
     leaves_buffer (_interleave_interleave_buf layout format NUM_SAMPLES buf)
                   buf 65536 /\
     leaves_buffer (_interleave_deinterleave_buf layout format NUM_SAMPLES buf)
                   buf 65536) ->
  w_alloc w = p1 :: p2 :: p3 :: rest -> 0 < p1 -> 0 < p2 -> 0 < p3 ->
  exists (w' : world) (tr : list event),
    main w = Some (-1, w', tr) /\ w_alloc w' = rest.
Proof.
  intros Hss Hm0 Hme Hm Hrx1 Htx1 Hrx2 Htx2 Hlib Ha Hp1 Hp2 Hp3.
  assert (HS : SIZE_MOD = 18446744073709551616) by reflexivity.
  assert (HP : PTRDIFF_MAX = 9223372036854775807) by reflexivity.
  assert (Hb := fun format => battery_bytes format (Hss format)).
  (* the first case *)
  destruct (test_untouched_single_run BLADERF_RX_X1 BLADERF_TX_X1
              BLADERF_FORMAT_SC16_Q11 NUM_SAMPLES p1 (p2 :: p3 :: rest) w)
    as (wa & ta & Hra & Haa);
    rewrite ?Hb, ?Hss, ?Hm0; try assumption; try lia; try reflexivity;
    try apply Hlib.
  { constructor; lia. }
  (* the second case *)
  destruct (test_untouched_single_run BLADERF_RX_X1 BLADERF_TX_X1
              BLADERF_FORMAT_SC16_Q11_META NUM_SAMPLES p2 (p3 :: rest) wa)
    as (wb & tb & Hrb & Hab);
    rewrite ?Hb, ?Hss; try assumption; try lia; try apply Hlib.
  { constructor; lia. }
  (* the third case *)
  destruct (test_untouched_multi_run BLADERF_RX_X2 BLADERF_TX_X2
              BLADERF_FORMAT_SC16_Q11 NUM_SAMPLES p3 rest wb)
    as (wc & tc & Hrc & Hac & _);
    rewrite ?Hb, ?Hss, ?Hm0, ?Hrx2; try assumption; try lia;
    try reflexivity; try apply Hlib.
  { constructor; lia. }
  exists wc. eexists. split; [|exact Hac].
  unfold main.
  eapply bind_run; [exact Hra|]. cbn [Z.ltb Z.compare].
  eapply bind_run; [exact Hrb|]. cbn [Z.ltb Z.compare].
  eapply bind_run; [exact Hrc|]. reflexivity.
Qed.

(** X17: [main] accepts a library that interleaves.  Let the library have
    samples of four bytes, no metadata in the plain format and a multiple
    of 8 bytes of metadata (8 to 65536) in the other, one channel in the X1
    layouts and two in the X2 layouts; let its transforms report success,
    leave a single-channel buffer as it is, turn a two-channel buffer that
    holds the pattern of [create_buf] into an interleaved one and back; let
    [malloc] give four blocks.  Then [main] runs the four cases and
    returns 0. *)
Theorem main_passes_interleaving (p1 p2 p3 p4 : Z) (rest : list Z)
    (w : world) :
  (forall format, _interleave_calc_bytes_per_sample format = 4) ->
  _interleave_calc_metadata_bytes BLADERF_FORMAT_SC16_Q11 = 0 ->
  _interleave_calc_metadata_bytes BLADERF_FORMAT_SC16_Q11_META mod 8 = 0 ->
  8 <= _interleave_calc_metadata_bytes BLADERF_FORMAT_SC16_Q11_META <= 65536 ->
  _interleave_calc_num_channels BLADERF_RX_X1 = 1 ->
  _interleave_calc_num_channels BLADERF_TX_X1 = 1 ->
  _interleave_calc_num_channels BLADERF_RX_X2 = 2 ->
  _interleave_calc_num_channels BLADERF_TX_X2 = 2 ->
  (forall format buf,
     leaves_buffer
       (_interleave_interleave_buf BLADERF_TX_X1 format NUM_SAMPLES buf)
       buf 65536 /\
     leaves_buffer
       (_interleave_deinterleave_buf BLADERF_RX_X1 format NUM_SAMPLES buf)
       buf 65536) ->
  (forall format buf m,
     holds_pattern m buf 65536 ->
     fst (_interleave_interleave_buf BLADERF_TX_X2 format NUM_SAMPLES buf m) = 0 /\
     interleaved
       (snd (_interleave_interleave_buf BLADERF_TX_X2 format NUM_SAMPLES buf m))
       buf 65536 (_interleave_calc_metadata_bytes format) 2) ->
  (forall format buf m,
     interleaved m buf 65536 (_interleave_calc_metadata_bytes format) 2 ->
     fst (_interleave_deinterleave_buf BLADERF_RX_X2 format NUM_SAMPLES buf m) = 0 /\
     holds_pattern
       (snd (_interleave_deinterleave_buf BLADERF_RX_X2 format NUM_SAMPLES buf m))
       buf 65536) ->
  w_alloc w = p1 :: p2 :: p3 :: p4 :: rest ->
  0 < p1 -> 0 < p2 -> 0 < p3 -> 0 < p4 ->
  exists (w' : world) (tr : list event),
    main w = Some (0, w', tr) /\ w_alloc w' = rest.
Proof.
  intros Hss Hm0 Hm8 Hm Hrx1 Htx1 Hrx2 Htx2 Hone Hil Hdl Ha Hp1 Hp2 Hp3 Hp4.
  assert (HS : SIZE_MOD = 18446744073709551616) by reflexivity.
  assert (HP : PTRDIFF_MAX = 9223372036854775807) by reflexivity.
  assert (Hb := fun format => battery_bytes format (Hss format)).
  set (mo := _interleave_calc_metadata_bytes BLADERF_FORMAT_SC16_Q11_META) in *.
  assert (Hmo : mo = 8 * (mo / 8)).
  { pose proof (Z.div_mod mo 8 ltac:(lia)). lia. }
  assert (Hme : Z.even mo = true).
  { rewrite Hmo. rewrite Z.even_mul. reflexivity. }
  assert (Hm4 : mo mod 4 = 0).
  { rewrite Hmo. replace (8 * (mo / 8)) with (2 * (mo / 8) * 4) by lia.
    apply Z.mod_mul. lia. }
  assert (Hdiv : ((65536 - mo) / 4) mod 2 = 0).
  { rewrite Hmo.
    replace (65536 - 8 * (mo / 8)) with ((16384 - 2 * (mo / 8)) * 4) by lia.
    rewrite Z.div_mul by lia.
    replace (16384 - 2 * (mo / 8)) with ((8192 - mo / 8) * 2) by lia.
    apply Z.mod_mul. lia. }
  destruct (test_untouched_single_run BLADERF_RX_X1 BLADERF_TX_X1
              BLADERF_FORMAT_SC16_Q11 NUM_SAMPLES p1 (p2 :: p3 :: p4 :: rest) w)
    as (wa & ta & Hra & Haa);
    rewrite ?Hb, ?Hss, ?Hm0; try assumption; try lia; try reflexivity;
    try apply Hone.
  { constructor; lia. }
  destruct (test_untouched_single_run BLADERF_RX_X1 BLADERF_TX_X1
              BLADERF_FORMAT_SC16_Q11_META NUM_SAMPLES p2 (p3 :: p4 :: rest) wa)
    as (wb & tb & Hrb & Hab);
    rewrite ?Hb, ?Hss; fold mo; try assumption; try lia; try apply Hone.
  { constructor; lia. }
  destruct (test_interleaving_run BLADERF_RX_X2 BLADERF_TX_X2
              BLADERF_FORMAT_SC16_Q11 NUM_SAMPLES p3 (p4 :: rest) wb)
    as (wc & tc & Hrc & Hac);
    rewrite ?Hb, ?Hss, ?Hrx2;
    try (intros m; apply Hil); try (intros m; apply Hdl);
    rewrite ?Hm0; try assumption; try lia; try reflexivity.
  { constructor; lia. }
  destruct (test_interleaving_run BLADERF_RX_X2 BLADERF_TX_X2
              BLADERF_FORMAT_SC16_Q11_META NUM_SAMPLES p4 rest wc)
    as (wd & td & Hrd & Had);
    rewrite ?Hb, ?Hss, ?Hrx2;
    try (intros m; apply Hil); try (intros m; apply Hdl);
    fold mo; try assumption; try lia; try reflexivity.
  { constructor; lia. }
  exists wd. eexists. split; [|exact Had].
  unfold main.
  eapply bind_run; [exact Hra|]. cbn [Z.ltb Z.compare].
  eapply bind_run; [exact Hrb|]. cbn [Z.ltb Z.compare].
  eapply bind_run; [exact Hrc|]. cbn [Z.ltb Z.compare].
  eapply bind_run; [exact Hrd|]. reflexivity.
Qed.

End Interleaving.

(** ** The library that interleaves *)

Lemma load8_permute (src : Z -> Z) (base n : Z) (m : mem) (j b : Z) :
  0 <= j < n -> 0 <= b < 4 ->
  load8 (permute_samples src base n m) (base + 4 * j + b) =
  load8 m (base + 4 * src j + b).
Proof.
  intros Hj Hb. unfold load8, permute_samples.
  destruct (Z.leb_spec base (base + 4 * j + b)); [|lia].
  destruct (Z.ltb_spec (base + 4 * j + b) (base + 4 * n)); [|lia].
  cbn [andb].
  replace (base + 4 * j + b - base) with (b + j * 4) by lia.
  rewrite Z.div_add, Z.mod_add by lia.
  rewrite (Z.div_small b 4), (Z.mod_small b 4) by lia. reflexivity.
Qed.

Lemma load16_permute (src : Z -> Z) (base n : Z) (m : mem) (j h : Z) :
  0 <= j < n -> h = 0 \/ h = 2 ->
  load16 (permute_samples src base n m) (base + 4 * j + h) =
  load16 m (base + 4 * src j + h).
Proof.
  intros Hj Hh. unfold load16.
  rewrite (load8_permute src base n m j h) by lia.
  replace (base + 4 * j + h + 1) with (base + 4 * j + (h + 1)) by lia.
  rewrite (load8_permute src base n m j (h + 1)) by lia.
  now rewrite Z.add_assoc.
Qed.

Lemma load32_permute (src : Z -> Z) (base n : Z) (m : mem) (j : Z) :
  0 <= j < n ->
  load32 (permute_samples src base n m) (base + 4 * j) =
  load32 m (base + 4 * src j).
Proof.
  intros Hj. unfold load32.
  pose proof (load16_permute src base n m j 0 Hj ltac:(lia)) as H0.
  rewrite !Z.add_0_r in H0. rewrite H0.
  rewrite (load16_permute src base n m j 2) by lia. reflexivity.
Qed.

Lemma load16_permute_outside (src : Z -> Z) (base n : Z) (m : mem) (x : Z) :
  x + 1 < base ->
  load16 (permute_samples src base n m) x = load16 m x.
Proof.
  intros Hx. unfold load16, load8, permute_samples.
  destruct (Z.leb_spec base x); [lia|].
  destruct (Z.leb_spec base (x + 1)); [lia|]. reflexivity.
Qed.

Lemma load16_range (m : mem) (a : Z) : 0 <= load16 m a < 65536.
Proof.
  unfold load16, load8.
  pose proof (Z.mod_pos_bound (m a) 256 ltac:(lia)).
  pose proof (Z.mod_pos_bound (m (a + 1)) 256 ltac:(lia)). lia.
Qed.

(** Interleaving a buffer that holds the pattern. *)
Lemma permute_interleaves (m : mem) (buf bytes offset num_chan : Z) :
  holds_pattern m buf bytes ->
  offset mod 4 = 0 -> 0 <= offset <= bytes -> 1 <= num_chan ->
  ((bytes - offset) / 4) mod num_chan = 0 ->
  let n := (bytes - offset) / 4 in
  interleaved
    (permute_samples (fun j => j mod num_chan * (n / num_chan) + j / num_chan)
                     (buf + offset) n m)
    buf bytes offset num_chan.
Proof.
  intros Hm Ho4 Ho Hn Hdiv n.
  assert (Hn0 : 0 <= n) by (apply Z.div_pos; lia).
  pose proof (Z.mul_div_le (bytes - offset) 4 ltac:(lia)) as Hlo. fold n in Hlo.
  set (q := n / num_chan).
  assert (Hq : n = num_chan * q).
  { pose proof (Z.div_mod n num_chan ltac:(lia)) as Hdm.
    fold n in Hdiv. rewrite Hdiv in Hdm. unfold q. lia. }
  assert (Hq0 : 0 <= q) by (apply Z.div_pos; lia).
  assert (He : Z.even offset = true).
  { rewrite Zeven_mod. apply Z.eqb_eq.
    rewrite <- (Z.mod_mod_divide offset 4 2) by (exists 2; reflexivity).
    rewrite Ho4. reflexivity. }
  split.
  - intros j Hj.
    pose proof (Z.mul_div_le offset 2 ltac:(lia)).
    rewrite load16_permute_outside by lia.
    apply (holds_pattern_prefix m buf bytes offset Hm); lia.
  - cbv zeta. fold n q. intros i k Hi Hk.
    rewrite load32_permute by nia.
    replace (k * num_chan + i) with (i + k * num_chan) by lia.
    rewrite Z.mod_add, Z.div_add by lia.
    rewrite Z.mod_small, Z.div_small by lia.
    rewrite Z.add_0_l.
    apply (pattern_word_at m buf bytes); try assumption; try lia; nia.
Qed.

(** Undoing it. *)
Lemma permute_deinterleaves (m : mem) (buf bytes offset num_chan : Z) :
  interleaved m buf bytes offset num_chan ->
  offset mod 4 = 0 -> bytes mod 4 = 0 -> 0 <= offset <= bytes ->
  1 <= num_chan -> ((bytes - offset) / 4) mod num_chan = 0 ->
  let n := (bytes - offset) / 4 in
  holds_pattern
    (permute_samples
       (fun j => j mod (n / num_chan) * num_chan + j / (n / num_chan))
       (buf + offset) n m)
    buf bytes.
Proof.
  intros [Hmeta Hil] Ho4 Hb4 Ho Hn Hdiv n. cbv zeta in Hil. fold n in Hil, Hdiv.
  assert (Hn0 : 0 <= n) by (apply Z.div_pos; lia).
  assert (Hbytes : bytes - offset = 4 * n).
  { pose proof (Z.div_mod (bytes - offset) 4 ltac:(lia)) as Hdm.
    assert (Hr : (bytes - offset) mod 4 = 0).
    { rewrite Zminus_mod, Hb4, Ho4. reflexivity. }
    fold n in Hdm. lia. }
  set (q := n / num_chan) in *.
  assert (Hq : n = num_chan * q).
  { pose proof (Z.div_mod n num_chan ltac:(lia)) as Hdm.
    rewrite Hdiv in Hdm. unfold q. lia. }
  assert (Hq0 : 0 <= q) by (apply Z.div_pos; lia).
  assert (Ho2 : offset = 4 * (offset / 4)).
  { pose proof (Z.div_mod offset 4 ltac:(lia)). lia. }
  assert (Hoh : offset / 2 = 2 * (offset / 4)).
  { rewrite Ho2 at 1.
    replace (4 * (offset / 4)) with (2 * (offset / 4) * 2) by lia.
    apply Z.div_mul. lia. }
  intros j Hj.
  assert (Hj2 : 2 * j + 2 <= bytes).
  { pose proof (Z.mul_div_le bytes 2 ltac:(lia)). lia. }
  destruct (Z_lt_ge_dec (2 * j) offset) as [Hlt|Hge].
  - rewrite load16_permute_outside by lia.
    apply Hmeta. lia.
  - (* word [j] is half [h] of sample [s] after the metadata *)
    set (t := j - offset / 2).
    assert (Ht : 0 <= t < 2 * n) by (unfold t; lia).
    set (s := t / 2). set (h := t mod 2).
    pose proof (Z.div_mod t 2 ltac:(lia)) as Hts. fold s h in Hts.
    pose proof (Z.mod_pos_bound t 2 ltac:(lia)) as Hh. fold h in Hh.
    assert (Hs : 0 <= s < n) by lia.
    assert (Hq1 : 1 <= q) by nia.
    pose proof (Z.div_mod s q ltac:(lia)) as Hsq.
    pose proof (Z.mod_pos_bound s q ltac:(lia)) as Hk.
    assert (Hi0 : 0 <= s / q) by (apply Z.div_pos; lia).
    assert (Hi : s / q < num_chan).
    { apply Z.div_lt_upper_bound; [lia|]. nia. }
    replace (buf + 2 * j) with (buf + offset + 4 * s + 2 * h) by lia.
    rewrite load16_permute by lia.
    specialize (Hil (s / q) (s mod q) ltac:(lia) ltac:(lia)).
    replace (s / q * q + s mod q) with s in Hil by lia.
    unfold load32, pattern_word in Hil.
    pose proof (load16_range m (buf + offset + 4 * (s mod q * num_chan + s / q)))
      as Hr0.
    pose proof (load16_range m
                  (buf + offset + 4 * (s mod q * num_chan + s / q) + 2)) as Hr2.
    pose proof (Z.mod_pos_bound (offset / 2 + 2 * s) 65536 ltac:(lia)) as Hp0.
    pose proof (Z.mod_pos_bound (offset / 2 + 2 * s + 1) 65536 ltac:(lia))
      as Hp1.
    assert (h = 0 \/ h = 1) as [Hh0|Hh1] by lia.
    + rewrite Hh0, Z.mul_0_r, Z.add_0_r.
      replace j with (offset / 2 + 2 * s) by lia. lia.
    + rewrite Hh1, Z.mul_1_r.
      replace j with (offset / 2 + 2 * s + 1) by lia. lia.
Qed.

Lemma interleaving_lib_sizes (format : bladerf_format)
    (layout : bladerf_channel_layout) :
  sizes_ok (@_interleave_calc_bytes_per_sample interleaving_lib format)
           (@_interleave_calc_metadata_bytes interleaving_lib format)
           (@_interleave_calc_num_channels interleaving_lib layout) 65536.
Proof. destruct format, layout; constructor; cbn; try lia; now right. Qed.

Lemma interleaving_lib_forward (format : bladerf_format) (buf : Z) (m : mem) :
  holds_pattern m buf 65536 ->
  fst (@_interleave_interleave_buf interleaving_lib BLADERF_TX_X2 format
         NUM_SAMPLES buf m) = 0 /\
  interleaved
    (snd (@_interleave_interleave_buf interleaving_lib BLADERF_TX_X2 format
            NUM_SAMPLES buf m))
    buf 65536 (@_interleave_calc_metadata_bytes interleaving_lib format) 2.
Proof.
  intros Hm. split; [reflexivity|].
  cbn [_interleave_interleave_buf _interleave_calc_metadata_bytes
       interleaving_lib sample_num_channels Z.ltb Z.compare Pos.compare
       Pos.compare_cont snd].
  change (4 * NUM_SAMPLES) with 65536.
  apply permute_interleaves; try assumption; destruct format; cbn; try lia;
    reflexivity.
Qed.

Lemma interleaving_lib_backward (format : bladerf_format) (buf : Z) (m : mem) :
  interleaved m buf 65536
    (@_interleave_calc_metadata_bytes interleaving_lib format) 2 ->
  fst (@_interleave_deinterleave_buf interleaving_lib BLADERF_RX_X2 format
         NUM_SAMPLES buf m) = 0 /\
  holds_pattern
    (snd (@_interleave_deinterleave_buf interleaving_lib BLADERF_RX_X2 format
            NUM_SAMPLES buf m))
    buf 65536.
Proof.
  intros Hm. split; [reflexivity|].
  cbn [_interleave_deinterleave_buf _interleave_calc_metadata_bytes
       interleaving_lib sample_num_channels Z.ltb Z.compare Pos.compare
       Pos.compare_cont snd] in *.
  change (4 * NUM_SAMPLES) with 65536.
  apply permute_deinterleaves; try assumption; destruct format; cbn; try lia;
    reflexivity.
Qed.

Lemma interleaving_lib_single (format : bladerf_format) (buf : Z) :
  leaves_buffer
    (@_interleave_interleave_buf interleaving_lib BLADERF_TX_X1 format
       NUM_SAMPLES buf) buf 65536 /\
  leaves_buffer
    (@_interleave_deinterleave_buf interleaving_lib BLADERF_RX_X1 format
       NUM_SAMPLES buf) buf 65536.
Proof. split; intros m; split; reflexivity. Qed.

(** * Concrete runs of the further properties *)

Lemma print_buf_dump_layout_witness :
  print_buf_dump true (create_buf_fill 4096 16 (fun _ => 0)) 8192 4096 16 2 =
  Some (dump_text (create_buf_fill 4096 16 (fun _ => 0)) 4096
                  (dump_columns_of 16 2) (Z.to_nat (dump_rows_of 16 2)),
        [EvMalloc (dump_rowsize_of 16 2) 8192; EvFree 8192]).
Proof.
  apply print_buf_dump_layout.
  - discriminate.
  - lia.
  - lia.
  - vm_compute. discriminate.
Defined.

(** The first 48 bytes of a buffer as [test] dumps them for channel 0:
    only the first whole rows are shown. *)
Example print_buf_dump_counting :
  print_buf_dump true (create_buf_fill 4096 16 (fun _ => 0)) 8192 4096 16 2 =
  Some ([RowLine 4096 ["0"; "0"; "0"; "0"; "0"; "1"; "0"; "0"; " ";
                       "0"; "2"; "0"; "0"; "0"; "3"; "0"; "0"]%char;
         RowLine 4104 ["0"; "4"; "0"; "0"; "0"; "5"; "0"; "0"; " ";
                       "0"; "6"; "0"; "0"; "0"; "7"; "0"; "0"]%char],
        [EvMalloc 25 8192; EvFree 8192]).
Proof. reflexivity. Qed.

(** Twelve bytes in eight columns: three cells, one row. *)
Example print_buf_dump_short_row :
  option_map fst (print_buf_dump true (create_buf_fill 4096 12 (fun _ => 0))
                                 8192 4096 12 8) =
  Some [RowLine 4096 ["0"; "0"; "0"; "0"; "0"; "1"; "0"; "0"; " ";
                      "0"; "2"; "0"; "0"; "0"; "3"; "0"; "0"; " ";
                      "0"; "4"; "0"; "0"; "0"; "5"; "0"; "0"]%char].
Proof. reflexivity. Qed.

Lemma print_buf_dump_no_result_witness :
  print_buf_dump true (fun _ => 0) 8192 4096 3 8 = None <->
  8 = 0 \/ 3 < 4 \/ (10 <= 8 /\ 40 <= 3).
Proof.
  apply print_buf_dump_no_result.
  - discriminate.
  - lia.
  - split; [lia | vm_compute; discriminate].
Defined.

(** Ten columns of a buffer of forty bytes: the row string of 89
    characters is too short by one. *)
Example print_buf_dump_ten_columns :
  print_buf_dump true (fun _ => 0) 8192 4096 40 10 = None /\
  print_buf_dump true (fun _ => 0) 8192 4096 40 9 <> None.
Proof. split; [reflexivity | vm_compute; discriminate]. Qed.

Lemma print_buf_dump_reads_buffer_witness :
  print_buf_dump true (fun _ => 0) 8192 4096 16 2 =
  print_buf_dump true (fun x => if x <? 4096 then 255 else 0) 8192 4096 16 2.
Proof.
  apply print_buf_dump_reads_buffer.
  - lia.
  - lia.
  - intros a Ha. unfold load8.
    destruct (Z.ltb_spec a 4096); [lia | reflexivity].
Defined.

Lemma check_buf_reads_buffer_witness :
  check_buf false (fun _ => 0) 4096 16 4 1 0 =
  check_buf false (fun x => if x <? 4112 then 0 else 255) 4096 16 4 1 0.
Proof.
  apply check_buf_reads_buffer.
  - lia.
  - lia.
  - intros x Hx. unfold load8.
    destruct (Z.ltb_spec x 4112); [reflexivity | lia].
Defined.


Lemma check_buf_rejects_created_witness :
  exists (ps : list probe) (out : list line),
    check_buf false (create_buf_fill 4096 32 (fun _ => 0)) (4096 + 0) 32 4 2 0 =
    Some (false, ps, out).
Proof.
  apply check_buf_rejects_created.
  - discriminate.
  - lia.
  - reflexivity.
  - lia.
  - split; [lia | vm_compute; discriminate].
  - lia.
  - lia.
  - vm_compute. reflexivity.
Defined.

Lemma create_buf_writes_inside_witness :
  (forall a, a < 4096 \/ 4096 + 5 <= a \/
             (Z.odd 5 = true /\ a = 4096 + 5 - 1) ->
             create_buf_fill 4096 5 (fun _ => 0) a = 0) /\
  (4096 = NULL -> forall a, create_buf_fill 4096 5 (fun _ => 0) a = 0).
Proof.
  apply (create_buf_writes_inside 5 4096 sample_world
           (mkWorld (create_buf_fill 4096 5 (fun _ => 0)) [] false false)
           [EvMalloc 5 4096]).
  - lia.
  - reflexivity.
Defined.

Lemma sample_lib_leaves (s : Z) (layout : bladerf_channel_layout)
    (format : bladerf_format) (num_samples buf bytes : Z) :
  leaves_buffer
    (@_interleave_interleave_buf (sample_lib 0 s) layout format num_samples buf)
    buf bytes /\
  leaves_buffer
    (@_interleave_deinterleave_buf (sample_lib s 0) layout format num_samples
       buf) buf bytes.
Proof. split; intros m; split; reflexivity. Qed.

Lemma test_passes_single_channel_witness :
  exists (w' : world) (tr : list event),
    @test (sample_lib 0 0) BLADERF_RX_X1 BLADERF_TX_X1
      BLADERF_FORMAT_SC16_Q11_META 8 sample_world = Some (0, w', tr).
Proof.
  apply (@test_passes_single_channel (sample_lib 0 0) BLADERF_RX_X1
           BLADERF_TX_X1 BLADERF_FORMAT_SC16_Q11_META 8 4096 []).
  - reflexivity.
  - reflexivity.
  - constructor; cbn; lia.
  - cbn. lia.
  - reflexivity.
  - vm_compute. discriminate.
  - reflexivity.
  - lia.
  - apply (sample_lib_leaves 0).
  - apply (sample_lib_leaves 0).
Defined.


Lemma test_without_samples_no_result_witness :
  @test (sample_lib 0 0) BLADERF_RX_X2 BLADERF_TX_X2 BLADERF_FORMAT_SC16_Q11 0
    sample_world = None.
Proof.
  apply (@test_without_samples_no_result (sample_lib 0 0) BLADERF_RX_X2
           BLADERF_TX_X2 BLADERF_FORMAT_SC16_Q11 4096 []).
  - reflexivity.
  - reflexivity.
  - cbn. lia.
  - reflexivity.
  - reflexivity.
  - reflexivity.
  - discriminate.
  - reflexivity.
Defined.

(** With [quiet] set the dump is not forced, and the same case passes. *)
Example test_without_samples_quiet :
  option_map (fun r => fst (fst r))
    (@test (sample_lib 0 0) BLADERF_RX_X2 BLADERF_TX_X2
       BLADERF_FORMAT_SC16_Q11 0 (mkWorld (fun _ => 0) [4096] false true)) =
  Some 0.
Proof. reflexivity. Qed.

Lemma main_releases_every_buffer_witness :
  heap_paired None
    [EvMalloc 65536 4096;
     EvInterleave BLADERF_TX_X1 BLADERF_FORMAT_SC16_Q11 16384 4096 5;
     EvFree 4096;
     EvMalloc 65536 NULL] = true.
Proof.
  apply (@main_releases_every_buffer (sample_lib 5 0) (-1) sample_world
           (mkWorld (create_buf_fill 4096 65536 (fun _ => 0)) [] false false)).
  reflexivity.
Defined.

(** Two channels and three samples: the second probe of channel 1 is at
    the end of the buffer of twelve bytes. *)
Lemma chan_check_reads_inside_witness :
  (forall p,
     In p [mkProbe 0 4100 262147 0; mkProbe 2 4108 393221 0] ->
     4096 <= p_ptr p /\ p_ptr p + 4 <= 4096 + 12) <->
  (((12 - 0) / 4) mod 2 = 0 \/ 1 < ((12 - 0) / 4) mod 2).
Proof.
  apply (chan_check_reads_inside false (fun _ => 0) 4096 12 0 2 1 false
           [mkProbe 0 4100 262147 0; mkProbe 2 4108 393221 0]
           [ErrLine 4100 0 262147; ErrLine 4108 0 393221]).
  - lia.
  - lia.
  - vm_compute. discriminate.
  - lia.
  - vm_compute. discriminate.
  - lia.
  - reflexivity.
Defined.

Lemma test_passes_interleaving_witness :
  exists (w' : world) (tr : list event),
    @test interleaving_lib BLADERF_RX_X2 BLADERF_TX_X2
      BLADERF_FORMAT_SC16_Q11_META NUM_SAMPLES sample_world = Some (0, w', tr).
Proof.
  apply (@test_passes_interleaving interleaving_lib BLADERF_RX_X2
           BLADERF_TX_X2 BLADERF_FORMAT_SC16_Q11_META NUM_SAMPLES 4096 []).
  - reflexivity.
  - reflexivity.
  - cbn. lia.
  - apply interleaving_lib_sizes.
  - reflexivity.
  - vm_compute. discriminate.
  - reflexivity.
  - reflexivity.
  - lia.
  - intros m. apply interleaving_lib_forward.
  - intros m. apply interleaving_lib_backward.
Defined.

Lemma main_catches_missing_interleave_witness :
  exists (w' : world) (tr : list event),
    @main (sample_lib 0 0)
      (mkWorld (fun _ => 0) [4096; 135168; 266240] false false) =
    Some (-1, w', tr) /\ w_alloc w' = [].
Proof.
  apply (@main_catches_missing_interleave (sample_lib 0 0) 4096 135168 266240).
  - reflexivity.
  - reflexivity.
  - reflexivity.
  - cbn. lia.
  - reflexivity.
  - reflexivity.
  - reflexivity.
  - reflexivity.
  - intros layout format buf. apply (sample_lib_leaves 0).
  - reflexivity.
  - lia.
  - lia.
  - lia.
Defined.

Lemma main_passes_interleaving_witness :
  exists (w' : world) (tr : list event),
    @main interleaving_lib
      (mkWorld (fun _ => 0) [4096; 135168; 266240; 397312] false false) =
    Some (0, w', tr) /\ w_alloc w' = [].
Proof.
  apply (@main_passes_interleaving interleaving_lib 4096 135168 266240 397312).
  - reflexivity.
  - reflexivity.
  - reflexivity.
  - cbn. lia.
  - reflexivity.
  - reflexivity.
  - reflexivity.
  - reflexivity.
  - exact interleaving_lib_single.
  - exact interleaving_lib_forward.
  - exact interleaving_lib_backward.
  - reflexivity.
  - lia.
  - lia.
  - lia.
  - lia.
Defined.

(** A small run of the library that interleaves: four samples in two
    channels, as the checks of [test] see them. *)
Example test_on_interleaving_lib :
  option_map (fun r => (fst (fst r), snd r))
    (@test interleaving_lib BLADERF_RX_X2 BLADERF_TX_X2
       BLADERF_FORMAT_SC16_Q11 4 sample_world) =
  Some (0,
        [EvMalloc 16 4096;
         EvInterleave BLADERF_TX_X2 BLADERF_FORMAT_SC16_Q11 4 4096 0;
         EvCheck 4096 16 4 2 0 [] true;
         EvCheck 4100 16 4 2 4 [] true;
         EvDeinterleave BLADERF_RX_X2 BLADERF_FORMAT_SC16_Q11 4 4096 0;
         EvCheck 4096 16 4 1 0 [] true;
         EvFree 4096]).
Proof. vm_compute. reflexivity. Qed.

Lemma check_buf_no_result_witness :
  check_buf false (fun _ => 0) 4096 16 4 0 0 = None <->
  4 = 0 \/ forall k : nat, loop_index 0 k < 16 / 4.
Proof.
  apply check_buf_no_result.
  - discriminate.
  - lia.
  - lia.
Defined.

(** A stride of 0 probes the first sample for ever. *)
Example check_buf_stride_zero :
  check_buf false (fun _ => 0) 4096 16 4 0 0 = None.
Proof. reflexivity. Qed.

